(** * NetSuite MCP gateway: the query-formatting and parameter-translation core

    A shallow embedding of
      - [src/tools/helper.ts]   ([NetSuiteHelper]: operator translator, textual
        and structured query compilers),
      - [src/utils/transform.ts] (the two result normalizers),
      - [src/tools/accounts/GetAccountBalance.ts] ([getChildrenByNumber]),
      - the paged fetch loop of the [get-accounts] tool,
    followed by the theorems that settle the claims C1..C10 of the
    specification against these definitions.

    Conventions.  A JavaScript object used as a dictionary is an association
    list in insertion order (the order [Object.keys] enumerates); keys that
    look like array indices are outside the model.  Where the code looks a
    column up by a name the caller chooses, the members inherited from
    [Object.prototype] are found as well ([columnOf], [scriptColumnOf]).  A
    [throw] is the left injection of a sum.  Counts, offsets, limits and
    record ids are integers ([Z]); values found in raw backend rows are
    [JsVal]s, their numbers binary64 values.  Logging is not modelled. *)

From Stdlib Require Import String Ascii List ZArith Bool Lia.
From Stdlib Require Import DecimalString.
From Stdlib Require DecimalFacts DecimalPos DecimalZ.
Import ListNotations.
Open Scope string_scope.
Open Scope Z_scope.

(* ================================================================= *)
(** ** JavaScript primitives used by the code *)

Module Js.

(** *** Strings *)

Definition is_upper (c : ascii) : bool :=
  let n := nat_of_ascii c in (Nat.leb 65 n && Nat.leb n 90)%bool.

Definition lower_ascii (c : ascii) : ascii :=
  if is_upper c then ascii_of_nat (nat_of_ascii c + 32) else c.

(** [String.prototype.toLowerCase], on the ASCII range. *)
Fixpoint toLowerCase (s : string) : string :=
  match s with
  | EmptyString => EmptyString
  | String c r => String (lower_ascii c) (toLowerCase r)
  end.

(** White space as [trim] and [parseFloat] see it (ASCII range). *)
Definition is_space (c : ascii) : bool :=
  let n := nat_of_ascii c in
  (Nat.eqb n 32 || (Nat.leb 9 n && Nat.leb n 13))%bool.

Fixpoint trimStart (s : string) : string :=
  match s with
  | String c r => if is_space c then trimStart r else s
  | EmptyString => EmptyString
  end.

Fixpoint trimEnd (s : string) : string :=
  match s with
  | EmptyString => EmptyString
  | String c r =>
      match trimEnd r with
      | EmptyString => if is_space c then EmptyString else String c EmptyString
      | r' => String c r'
      end
  end.

(** [String.prototype.trim]. *)
Definition trim (s : string) : string := trimEnd (trimStart s).

(** [s.split(sep)] for a one-character separator: never the empty list. *)
Fixpoint split (sep : ascii) (s : string) : list string :=
  match s with
  | EmptyString => [EmptyString]
  | String c r =>
      if Ascii.eqb c sep then EmptyString :: split sep r
      else match split sep r with
           | h :: t => String c h :: t
           | [] => [String c EmptyString]
           end
  end.

(** [Array.prototype.join]. *)
Definition join (sep : string) (l : list string) : string := String.concat sep l.

(** The first occurrence of [pat] in [s]: the text before it and after it. *)
Fixpoint cut (pat s : string) : option (string * string) :=
  if String.prefix pat s
  then Some (EmptyString, String.substring (String.length pat)
                                           (String.length s - String.length pat) s)
  else match s with
       | EmptyString => None
       | String c r =>
           match cut pat r with
           | Some (b, a) => Some (String c b, a)
           | None => None
           end
       end.

(** [String.prototype.includes]. *)
Definition includes (s sub : string) : bool :=
  match cut sub s with Some _ => true | None => false end.

(** The replacement text of [replace] (ECMAScript GetSubstitution) for a
    string pattern, which has no capture groups: [$$] is a dollar sign,
    [$&] the matched text, [$`] the text before the match, [$'] the text
    after it; any other dollar sign stands for itself. *)
Fixpoint getSubstitution (matched before after repl : string) : string :=
  match repl with
  | EmptyString => EmptyString
  | String "$" (String "$" r) =>
      String "$" (getSubstitution matched before after r)
  | String "$" (String "&" r) =>
      matched ++ getSubstitution matched before after r
  | String "$" (String "`" r) =>
      before ++ getSubstitution matched before after r
  | String "$" (String "'" r) =>
      after ++ getSubstitution matched before after r
  | String c r => String c (getSubstitution matched before after r)
  end.

(** [s.replace(pat, repl)] with a string pattern: the first occurrence only. *)
Definition replace (s pat repl : string) : string :=
  match cut pat s with
  | None => s
  | Some (b, a) => b ++ getSubstitution pat b a repl ++ a
  end.

(** [Number.prototype.toString] of an integer. *)
Definition string_of_Z (z : Z) : string := NilZero.string_of_int (Z.to_int z).

(** *** Numbers found in rows

    The numbers of the language are the binary64 values.  A finite one is
    held as its shortest decimal: [Dec m e] is the value nearest to
    [m * 10^-e], where [m * 10^-e] is the decimal of fewest digits that has
    this value nearest to it, kept normalised ([e = 0] or [m] not a
    multiple of ten).  This is the decimal the language prints, so equal
    numbers are equal terms. *)

Inductive number : Type :=
| NaN
| Infinity (negative : bool)
| Dec (m : Z) (e : nat).

Fixpoint normalise (m : Z) (e : nat) : number :=
  match e with
  | O => Dec m 0
  | S e' => if (m mod 10 =? 0) then normalise (m / 10) e' else Dec m e
  end.

Definition digit_of (c : ascii) : option Z :=
  let n := nat_of_ascii c in
  if (Nat.leb 48 n && Nat.leb n 57)%bool then Some (Z.of_nat (n - 48)) else None.

(** Reads a run of decimal digits: their value, how many, and the rest. *)
Fixpoint digits (acc : Z) (count : nat) (s : string) : Z * nat * string :=
  match s with
  | String c r =>
      match digit_of c with
      | Some d => digits (10 * acc + d) (S count) r
      | None => (acc, count, s)
      end
  | EmptyString => (acc, count, s)
  end.

(** The optional exponent part [e[+-]ddd]; ignored unless it has a digit. *)
Definition exponent (s : string) : Z :=
  match s with
  | String c r =>
      if (Ascii.eqb c "e" || Ascii.eqb c "E")%bool then
        match r with
        | String "-" r' =>
            let '(v, n, _) := digits 0 0 r' in if Nat.eqb n 0 then 0 else - v
        | String "+" r' =>
            let '(v, n, _) := digits 0 0 r' in if Nat.eqb n 0 then 0 else v
        | _ => let '(v, _, _) := digits 0 0 r in v
        end
      else 0
  | EmptyString => 0
  end.

(** **** Rounding to binary64 *)

Definition positive_part (k : Z) : Z := Z.max k 0.

(** [n / d] rounded to the nearest integer, a tie to the even one. *)
Definition roundHalfEven (n d : Z) : Z :=
  let quo := n / d in
  let rem := n mod d in
  if 2 * rem <? d then quo
  else if d <? 2 * rem then quo + 1
  else if Z.even quo then quo else quo + 1.

(** The binary64 value nearest to [a / b] for positive [a] and [b], as
    [(mantissa, exponent)] standing for [mantissa * 2^exponent], with a
    mantissa below [2^53] and an exponent of at least [-1074]; [None] when
    it is beyond the largest finite value. *)
Definition nearestDouble (a b : Z) : option (Z * Z) :=
  let l0 := Z.log2 a - Z.log2 b in
  let l := if a * 2 ^ positive_part (- l0) <? b * 2 ^ positive_part l0
           then l0 - 1 else l0 in
  let q := Z.max (l - 52) (-1074) in
  let mant := roundHalfEven (a * 2 ^ positive_part (- q)) (b * 2 ^ positive_part q) in
  let '(mant, q) := if mant =? 2 ^ 53 then (2 ^ 52, q + 1) else (mant, q) in
  if 971 <? q then None else Some (mant, q).

(** The number of decimal digits of a positive integer. *)
Definition nb_digits (z : Z) : Z := Z.of_nat (String.length (string_of_Z z)).

Fixpoint leading (fuel : nat) (a b j : Z) : Z :=
  match fuel with
  | O => j
  | S fuel' => if b <=? a * 10 ^ j then j else leading fuel' a b (j + 1)
  end.

(** The position [n] of the decimal point of [a / b]:
    [10^(n-1) <= a / b < 10^n]. *)
Definition position (a b : Z) : Z :=
  if b <=? a then nb_digits (a / b) else 1 - leading 400 a b 1.

Definition roundsTo (target : Z * Z) (s x : Z) : bool :=
  match nearestDouble (s * 10 ^ positive_part x) (10 ^ positive_part (- x)) with
  | Some (m, q) => ((m =? fst target) && (q =? snd target))%bool
  | None => false
  end.

(** The decimal [s * 10^x] of fewest digits, [k] of them or more, that has
    the value [target = a / b] nearest to it; of two with the same number
    of digits the closer one, of two as close the even one. *)
Fixpoint shortest (fuel : nat) (k a b n : Z) (target : Z * Z) : Z * Z :=
  match fuel with
  | O => (0, 0)
  | S fuel' =>
      let x := n - k in
      let num := a * 10 ^ positive_part (- x) in
      let den := b * 10 ^ positive_part x in
      let lo := num / den in
      let hi := lo + 1 in
      let rem := num mod den in
      let okLo := ((0 <? lo) && roundsTo target lo x)%bool in
      let okHi := roundsTo target hi x in
      if (okLo && okHi)%bool then
        (if 2 * rem <? den then lo
         else if den <? 2 * rem then hi
         else if Z.even lo then lo else hi, x)
      else if okLo then (lo, x)
      else if okHi then (hi, x)
      else shortest fuel' (k + 1) a b n target
  end.

(** The number nearest to [m * 10^x].  An integer of absolute value up
    to [2^53] is a number and its own shortest decimal. *)
Definition fromDecimal (m x : Z) : number :=
  if m =? 0 then Dec 0 0
  else if ((0 <=? x) && (x <=? 16) && (Z.abs (m * 10 ^ x) <=? 2 ^ 53))%bool
  then Dec (m * 10 ^ x) 0
  else if 400 <? x then Infinity (m <? 0)
  else if x + nb_digits (Z.abs m) <? -400 then Dec 0 0
  else
    let a := Z.abs m * 10 ^ positive_part x in
    let b := 10 ^ positive_part (- x) in
    match nearestDouble a b with
    | None => Infinity (m <? 0)
    | Some (mant, q) =>
        if mant =? 0 then Dec 0 0
        else
          let a' := mant * 2 ^ positive_part q in
          let b' := 2 ^ positive_part (- q) in
          let '(s, y) := shortest 20 1 a' b' (position a' b') (mant, q) in
          let s' := if m <? 0 then - s else s in
          if 0 <=? y then Dec (s' * 10 ^ y) 0 else normalise s' (Z.to_nat (- y))
    end.

(** The number a literal with digits [m], [frac] of them after the point,
    and exponent [ex] stands for. *)
Definition scale (m : Z) (frac : nat) (ex : Z) : number :=
  fromDecimal m (ex - Z.of_nat frac).

Definition parseUnsigned (neg : bool) (s : string) : number :=
  if String.prefix "Infinity" s then Infinity neg
  else
    let '(ip, ni, r) := digits 0 0 s in
    let '(m, nf, r') :=
      match r with
      | String "." r1 => digits ip 0 r1
      | _ => (ip, O, r)
      end in
    if (Nat.eqb ni 0 && Nat.eqb nf 0)%bool then NaN
    else scale (if neg then - m else m) nf (exponent r').

(** The global [parseFloat]: leading white space, an optional sign, the
    longest decimal literal; [NaN] when there is none. *)
Definition parseFloat (s : string) : number :=
  match trimStart s with
  | String "-" r => parseUnsigned true r
  | String "+" r => parseUnsigned false r
  | r => parseUnsigned false r
  end.

Fixpoint pad_zeros (n : nat) (s : string) : string :=
  match n with
  | O => s
  | S n' => if Nat.ltb (String.length s) n then String "0" (pad_zeros n' s) else s
  end.

Fixpoint stripZeros (fuel : nat) (s : Z) : Z :=
  match fuel with
  | O => s
  | S fuel' => if s mod 10 =? 0 then stripZeros fuel' (s / 10) else s
  end.

(** The exponent notation of the digits [s] with the decimal point at
    position [n]: [d.ddde+x]. *)
Definition exponential (negative : bool) (s n : Z) : string :=
  (if negative then "-" else "")
    ++ match string_of_Z s with
       | String c EmptyString => String c EmptyString
       | String c r => String c ("." ++ r)
       | EmptyString => EmptyString
       end
    ++ "e" ++ (if 0 <=? n - 1 then "+" else "-") ++ string_of_Z (Z.abs (n - 1)).

(** [String(n)] of a number ([Number::toString]): the digits in full when
    the decimal point is at a position above [-6] and up to [21], the
    exponent notation otherwise. *)
Definition string_of_number (n : number) : string :=
  match n with
  | NaN => "NaN"
  | Infinity false => "Infinity"
  | Infinity true => "-Infinity"
  | Dec m O =>
      if Z.abs m <? 10 ^ 21 then string_of_Z m
      else exponential (m <? 0) (stripZeros 400 (Z.abs m)) (nb_digits (Z.abs m))
  | Dec m e =>
      let a := Z.abs m in
      let p := 10 ^ Z.of_nat e in
      if -6 <? nb_digits a - Z.of_nat e then
        (if m <? 0 then "-" else "")
          ++ string_of_Z (a / p) ++ "."
          ++ pad_zeros e (string_of_Z (a mod p))
      else exponential (m <? 0) a (nb_digits a - Z.of_nat e)
  end.

(** *** Values *)

Inductive JsVal : Type :=
| JUndefined
| JNull
| JBool (b : bool)
| JNum (n : number)
| JStr (s : string).

(** ToBoolean: what [if (v)] tests. *)
Definition truthy (v : JsVal) : bool :=
  match v with
  | JUndefined | JNull => false
  | JBool b => b
  | JNum NaN => false
  | JNum (Infinity _) => true
  | JNum (Dec m _) => negb (m =? 0)
  | JStr s => negb (String.eqb s "")
  end.

(** [String(v)], which is also [v.toString()] where the latter is defined. *)
Definition String_ (v : JsVal) : string :=
  match v with
  | JUndefined => "undefined"
  | JNull => "null"
  | JBool true => "true"
  | JBool false => "false"
  | JNum n => string_of_number n
  | JStr s => s
  end.

Definition is_nullish (v : JsVal) : bool :=
  match v with JUndefined | JNull => true | _ => false end.

(** *** Dictionaries *)

Definition Dictionary (T : Type) : Type := list (string * T).

Definition keys {T} (d : Dictionary T) : list string := map fst d.

(** [d[k]]: [None] is [undefined]. *)
Fixpoint get {T} (d : Dictionary T) (k : string) : option T :=
  match d with
  | [] => None
  | (k', v) :: r => if String.eqb k' k then Some v else get r k
  end.

(** [d[k] = v]: an existing key keeps its place, a new one goes last. *)
Fixpoint set {T} (d : Dictionary T) (k : string) (v : T) : Dictionary T :=
  match d with
  | [] => [(k, v)]
  | (k', v') :: r =>
      if String.eqb k' k then (k', v) :: r else (k', v') :: set r k v
  end.

(** A template-literal hole or [+] on a possibly undefined string. *)
Definition str (o : option string) : string :=
  match o with Some s => s | None => "undefined" end.

(** Truthiness of a possibly undefined string. *)
Definition nonempty (o : option string) : bool :=
  match o with Some s => negb (String.eqb s "") | None => false end.

(** *** Members inherited from [Object.prototype]

    [get] reads the own keys of an object.  The member access [obj[k]] on
    an object written as a literal also finds, for a [k] the object does
    not have itself, the members of [Object.prototype]: functions, and for
    [__proto__] the prototype object, all of them truthy. *)
Definition Object_prototype : list string :=
  [ "constructor"; "__defineGetter__"; "__defineSetter__"; "hasOwnProperty";
    "__lookupGetter__"; "__lookupSetter__"; "isPrototypeOf"; "propertyIsEnumerable";
    "toString"; "valueOf"; "__proto__"; "toLocaleString" ].

Definition inherited (k : string) : bool := existsb (String.eqb k) Object_prototype.

End Js.

(* ================================================================= *)
(** ** Errors ([src/Models/CFError.ts]) and the result of code that may throw *)

Inductive ErrorName : Type := Config | Bank | UserErr | AIErr | APIErr.

Definition ErrorName_string (n : ErrorName) : string :=
  match n with
  | Config => "Config" | Bank => "Bank" | UserErr => "UserErr"
  | AIErr => "AIErr" | APIErr => "APIErr"
  end.

(** What a [throw] carries: a [CFError] of the repository, or the engine's
    [TypeError] for a property read on [undefined] (with the property read). *)
Inductive Thrown : Type :=
| CFError (name : ErrorName) (message : string)
| TypeError (reading : string).

(** [new CFError(name, message)]: the constructor prefixes the message. *)
Definition new_CFError (name : ErrorName) (message : string) : Thrown :=
  CFError name (ErrorName_string name ++ ":" ++ message).

Definition Result (A : Type) : Type := (Thrown + A)%type.
Definition ok {A} (a : A) : Result A := inr a.
Definition throw {A} (e : Thrown) : Result A := inl e.

Definition bind {A B} (r : Result A) (k : A -> Result B) : Result B :=
  match r with
  | inl e => inl e
  | inr a => k a
  end.

Notation "x <- r ;; k" := (bind r (fun x => k))
  (at level 61, r at next level, right associativity).

Definition is_ok {A} (r : Result A) : bool :=
  match r with inr _ => true | inl _ => false end.

(** The kind tag of a thrown [CFError]. *)
Definition thrown_kind {A} (r : Result A) : option ErrorName :=
  match r with
  | inl (CFError n _) => Some n
  | _ => None
  end.

(** [DateUtil] ([src/utils/date.ts]) delegates to the luxon library, which is
    not part of the repository: its two conversions are taken as given. *)
Module DateUtil.
Record t : Type := mk {
  ISOToFormat : string -> string -> string;
  FormatToISO : string -> string -> string
}.
End DateUtil.

(* ================================================================= *)
(** ** The generic envelope and the column maps ([src/tools/helper.ts]) *)

Module FilterParam.
Record t : Type := mk { Column : string; Operator : string; Value : string }.
End FilterParam.

Module OrderByParam.
Record t : Type := mk { Column : string; SortOrder : option string }.
End OrderByParam.

Module NetSuiteParams.
Record t : Type := mk {
  CountOnly : option bool;
  OrderBy : option OrderByParam.t;
  Filters : option (list FilterParam.t);
  Limit : option Z;
  Offset : option Z
}.
(** The empty envelope [{}]. *)
Definition empty : t := mk None None None None None.
End NetSuiteParams.

(** The [defaultSort] argument of both compilers. *)
Module DefaultSort.
Record t : Type := mk { Column : string; SortOrder : string }.
End DefaultSort.

Module SuiteQLColumn.
Record t : Type := mk {
  sql : string;
  type : string;
  format : option string;
  filterOnly : option bool
}.
End SuiteQLColumn.

Definition SuiteQLColumns : Type := Js.Dictionary SuiteQLColumn.t.

(** [Columns[key]] on a textual column map: the declared column, or for
    an inherited name the member of [Object.prototype], or [undefined]
    ([None]).  The compiler reads [sql], [type], [format] and [filterOnly]
    of what it finds, all [undefined] on an inherited member; it only
    concatenates [sql] and only compares [type] with type names, so the two
    are given as the text [undefined] prints as. *)
Definition inheritedSQLColumn : SuiteQLColumn.t :=
  SuiteQLColumn.mk "undefined" "undefined" None None.

Definition columnOf (Columns : SuiteQLColumns) (key : string) : option SuiteQLColumn.t :=
  match Js.get Columns key with
  | Some c => Some c
  | None => if Js.inherited key then Some inheritedSQLColumn else None
  end.

Module SuiteScriptColumn.
Record t : Type := mk {
  name : option string;
  type : string;
  filtertype : option string;
  format : option string;
  filterOnly : option bool;
  formula : option string;
  filterformula : option string;
  txt : option bool;
  join : option string;
  summary : option string;
  enum : option string
}.
(** A column that only declares its backend field name and its type. *)
Definition plain (n ty : string) : t :=
  mk (Some n) ty None None None None None None None None None.
End SuiteScriptColumn.

Definition SuiteScriptColumns : Type := Js.Dictionary SuiteScriptColumn.t.

(** [Columns[key]] on a structured column map, as [columnOf].  Of an
    inherited member every field the compiler reads is [undefined] but
    [name], which is the name of the function ([Object] for [constructor],
    none for the prototype object at [__proto__]); [type] is only compared
    with type names and printed. *)
Definition inheritedScriptColumn (key : string) : SuiteScriptColumn.t :=
  SuiteScriptColumn.mk
    (if String.eqb key "__proto__" then None
     else if String.eqb key "constructor" then Some "Object" else Some key)
    "undefined" None None None None None None None None None.

Definition scriptColumnOf (Columns : SuiteScriptColumns) (key : string)
  : option SuiteScriptColumn.t :=
  match Js.get Columns key with
  | Some c => Some c
  | None => if Js.inherited key then Some (inheritedScriptColumn key) else None
  end.

(** [params.CountOnly === true]. *)
Definition isCountOnly (params : NetSuiteParams.t) : bool :=
  match NetSuiteParams.CountOnly params with Some true => true | _ => false end.

(* ================================================================= *)
(** ** [NetSuiteHelper.getOperator] *)

Inductive ReqType : Type := sql | script.

Definition ReqType_string (r : ReqType) : string :=
  match r with sql => "sql" | script => "script" end.

Definition operatorNotFound (reqtype : ReqType) (datatype operator : string) : Thrown :=
  new_CFError AIErr
    ("Operator " ++ operator ++ " for datetype " ++ datatype
       ++ " not found for " ++ ReqType_string reqtype).

Definition getOperator (reqtype : ReqType) (datatype operator : string)
  : Result string :=
  let op o := String.eqb operator o in
  let notFound := throw (operatorNotFound reqtype datatype operator) in
  match reqtype with
  | sql =>
      if ((op "=" && String.eqb datatype "string") || op "Like")%bool
      then ok "LIKE"
      else if ((op "!=" && String.eqb datatype "string") || op "Not_Like")%bool
      then ok "NOT LIKE"
      else ok operator
  | script =>
      if String.eqb datatype "boolean" then ok "is"
      else if String.eqb datatype "number" then
        if op "=" then ok "EQUALTO"
        else if op "!=" then ok "NOTEQUALTO"
        else if op "<" then ok "LESSTHAN"
        else if op "<=" then ok "LESSTHANOREQUALTO"
        else if op ">" then ok "GREATERTHAN"
        else if op ">=" then ok "GREATERTHANOREQUALTO"
        else notFound
      else if String.eqb datatype "date" then
        if op "=" then ok "ON"
        else if op "!=" then ok "NOTON"
        else if op "<" then ok "BEFORE"
        else if op "<=" then ok "ONORBEFORE"
        else if op ">" then ok "AFTER"
        else if op ">=" then ok "ONORAFTER"
        else notFound
      else if String.eqb datatype "string" then
        if (op "=" || op "Like")%bool then ok "CONTAINS"
        else if (op "!=" || op "Not_Like")%bool then ok "DOESNOTCONTAIN"
        else notFound
      else if String.eqb datatype "id" then
        if (op "=" || op "Like")%bool then ok "ANYOF"
        else if (op "!=" || op "Not_Like")%bool then ok "NONEOF"
        else notFound
      else notFound
  end.

(* ================================================================= *)
(** ** The textual compiler: [getFiltersSQL] and [formatSQL] *)

Section TextualCompiler.

Variable DU : DateUtil.t.

(** The loop variables of [getFiltersSQL]. *)
Record SQLFilterLoop : Type := mkSQLFilterLoop {
  filters : string;
  processedFilters : nat;
  skippedFilters : nat
}.

(** How a filter value is written, by the column's type. *)
Definition formattedValue (columnConfig : SuiteQLColumn.t) (value : string) : string :=
  if String.eqb (SuiteQLColumn.type columnConfig) "date" then
    " TO_DATE('" ++ DateUtil.ISOToFormat DU value "yyyyMMdd" ++ "', 'YYYYMMDD') "
  else if String.eqb (SuiteQLColumn.type columnConfig) "string" then
    " '%" ++ value ++ "%' "
  else " '" ++ value ++ "' ".

(** One turn of the [for (const filter of filtersParams)] loop. *)
Definition getFiltersSQL_body (Columns : SuiteQLColumns) (st : SQLFilterLoop)
           (filter : FilterParam.t) : Result SQLFilterLoop :=
  match columnOf Columns (FilterParam.Column filter) with
  | None =>
      (* column not found: skippedFilters++; continue *)
      ok (mkSQLFilterLoop (filters st) (processedFilters st) (S (skippedFilters st)))
  | Some columnConfig =>
      let filters1 :=
        if negb (String.eqb (filters st) "") then filters st ++ " AND " else filters st in
      operator <- getOperator sql (SuiteQLColumn.type columnConfig)
                              (FilterParam.Operator filter) ;;
      let filters2 := filters1 ++ SuiteQLColumn.sql columnConfig in
      let filters3 := filters2 ++ " " ++ operator ++ " " in
      ok (mkSQLFilterLoop
            (filters3 ++ formattedValue columnConfig (FilterParam.Value filter))
            (S (processedFilters st)) (skippedFilters st))
  end.

Fixpoint getFiltersSQL_loop (Columns : SuiteQLColumns) (st : SQLFilterLoop)
         (filtersParams : list FilterParam.t) : Result SQLFilterLoop :=
  match filtersParams with
  | [] => ok st
  | filter :: rest =>
      st' <- getFiltersSQL_body Columns st filter ;;
      getFiltersSQL_loop Columns st' rest
  end.

Definition getFiltersSQL (Columns : SuiteQLColumns)
           (filtersParams : list FilterParam.t) : Result string :=
  st <- getFiltersSQL_loop Columns (mkSQLFilterLoop "" 0 0) filtersParams ;;
  ok (filters st).

(** The [columns] constant of [formatSQL]: the projected column list. *)
Definition formatSQL_columns (Columns : SuiteQLColumns) : string :=
  Js.join ", "
    (List.filter (fun k => negb (String.eqb k ""))
       (map (fun kv : string * SuiteQLColumn.t =>
               let (key, c) := kv in
               match SuiteQLColumn.filterOnly c with
               | Some true => ""
               | _ => SuiteQLColumn.sql c ++ " AS " ++ key
               end) Columns)).

(** The [limit] constant: the row-limit directive. *)
Definition formatSQL_limit (params : NetSuiteParams.t) : string :=
  if isCountOnly params then ""
  else match NetSuiteParams.Limit params with
       | Some l => if l =? 0 then "" else "TOP " ++ Js.string_of_Z l
       | None => ""
       end.

(** What replaces the [{Columns}] placeholder. *)
Definition formatSQL_select (Columns : SuiteQLColumns) (params : NetSuiteParams.t)
  : string :=
  if isCountOnly params then "COUNT(*) AS Count"
  else formatSQL_limit params ++ " " ++ formatSQL_columns Columns.

(** The [OrderBy] constant. *)
Definition formatSQL_OrderBy (Columns : SuiteQLColumns) (params : NetSuiteParams.t)
           (defaultSort : DefaultSort.t) : string :=
  if isCountOnly params then ""
  else
    let fallback :=
      match columnOf Columns (DefaultSort.Column defaultSort) with
      | Some c => SuiteQLColumn.sql c ++ " " ++ DefaultSort.SortOrder defaultSort
      | None => ""
      end in
    match NetSuiteParams.OrderBy params with
    | Some o =>
        match columnOf Columns (OrderByParam.Column o) with
        | Some c => SuiteQLColumn.sql c ++ " " ++ Js.str (OrderByParam.SortOrder o)
        | None => fallback
        end
    | None => fallback
    end.

(** What replaces the [{OrderBy}] placeholder. *)
Definition formatSQL_orderClause (Columns : SuiteQLColumns) (params : NetSuiteParams.t)
           (defaultSort : DefaultSort.t) : string :=
  let OrderBy := formatSQL_OrderBy Columns params defaultSort in
  if negb (String.eqb OrderBy "") then "ORDER BY " ++ OrderBy else "".

(** What replaces the [{Filters}] placeholder: the WHERE fragment. *)
Definition formatSQL_whereClause (Columns : SuiteQLColumns) (params : NetSuiteParams.t)
           (inbuiltFilter : string) : Result string :=
  filterString <-
    match NetSuiteParams.Filters params with
    | Some fs => getFiltersSQL Columns fs
    | None => ok ""
    end ;;
  let filters0 := if negb (String.eqb inbuiltFilter "") then " " ++ inbuiltFilter else "" in
  let filters1 :=
    if negb (String.eqb filterString "")
    then filters0 ++ (if negb (String.eqb filters0 "") then " AND " else "") ++ filterString
    else filters0 in
  ok (if negb (String.eqb filters1 "") then "WHERE " ++ filters1 else "").

Definition formatSQL (sql0 : string) (Columns : SuiteQLColumns)
           (params : NetSuiteParams.t) (inbuiltFilter : string)
           (defaultSort : DefaultSort.t) : Result string :=
  let sql1 := Js.replace sql0 "{Columns}" (formatSQL_select Columns params) in
  let sql2 := Js.replace sql1 "{OrderBy}"
                         (formatSQL_orderClause Columns params defaultSort) in
  where_ <- formatSQL_whereClause Columns params inbuiltFilter ;;
  ok (Js.replace sql2 "{Filters}" where_).

End TextualCompiler.

(** The filters for whose column [Columns[filter.Column]] is truthy: the
    column is declared, or its name is that of an inherited member. *)
Definition resolvable (Columns : SuiteQLColumns) (filter : FilterParam.t) : bool :=
  match columnOf Columns (FilterParam.Column filter) with Some _ => true | None => false end.

(* ================================================================= *)
(** ** The structured compiler: [getFiltersSearch] and [formatSearchObj] *)

(** An entry of a filter expression ([string | string[]]): a token such as
    ["AND"], or a condition.  A component of a condition built from a column
    without a field name is [undefined], here [None]. *)
Inductive FilterEntry : Type :=
| Token (s : string)
| Condition (parts : list (option string)).

(** A projected column of the search descriptor. *)
Module SearchColumn.
Record t : Type := mk {
  name : option string;
  txt : option bool;
  join : option string;
  summary : option string;
  formula : option string;
  sort : option string
}.
End SearchColumn.

(** The descriptor [formatSearchObj] returns. *)
Module SearchObj.
Record t : Type := mk {
  type : string;
  filters : list FilterEntry;
  columns : list SearchColumn.t;
  countOnly : bool;
  maxResults : Z;
  settings : list (string * string)
}.
End SearchObj.

Definition MAX_ARRAY_ITEMS : Z := 10000.

Section StructuredCompiler.

Variable DU : DateUtil.t.

(** The [colName] constant of [getFiltersSearch]. *)
Definition getFiltersSearch_colName (c : SuiteScriptColumn.t) : option string :=
  if Js.nonempty (SuiteScriptColumn.filterformula c) then SuiteScriptColumn.filterformula c
  else if Js.nonempty (SuiteScriptColumn.formula c) then SuiteScriptColumn.formula c
  else if Js.nonempty (SuiteScriptColumn.join c)
       then Some (Js.str (SuiteScriptColumn.join c) ++ "."
                    ++ Js.str (SuiteScriptColumn.name c))
  else SuiteScriptColumn.name c.

(** One turn of the loop of [getFiltersSearch]: [Columns[filter.Column]] is
    dereferenced without a test, so an absent column is a [TypeError]; an
    inherited member has no type, and [getOperator] throws on it. *)
Definition getFiltersSearch_body (Columns : SuiteScriptColumns)
           (filters : list FilterEntry) (filter : FilterParam.t)
  : Result (list FilterEntry) :=
  let filters1 := match filters with [] => filters | _ => (filters ++ [Token "AND"])%list end in
  match scriptColumnOf Columns (FilterParam.Column filter) with
  | None => throw (TypeError "filterformula")
  | Some c =>
      let colName := getFiltersSearch_colName c in
      operator <- getOperator script
                    (match SuiteScriptColumn.filtertype c with
                     | Some ft => ft
                     | None => SuiteScriptColumn.type c
                     end)
                    (FilterParam.Operator filter) ;;
      let value :=
        if String.eqb (SuiteScriptColumn.type c) "date"
        then DateUtil.ISOToFormat DU (FilterParam.Value filter)
               (match SuiteScriptColumn.format c with
                | Some f => f
                | None => "M/d/yyyy"
                end)
        else FilterParam.Value filter in
      ok (filters1 ++ [Condition [colName; Some operator; Some value]])%list
  end.

Fixpoint getFiltersSearch_loop (Columns : SuiteScriptColumns)
         (filters : list FilterEntry) (filtersParams : list FilterParam.t)
  : Result (list FilterEntry) :=
  match filtersParams with
  | [] => ok filters
  | filter :: rest =>
      filters' <- getFiltersSearch_body Columns filters filter ;;
      getFiltersSearch_loop Columns filters' rest
  end.

Definition getFiltersSearch (Columns : SuiteScriptColumns)
           (filtersParams : list FilterParam.t) : Result (list FilterEntry) :=
  getFiltersSearch_loop Columns [] filtersParams.

(** The [OrderBy] pair of [formatSearchObj]: the column it names is not
    looked up in the column map. *)
Definition formatSearchObj_OrderBy (params : NetSuiteParams.t)
           (defaultSort : DefaultSort.t) : string * string :=
  if isCountOnly params then ("", "")
  else match NetSuiteParams.OrderBy params with
       | Some o =>
           (OrderByParam.Column o,
            if Js.nonempty (OrderByParam.SortOrder o)
            then Js.str (OrderByParam.SortOrder o) else "ASC")
       | None => (DefaultSort.Column defaultSort, DefaultSort.SortOrder defaultSort)
       end.

(** [formula.split(':')[i].trim()]: a [TypeError] when there is no such part. *)
Definition formulaPart (formula : string) (i : nat) : Result string :=
  match nth_error (Js.split ":" formula) i with
  | Some part => ok (Js.trim part)
  | None => throw (TypeError "trim")
  end.

(** The callback of the [map] over [Object.keys(Columns)]: [None] is the
    empty object [{}] returned for a filter-only column, which the
    [lodash.isEmpty] filter then removes. *)
Definition formatSearchObj_column (OrderBy : string * string)
           (key : string) (c : SuiteScriptColumn.t) : Result (option SearchColumn.t) :=
  match SuiteScriptColumn.filterOnly c with
  | Some true => ok None
  | _ =>
      name <- (match SuiteScriptColumn.formula c with
               | Some f => if negb (String.eqb f "")
                           then (p <- formulaPart f 0 ;; ok (Some p))
                           else ok (SuiteScriptColumn.name c)
               | None => ok (SuiteScriptColumn.name c)
               end) ;;
      formula <- (match SuiteScriptColumn.formula c with
                  | Some f => if negb (String.eqb f "")
                              then (p <- formulaPart f 1 ;; ok (Some p))
                              else ok None
                  | None => ok None
                  end) ;;
      ok (Some (SearchColumn.mk name (SuiteScriptColumn.txt c)
                  (SuiteScriptColumn.join c) (SuiteScriptColumn.summary c) formula
                  (if String.eqb key (fst OrderBy) then Some (snd OrderBy) else None)))
  end.

Fixpoint formatSearchObj_columns (OrderBy : string * string)
         (Columns : SuiteScriptColumns) : Result (list SearchColumn.t) :=
  match Columns with
  | [] => ok []
  | (key, c) :: rest =>
      col <- formatSearchObj_column OrderBy key c ;;
      cols <- formatSearchObj_columns OrderBy rest ;;
      ok (match col with Some x => x :: cols | None => cols end)
  end.

(** The [limit] constant of [formatSearchObj]: [params.Limit || 0] outside
    count mode. *)
Definition formatSearchObj_limit (params : NetSuiteParams.t) : Z :=
  if isCountOnly params then 1
  else match NetSuiteParams.Limit params with
       | Some l => if l =? 0 then 0 else l
       | None => 0
       end.

Definition formatSearchObj (type : string) (Columns : SuiteScriptColumns)
           (params : NetSuiteParams.t) (inbuiltFilter : list FilterEntry)
           (defaultSort : DefaultSort.t) (settings : option (Js.Dictionary string))
  : Result SearchObj.t :=
  let settingsCopy := match settings with Some d => d | None => [] end in
  let OrderBy := formatSearchObj_OrderBy params defaultSort in
  columns <- formatSearchObj_columns OrderBy Columns ;;
  let limit := formatSearchObj_limit params in
  filters <- (match NetSuiteParams.Filters params with
              | Some fs => getFiltersSearch Columns fs
              | None => ok []
              end) ;;
  let filters0 :=
    match inbuiltFilter, filters with
    | _ :: _, _ :: _ => (inbuiltFilter ++ [Token "AND"])%list
    | _, _ => inbuiltFilter
    end in
  (* the [countOnly] field keeps its initial value [false] *)
  ok (SearchObj.mk type (filters0 ++ filters)%list columns false limit settingsCopy).

(** The start of [searchRestlet]: the descriptor is compiled, its two
    paging fields are defaulted and the cap is checked; what is returned
    here is the body of the request sent to the backend. *)
Definition searchRestletParams (type : string) (Columns : SuiteScriptColumns)
           (params : NetSuiteParams.t) (inbuiltFilter : list FilterEntry)
           (defaultSort : DefaultSort.t) (settings : option (Js.Dictionary string))
  : Result SearchObj.t :=
  obj <- formatSearchObj type Columns params inbuiltFilter defaultSort settings ;;
  let countOnly := (SearchObj.countOnly obj || false)%bool in
  let maxResults :=
    if SearchObj.maxResults obj =? 0 then MAX_ARRAY_ITEMS else SearchObj.maxResults obj in
  if maxResults >? MAX_ARRAY_ITEMS
  then throw (new_CFError UserErr
                ("Cannot fetch more than " ++ Js.string_of_Z MAX_ARRAY_ITEMS
                   ++ " in a single request"))
  else ok (SearchObj.mk (SearchObj.type obj) (SearchObj.filters obj)
             (SearchObj.columns obj) countOnly maxResults (SearchObj.settings obj)).

End StructuredCompiler.

(* ================================================================= *)
(** ** The result normalizers ([src/utils/transform.ts]) *)

(** A declared column as the normalizers read it. *)
Module PropertyName.
Record t : Type := mk {
  name : option string;
  type : string;
  format : option string
}.
End PropertyName.

(** A raw row of the textual backend, and a normalized row. *)
Definition Row : Type := Js.Dictionary Js.JsVal.

(** The [sourceKey] constant of [transform]: [field.name ?? propertyName]. *)
Definition sourceKeyOf (propertyName : string) (field : PropertyName.t) : string :=
  match PropertyName.name field with Some n => n | None => propertyName end.

Section Transform.

Variable DU : DateUtil.t.

(** [Object.keys(obj).find(key => key.toLowerCase() === sourceKey.toLowerCase())]. *)
Definition findMatchingKey (obj : Row) (sourceKey : string) : option string :=
  List.find (fun key => String.eqb (Js.toLowerCase key) (Js.toLowerCase sourceKey))
            (Js.keys obj).

(** The callback of the [forEach] of [transform], on one declared column:
    the value is stored under [sourceKey]. *)
Definition transform_property (obj newObj : Row) (propertyName : string)
           (field : PropertyName.t) : Row :=
  let sourceKey := sourceKeyOf propertyName field in
  match findMatchingKey obj sourceKey with
  | None => newObj
  | Some matchingKey =>
      if String.eqb matchingKey "" then newObj
      else
        let v := match Js.get obj matchingKey with
                 | Some v => v
                 | None => Js.JUndefined
                 end in
        if Js.is_nullish v then newObj
        else if String.eqb (PropertyName.type field) "number" then
          Js.set newObj sourceKey (Js.JNum (Js.parseFloat (Js.String_ v)))
        else
          match String.eqb (PropertyName.type field) "date", PropertyName.format field with
          | true, Some fmt =>
              Js.set newObj sourceKey
                     (Js.JStr (DateUtil.FormatToISO DU (Js.String_ v) fmt))
          | _, _ =>
              if String.eqb (PropertyName.type field) "boolean" then
                Js.set newObj sourceKey
                       (if String.eqb (Js.String_ v) "1" then Js.JBool true
                        else if String.eqb (Js.String_ v) "0" then Js.JBool false
                        else v)
              else Js.set newObj sourceKey v
          end
  end.

Definition transform_row (propertyNames : Js.Dictionary PropertyName.t) (obj : Row) : Row :=
  fold_left (fun newObj kv => transform_property obj newObj (fst kv) (snd kv))
            propertyNames [].

Definition transform (jsonArray : list Row)
           (propertyNames : Js.Dictionary PropertyName.t) : list Row :=
  map (transform_row propertyNames) jsonArray.

(** The callback of the [forEach] of [transformArray], on the column at
    position [index]: the value is stored under the logical name. *)
Definition transformArray_property (obj : list Js.JsVal) (newObj : Row)
           (propertyName : string) (field : PropertyName.t) (index : nat) : Row :=
  let v := nth index obj Js.JUndefined in
  if Js.truthy v then
    if String.eqb (PropertyName.type field) "number" then
      Js.set newObj propertyName (Js.JNum (Js.parseFloat (Js.String_ v)))
    else
      match String.eqb (PropertyName.type field) "date", PropertyName.format field with
      | true, Some fmt =>
          Js.set newObj propertyName
                 (Js.JStr (DateUtil.FormatToISO DU (Js.String_ v) fmt))
      | _, _ => Js.set newObj propertyName v
      end
  else newObj.

Fixpoint transformArray_from (index : nat) (propertyNames : Js.Dictionary PropertyName.t)
         (obj : list Js.JsVal) (newObj : Row) : Row :=
  match propertyNames with
  | [] => newObj
  | (propertyName, field) :: rest =>
      transformArray_from (S index) rest obj
        (transformArray_property obj newObj propertyName field index)
  end.

Definition transformArray_row (propertyNames : Js.Dictionary PropertyName.t)
           (obj : list Js.JsVal) : Row :=
  transformArray_from 0 propertyNames obj [].

Definition transformArray (jsonArray : list (list Js.JsVal))
           (propertyNames : Js.Dictionary PropertyName.t) : list Row :=
  map (transformArray_row propertyNames) jsonArray.

End Transform.

(** The value the object-keyed variant reads for a source key, [None] when it
    treats the column as absent: no key of the row matches, the matching key
    is the empty string, or the value is [null] or [undefined]. *)
Definition sourceValue (obj : Row) (sourceKey : string) : option Js.JsVal :=
  match findMatchingKey obj sourceKey with
  | None => None
  | Some matchingKey =>
      if String.eqb matchingKey "" then None
      else match Js.get obj matchingKey with
           | Some v => if Js.is_nullish v then None else Some v
           | None => None
           end
  end.

(** The value [transform] stores for a source value that is neither [null]
    nor [undefined], by the type of the column: a number is parsed, a date
    with a format is converted, a [boolean] reads ["1"] and ["0"], anything
    else is stored as it is. *)
Definition transform_value (DU : DateUtil.t) (field : PropertyName.t) (v : Js.JsVal)
  : Js.JsVal :=
  if String.eqb (PropertyName.type field) "number" then
    Js.JNum (Js.parseFloat (Js.String_ v))
  else
    match String.eqb (PropertyName.type field) "date", PropertyName.format field with
    | true, Some fmt => Js.JStr (DateUtil.FormatToISO DU (Js.String_ v) fmt)
    | _, _ =>
        if String.eqb (PropertyName.type field) "boolean" then
          if String.eqb (Js.String_ v) "1" then Js.JBool true
          else if String.eqb (Js.String_ v) "0" then Js.JBool false
          else v
        else v
    end.

(** A [SuiteQLColumns] map passed where [transform] expects its property
    names: the [name] field is absent. *)
Definition propertyNames_of (Columns : SuiteQLColumns) : Js.Dictionary PropertyName.t :=
  map (fun kv : string * SuiteQLColumn.t =>
         (fst kv, PropertyName.mk None (SuiteQLColumn.type (snd kv))
                                  (SuiteQLColumn.format (snd kv)))) Columns.

(* ================================================================= *)
(** ** [GetAccountBalance.getChildrenByNumber] *)

Module AccountData.
Record t : Type := mk {
  Id : Z;
  AccountNumber : string;
  Name : option string;
  ParentNumber : option string
}.
End AccountData.

Module GetAccountBalance.

(** The ids of the records whose [ParentNumber] is [currentNumb]. *)
Definition childrenOf (accountData : list AccountData.t) (currentNumb : string) : list Z :=
  map AccountData.Id
      (List.filter (fun node =>
                      match AccountData.ParentNumber node with
                      | Some p => String.eqb p currentNumb
                      | None => false
                      end) accountData).

(** [findRecursively], threading the shared [result] array.  The recursion
    of the source has no bound; [fuel] bounds its depth and [None] means
    the bound was reached.  The recursive call is made on the child's id
    rendered as a string ([child.toString()]). *)
Fixpoint findRecursively (fuel : nat) (accountData : list AccountData.t)
         (result : list Z) (currentNumb : string) : option (list Z) :=
  match fuel with
  | O => None
  | S fuel' =>
      let children := childrenOf accountData currentNumb in
      fold_left (fun acc child =>
                   match acc with
                   | Some r => findRecursively fuel' accountData r (Js.string_of_Z child)
                   | None => None
                   end)
                children (Some (result ++ children)%list)
  end.

Definition getChildrenByNumber (fuel : nat) (accountData : list AccountData.t)
           (Numb : string) : option (list Z) :=
  let result :=
    match List.find (fun node => String.eqb (AccountData.AccountNumber node) Numb)
                    accountData with
    | Some selfAcc => [AccountData.Id selfAcc]
    | None => []
    end in
  findRecursively fuel accountData result Numb.

End GetAccountBalance.

(* ================================================================= *)
(** ** The paged fetch loop of the [get-accounts] tool *)

(** What [NetSuiteHelper.executeSuiteQL] resolves to. *)
Module SuiteQLResult.
Record t : Type := mk {
  totalCount : Z;
  items : list Row;
  hasMore : bool;
  offset : Z;
  count : Z
}.
End SuiteQLResult.

Module GetAccounts.

(** What the loop does to the outside world, in order. *)
Inductive Event : Type :=
| Delay (ms : Z)
| Execute (query : string) (offset : Z).

(** How the handler leaves the loop. *)
Inductive Outcome : Type :=
| CountResult (Count : Z)
| TotalData (totalData : list Row).

(** The offsets of the executor calls of a trace, in order. *)
Fixpoint offsets (trace : list Event) : list Z :=
  match trace with
  | [] => []
  | Execute _ o :: r => o :: offsets r
  | Delay _ :: r => offsets r
  end.

(** The delay the loop takes before a request at a positive offset. *)
Definition delayBefore (offset : Z) : list Event :=
  if offset >? 0 then [Delay 100] else [].

Section Loop.

Variable DU : DateUtil.t.

(** The executor is a collaborator with a state of its own: a call takes
    the query and the offset and either throws or answers. *)
Variable ExecutorState : Type.
Variable executeSuiteQL :
  ExecutorState -> string -> Z -> Result SuiteQLResult.t * ExecutorState.

(** The [while (continueLoop)] loop.  The source puts no bound on the
    number of turns; [fuel] does, and [None] means it ran out. *)
Fixpoint fetchLoop (fuel : nat) (formattedSQL : string) (Columns : SuiteQLColumns)
         (CountOnly : bool) (st : ExecutorState) (totalData : list Row)
         (dataOffset : Z) (trace : list Event)
  : option (Result Outcome * list Event * ExecutorState) :=
  match fuel with
  | O => None
  | S fuel' =>
      let trace2 :=
        (trace ++ delayBefore dataOffset ++ [Execute formattedSQL dataOffset])%list in
      match executeSuiteQL st formattedSQL dataOffset with
      | (inl e, st') => Some (inl e, trace2, st')
      | (inr data, st') =>
          if CountOnly then
            Some (inr (CountResult (SuiteQLResult.count data)), trace2, st')
          else
            let output :=
              transform DU (SuiteQLResult.items data) (propertyNames_of Columns) in
            let totalData' := (totalData ++ output)%list in
            if SuiteQLResult.hasMore data then
              fetchLoop fuel' formattedSQL Columns CountOnly st' totalData'
                        (SuiteQLResult.offset data + SuiteQLResult.count data) trace2
            else Some (inr (TotalData totalData'), trace2, st')
      end
  end.

(** The loop from its initial state: no data, offset 0. *)
Definition fetchAll (fuel : nat) (formattedSQL : string) (Columns : SuiteQLColumns)
           (CountOnly : bool) (st : ExecutorState)
  : option (Result Outcome * list Event * ExecutorState) :=
  fetchLoop fuel formattedSQL Columns CountOnly st [] 0 [].

End Loop.

End GetAccounts.

(* ================================================================= *)
(** ** The operator tables as the specification words them (section 4.1)

    These definitions follow the specification, not the source; the
    theorems of claim C2 compare [getOperator] with them. *)

Module Spec.

(** Textual rule: "for dataType = string, equals and like both map to LIKE,
    and not-equals/not-like both map to NOT LIKE; every other operator maps
    to itself unchanged". *)
Definition textual (dataType genericOperator : string) : option string :=
  if String.eqb dataType "string" then
    match Js.get [("=", "LIKE"); ("Like", "LIKE");
                  ("!=", "NOT LIKE"); ("Not_Like", "NOT LIKE")] genericOperator with
    | Some token => Some token
    | None => Some genericOperator
    end
  else Some genericOperator.

(** Structured rule, one table per data type; [boolean] is apart because
    every operator maps to [is]. *)
Definition structured_tables : Js.Dictionary (Js.Dictionary string) :=
  [ ("number", [("=", "EQUALTO"); ("!=", "NOTEQUALTO"); ("<", "LESSTHAN");
                ("<=", "LESSTHANOREQUALTO"); (">", "GREATERTHAN");
                (">=", "GREATERTHANOREQUALTO")]);
    ("date", [("=", "ON"); ("!=", "NOTON"); ("<", "BEFORE");
              ("<=", "ONORBEFORE"); (">", "AFTER"); (">=", "ONORAFTER")]);
    ("string", [("=", "CONTAINS"); ("Like", "CONTAINS");
                ("!=", "DOESNOTCONTAIN"); ("Not_Like", "DOESNOTCONTAIN")]);
    ("id", [("=", "ANYOF"); ("Like", "ANYOF");
            ("!=", "NONEOF"); ("Not_Like", "NONEOF")]) ].

Definition structured (dataType genericOperator : string) : option string :=
  if String.eqb dataType "boolean" then Some "is"
  else match Js.get structured_tables dataType with
       | Some table => Js.get table genericOperator
       | None => None
       end.

(** [translate]: the documented token, or [None] where the specification
    asks for an [UnsupportedOperator] error. *)
Definition translate (targetBackend : ReqType) (dataType genericOperator : string)
  : option string :=
  match targetBackend with
  | sql => textual dataType genericOperator
  | script => structured dataType genericOperator
  end.

(** The tables with the one change the code forces: on the textual backend
    [Like] and [Not_Like] become [LIKE] and [NOT LIKE] whatever the data
    type. *)
Definition translate_amended (targetBackend : ReqType)
           (dataType genericOperator : string) : option string :=
  match targetBackend with
  | sql =>
      if String.eqb genericOperator "Like" then Some "LIKE"
      else if String.eqb genericOperator "Not_Like" then Some "NOT LIKE"
      else translate sql dataType genericOperator
  | script => translate script dataType genericOperator
  end.

End Spec.

(* ================================================================= *)
(** ** Inputs named by the specification's testable properties *)

Module Inputs.

(** A stand-in for the date library where a closed term needs one; none of
    the inputs below has a date column. *)
Definition noDates : DateUtil.t :=
  DateUtil.mk (fun _ _ => "Invalid DateTime") (fun _ _ => "").

(** Hierarchy resolver, recursive expansion (section 8). *)
Definition accounts : list AccountData.t :=
  [ AccountData.mk 1 "4000" None None;
    AccountData.mk 2 "4010" None (Some "4000");
    AccountData.mk 3 "4011" None (Some "4010") ].

(** Textual compiler (section 8). *)
Definition sqlColumns : SuiteQLColumns :=
  [ ("Id", SuiteQLColumn.mk "a.Id" "number" None None);
    ("Name", SuiteQLColumn.mk "a.Name" "string" None None) ].

Definition acmeParams : NetSuiteParams.t :=
  NetSuiteParams.mk None None (Some [FilterParam.mk "Name" "=" "Acme"]) None None.

(** Result normalizer, object-keyed (section 8). *)
Definition rawRow : Row :=
  [ ("ACCTNUMBER", Js.JStr "4010"); ("AMOUNT", Js.JStr "123.45") ].

Definition rowColumns : Js.Dictionary PropertyName.t :=
  [ ("AccountNumber", PropertyName.mk (Some "acctnumber") "string" None);
    ("Amount", PropertyName.mk None "number" None) ].

(** The column map of the [get-subsidiaries] tool. *)
Definition subsidiaryColumns : SuiteScriptColumns :=
  [ ("Id", SuiteScriptColumn.plain "internalid" "id");
    ("Name", SuiteScriptColumn.plain "namenohierarchy" "string");
    ("ParentId", SuiteScriptColumn.plain "parent" "id") ].

Definition sortById : DefaultSort.t := DefaultSort.mk "Id" "ASC".

Definition column (name : string) (sort : option string) : SearchColumn.t :=
  SearchColumn.mk (Some name) None None None None sort.

(** A stub executor: its state is the number of calls answered so far; it
    answers with a page of two rows that carry the offset asked for, and
    reports more data on its first two calls only. *)
Definition stubPage (calls : nat) (offset : Z) : SuiteQLResult.t :=
  SuiteQLResult.mk 6
    [ [ ("id", Js.JStr (Js.string_of_Z offset)) ];
      [ ("id", Js.JStr (Js.string_of_Z (offset + 1))) ] ]
    (Nat.ltb calls 2) offset 2.

Definition stubExecutor (calls : nat) (query : string) (offset : Z)
  : Result SuiteQLResult.t * nat :=
  (ok (stubPage calls offset), S calls).


End Inputs.

(* ================================================================= *)
(** ** More of [NetSuiteHelper]: [validateParamFilters], [executeSuiteQL],
       [searchRestlet] *)

(** The [check] argument of [validateParamFilters]; an absent field takes
    the default [true] ([lodash.merge(checkDefault, check)]). *)
Module ParamCheck.
Record t : Type := mk { period : option bool; date : option bool }.
(** The argument [{}] every tool passes. *)
Definition empty : t := mk None None.
End ParamCheck.

(** [this.error(msg, type)]: logs and throws a [CFError]; the type defaults
    to [UserErr]. *)
Definition error {A} (msg : string) (type : option ErrorName) : Result A :=
  throw (new_CFError (match type with Some t => t | None => UserErr end) msg).

Definition isPeriodFilter (fil : FilterParam.t) : bool :=
  String.eqb (FilterParam.Column fil) "Period".

Definition isDateFilter (fil : FilterParam.t) : bool :=
  (String.eqb (FilterParam.Column fil) "Date"
   || String.eqb (FilterParam.Column fil) "DueDate")%bool.

Definition validateParamFilters (params : NetSuiteParams.t) (check : ParamCheck.t)
  : Result unit :=
  let period := match ParamCheck.period check with Some b => b | None => true end in
  let date := match ParamCheck.date check with Some b => b | None => true end in
  let Filters := match NetSuiteParams.Filters params with Some fs => fs | None => [] end in
  _ <- (match NetSuiteParams.Filters params with
        | Some (_ :: _) => ok tt
        | _ => error "Filters cannot be empty" (Some AIErr)
        end) ;;
  _ <- (if period then
          match List.find isPeriodFilter Filters with
          | Some _ => error "Period cannot be used as filter, use Date column" (Some AIErr)
          | None => ok tt
          end
        else ok tt) ;;
  if date then
    match List.find isDateFilter Filters with
    | None => error "Date filter is required, as data is too much otherwise" (Some AIErr)
    | Some _ => ok tt
    end
  else ok tt.

(** What the SuiteQL endpoint answers, every field optional. *)
Module SuiteQLData.
Record t : Type := mk {
  totalResults : option Z;
  items : option (list Row);
  hasMore : option bool;
  offset : option Z;
  count : option Z
}.
End SuiteQLData.

(** [x || 0] on an optional number. *)
Definition orZero (x : option Z) : Z := match x with Some z => z | None => 0 end.

Section ExecuteSuiteQL.

(** [netsuiteRequest], the transport: a collaborator with a state of its
    own; a call either throws an [Error] with a message or answers. *)
Variable TransportState : Type.
Variable netsuiteRequest :
  TransportState -> string -> Z -> (string + SuiteQLData.t) * TransportState.

(** [executeSuiteQL(query, offset)]: the request goes out with
    [offset || 0]; missing fields of the answer are defaulted; whatever the
    transport throws is rethrown as an [AIErr]. *)
Definition executeSuiteQL (st : TransportState) (query : string) (offset : Z)
  : Result SuiteQLResult.t * TransportState :=
  match netsuiteRequest st query offset with
  | (inr data, st') =>
      (ok (SuiteQLResult.mk
             (orZero (SuiteQLData.totalResults data))
             (match SuiteQLData.items data with Some l => l | None => [] end)
             (match SuiteQLData.hasMore data with Some b => b | None => false end)
             (orZero (SuiteQLData.offset data))
             (orZero (SuiteQLData.count data))),
       st')
  | (inl message, st') =>
      (error ("Failed to execute query: " ++ message) (Some AIErr), st')
  end.

End ExecuteSuiteQL.

(** The two settings [searchRestlet] reads from the process environment. *)
Module Env.
Record t : Type := mk {
  NETSUITE_SEARCH_REST_LET : option string;
  NETSUITE_ACCESS_TOKEN : option string
}.
End Env.

(** What the search endpoint answers; [error] is the text
    [JSON.stringify(resp.error)], [None] when there is no such field. *)
Module RestletData.
Record t : Type := mk { count : Z; items : list (list Js.JsVal) }.
End RestletData.

Module RestletResponse.
Record t : Type := mk {
  success : option bool;
  error : option string;
  data : option RestletData.t
}.
End RestletResponse.

(** What [searchRestlet] resolves to: [{ Count }] or [{ items }]. *)
Inductive SearchResult : Type :=
| SearchCount (Count : Z)
| SearchItems (items : list Row).

(** The [transformColumns] dictionary of [searchRestlet]: the columns that
    are not filter-only, an [enum] read as a [string]. *)
Definition transformColumns (columns : SuiteScriptColumns) : Js.Dictionary PropertyName.t :=
  fold_left
    (fun acc kv =>
       let c : SuiteScriptColumn.t := snd kv in
       match SuiteScriptColumn.filterOnly c with
       | Some true => acc
       | _ =>
           Js.set acc (fst kv)
                  (PropertyName.mk None
                     (if String.eqb (SuiteScriptColumn.type c) "enum" then "string"
                      else SuiteScriptColumn.type c)
                     (SuiteScriptColumn.format c))
       end)
    columns [].

Section SearchRestlet.

Variable DU : DateUtil.t.

(** [request], the HTTP collaborator: given the body, the address and the
    token it either throws an [Error] with a message or answers. *)
Variable request : SearchObj.t -> string -> string -> string + RestletResponse.t.

Definition searchRestlet (env : Env.t) (type : string) (columns : SuiteScriptColumns)
           (params : NetSuiteParams.t) (inbuiltFilter : list FilterEntry)
           (defaultSort : DefaultSort.t) (settings : option (Js.Dictionary string))
  : Result SearchResult :=
  body <- searchRestletParams DU type columns params inbuiltFilter defaultSort settings ;;
  if negb (Js.nonempty (Env.NETSUITE_SEARCH_REST_LET env)) then
    error "NETSUITE_SEARCH_REST_LET environment variable not configured" (Some AIErr)
  else if negb (Js.nonempty (Env.NETSUITE_ACCESS_TOKEN env)) then
    error "NETSUITE_ACCESS_TOKEN environment variable not configured" (Some AIErr)
  else
    match request body (Js.str (Env.NETSUITE_SEARCH_REST_LET env))
                  (Js.str (Env.NETSUITE_ACCESS_TOKEN env)) with
    | inl message => error ("Failed to execute search: " ++ message) (Some AIErr)
    | inr resp =>
        match RestletResponse.success resp with
        | Some false => throw (new_CFError APIErr (Js.str (RestletResponse.error resp)))
        | _ =>
            let count := match RestletResponse.data resp with
                         | Some d => RestletData.count d
                         | None => 0
                         end in
            let items := match RestletResponse.data resp with
                         | Some d => RestletData.items d
                         | None => []
                         end in
            if isCountOnly params then ok (SearchCount count)
            else ok (SearchItems (transformArray DU items (transformColumns columns)))
        end
    end.

End SearchRestlet.

(* ================================================================= *)
(** ** [NumberConverter] ([src/utils/transform.ts]) *)

Module NumberConverter.

Definition serialize (num : Js.number) : string := Js.string_of_number num.

(** [deserialize(num)]: the parsed number, or an [Error] (its message on the
    left) when the number does not print back to the text it was read from. *)
Definition deserialize (num : Js.JsVal) : string + Js.number :=
  let convNum := Js.parseFloat (Js.String_ num) in
  if negb (String.eqb (Js.string_of_number convNum) (Js.String_ num))
  then inl ("Cannot cast " ++ Js.String_ num ++ " to Number")
  else inr convNum.

End NumberConverter.

(* ================================================================= *)
(** ** Objects held by reference: [updateParentNumberFromId] *)

Module JsObject.

(** [obj.key]: [undefined] when the object has no such key. *)
Definition prop (obj : Row) (key : string) : Js.JsVal :=
  match Js.get obj key with Some v => v | None => Js.JUndefined end.

(** [delete obj.key]: the object is left without that key. *)
Definition delete (obj : Row) (key : string) : Row :=
  List.filter (fun kv : string * Js.JsVal => negb (String.eqb (fst kv) key)) obj.

Definition number_eqb (a b : Js.number) : bool :=
  match a, b with
  | Js.NaN, Js.NaN => true
  | Js.Infinity x, Js.Infinity y => Bool.eqb x y
  | Js.Dec m e, Js.Dec m' e' => ((m =? m') && Nat.eqb e e')%bool
  | _, _ => false
  end.

(** SameValueZero, the equality of [Map] keys. *)
Definition sameValueZero (a b : Js.JsVal) : bool :=
  match a, b with
  | Js.JUndefined, Js.JUndefined => true
  | Js.JNull, Js.JNull => true
  | Js.JBool x, Js.JBool y => Bool.eqb x y
  | Js.JNum x, Js.JNum y => number_eqb x y
  | Js.JStr x, Js.JStr y => String.eqb x y
  | _, _ => false
  end.

(** A [Map] from values to references (positions in the store). *)
Definition Map : Type := list (Js.JsVal * nat).

Fixpoint Map_set (m : Map) (k : Js.JsVal) (ref : nat) : Map :=
  match m with
  | [] => [(k, ref)]
  | (k', r') :: rest =>
      if sameValueZero k' k then (k', ref) :: rest else (k', r') :: Map_set rest k ref
  end.

Fixpoint Map_get (m : Map) (k : Js.JsVal) : option nat :=
  match m with
  | [] => None
  | (k', r') :: rest => if sameValueZero k' k then Some r' else Map_get rest k
  end.

(** The store after the object at [ref] is replaced. *)
Fixpoint update (store : list Row) (ref : nat) (obj : Row) : list Row :=
  match store, ref with
  | [], _ => []
  | _ :: rest, O => obj :: rest
  | o :: rest, S ref' => o :: update rest ref' obj
  end.

End JsObject.

Module ParentNumber.

(** [new Map(data.map((item) => [item.Id, item]))]: the entries are set in
    order, so of two items with the same id the later one is kept. *)
Fixpoint idToItemMap_from (ref : nat) (data : list Row) (m : JsObject.Map) : JsObject.Map :=
  match data with
  | [] => m
  | item :: rest =>
      idToItemMap_from (S ref) rest (JsObject.Map_set m (JsObject.prop item "Id") ref)
  end.

Definition idToItemMap (data : list Row) : JsObject.Map := idToItemMap_from 0 data [].

(** The callback of [data.forEach], on the item at [ref] of the store: the
    parent is read from the store as it is at that moment. *)
Definition visit (m : JsObject.Map) (store : list Row) (ref : nat) : list Row :=
  match nth_error store ref with
  | None => store
  | Some item =>
      if Js.truthy (JsObject.prop item "ParentId") then
        let item1 :=
          match JsObject.Map_get m (JsObject.prop item "ParentId") with
          | Some parentRef =>
              match nth_error store parentRef with
              | Some parentObj =>
                  Js.set item "ParentNumber" (JsObject.prop parentObj "AccountNumber")
              | None => item
              end
          | None => item
          end in
        JsObject.update store ref (JsObject.delete item1 "ParentId")
      else store
  end.

Fixpoint forEach (m : JsObject.Map) (store : list Row) (ref count : nat) : list Row :=
  match count with
  | O => store
  | S count' => forEach m (visit m store ref) (S ref) count'
  end.

(** [updateParentNumberFromId(data)]: the items are changed in place and
    the same array is returned. *)
Definition updateParentNumberFromId (data : list Row) : list Row :=
  forEach (idToItemMap data) data 0 (length data).

(** The row [updateParentNumberFromId] leaves for an item, written from
    the data as they were before the call. *)
Definition resolved (data : list Row) (item : Row) : Row :=
  if Js.truthy (JsObject.prop item "ParentId") then
    JsObject.delete
      (match JsObject.Map_get (idToItemMap data) (JsObject.prop item "ParentId") with
       | Some parentRef =>
           match nth_error data parentRef with
           | Some parentObj =>
               Js.set item "ParentNumber" (JsObject.prop parentObj "AccountNumber")
           | None => item
           end
       | None => item
       end) "ParentId"
  else item.

End ParentNumber.

(* ================================================================= *)
(** ** The [get-accounts] handler around its loop *)

Module GetAccountsTool.

Definition sql : string := "SELECT {Columns} FROM Account a".

Definition Columns : SuiteQLColumns :=
  [ ("Id", SuiteQLColumn.mk "a.Id" "number" None None);
    ("Name", SuiteQLColumn.mk "a.accountSearchDisplayNameCopy" "string" None None);
    ("AccountNumber", SuiteQLColumn.mk "a.acctNumber" "string" None None);
    ("ParentId", SuiteQLColumn.mk "a.parent" "number" None None);
    ("Type", SuiteQLColumn.mk "BUILTIN.DF(a.acctType)" "string" None None) ].

Definition defaultSort : DefaultSort.t := DefaultSort.mk "Name" "Asc".

(** The clean-up of the input: an empty [SortOrder] becomes ["ASC"]. *)
Definition cleanInput (input : NetSuiteParams.t) : NetSuiteParams.t :=
  match NetSuiteParams.OrderBy input with
  | Some o =>
      match OrderByParam.SortOrder o with
      | Some s =>
          if String.eqb s "" then
            NetSuiteParams.mk (NetSuiteParams.CountOnly input)
                              (Some (OrderByParam.mk (OrderByParam.Column o) (Some "ASC")))
                              (NetSuiteParams.Filters input) (NetSuiteParams.Limit input)
                              (NetSuiteParams.Offset input)
          else input
      | None => input
      end
  | None => input
  end.

(** [{ ...account, Id: account.Id !== undefined ? String(account.Id) : undefined }]. *)
Definition stringifyId (account : Row) : Row :=
  Js.set account "Id"
         (match JsObject.prop account "Id" with
          | Js.JUndefined => Js.JUndefined
          | v => Js.JStr (Js.String_ v)
          end).

(** What the handler hands back: the count, the accounts, or the error
    payload with the message of what was thrown. *)
Inductive Reply : Type :=
| Count (n : Z)
| Accounts (finalData : list Row)
| IsError (message : option string).

(** [error.message]; for the engine's [TypeError] the text Node gives to
    a read of a property of [undefined]. *)
Definition messageOf (e : Thrown) : option string :=
  match e with
  | CFError _ message => Some message
  | TypeError reading =>
      Some ("Cannot read properties of undefined (reading '" ++ reading ++ "')")
  end.

Section Handler.

Variable DU : DateUtil.t.
Variable ExecutorState : Type.
Variable executeSuiteQL :
  ExecutorState -> string -> Z -> Result SuiteQLResult.t * ExecutorState.

(** The statement the handler compiles for an input. *)
Definition formattedSQL (input : NetSuiteParams.t) : Result string :=
  formatSQL DU sql Columns (cleanInput input) "" defaultSort.

(** The handler, with a bound on the turns of its loop ([None]: the bound
    was reached). *)
Definition handler (fuel : nat) (input : NetSuiteParams.t) (st : ExecutorState)
  : option (Reply * list GetAccounts.Event * ExecutorState) :=
  match formattedSQL input with
  | inl e => Some (IsError (messageOf e), [], st)
  | inr query =>
      match GetAccounts.fetchAll DU ExecutorState executeSuiteQL fuel query Columns
                                 (isCountOnly (cleanInput input)) st with
      | None => None
      | Some (inl e, trace, st') => Some (IsError (messageOf e), trace, st')
      | Some (inr (GetAccounts.CountResult n), trace, st') => Some (Count n, trace, st')
      | Some (inr (GetAccounts.TotalData totalData), trace, st') =>
          Some (Accounts (map stringifyId
                              (ParentNumber.updateParentNumberFromId totalData)),
                trace, st')
      end
  end.

End Handler.

End GetAccountsTool.

(* ================================================================= *)
(** ** The [get-journals] handler ([src/tools/transactions/GetJournals.ts]) *)

Module GetJournalsTool.

Definition formulatext (name filterformula : string) : SuiteScriptColumn.t :=
  SuiteScriptColumn.mk (Some name) "string" None None None None (Some filterformula)
                       (Some true) None None None.

Definition Columns : SuiteScriptColumns :=
  [ ("Id", SuiteScriptColumn.plain "internalid" "id");
    ("Date", SuiteScriptColumn.mk (Some "trandate") "date" None (Some "M/d/yyyy")
                                  None None None None None None None);
    ("Period", SuiteScriptColumn.mk (Some "postingperiod") "string" None None
                                    None None None (Some true) None None None);
    ("Name", SuiteScriptColumn.mk (Some "entity") "string" None None
                                  None None (Some "formulatext: {entity}") None None None None);
    ("DocumentNumber", SuiteScriptColumn.plain "tranid" "string");
    ("Memo", SuiteScriptColumn.plain "memo" "string");
    ("Account", formulatext "account" "formulatext: {account.number}");
    ("Subsidiary", formulatext "subsidiary" "formulatext: {subsidiary}");
    ("Amount", SuiteScriptColumn.plain "amount" "number");
    ("Status", formulatext "status" "formulatext: {status}") ].

Definition filters : list FilterEntry :=
  [ Condition [Some "type"; Some "anyof"; Some "Journal"] ].

Definition defaultSort : DefaultSort.t := DefaultSort.mk "Date" "DESC".

(** [{ ...journal, Id: .., Amount: .. }]: the id as a string, an amount
    that is a string parsed. *)
Definition finalData (journal : Row) : Row :=
  Js.set
    (Js.set journal "Id"
            (match JsObject.prop journal "Id" with
             | Js.JUndefined => Js.JUndefined
             | v => Js.JStr (Js.String_ v)
             end))
    "Amount"
    (match JsObject.prop journal "Amount" with
     | Js.JStr s => Js.JNum (Js.parseFloat s)
     | v => v
     end).

(** What the handler hands back: the count, the journals, or the error
    payload with the message of what was thrown. *)
Inductive Reply : Type :=
| Count (n : Z)
| Journals (journals : list Row)
| IsError (message : option string).

Section Handler.

Variable DU : DateUtil.t.
Variable request : SearchObj.t -> string -> string -> string + RestletResponse.t.

Definition handler (env : Env.t) (input : NetSuiteParams.t) : Reply :=
  match (_ <- validateParamFilters input ParamCheck.empty ;;
         searchRestlet DU request env "transaction" Columns input filters defaultSort None) with
  | inl e => IsError (GetAccountsTool.messageOf e)
  | inr (SearchCount n) => Count n
  | inr (SearchItems items) => Journals (map finalData items)
  end.

End Handler.

End GetJournalsTool.

(* ================================================================= *)
(** ** [getSubsidiaryFilter]: the descendants of a subsidiary *)

Module SubsidiaryFilter.

(** [a === b] on the values a row holds. *)
Definition strictEquals (a b : Js.JsVal) : bool :=
  match a, b with
  | Js.JNum Js.NaN, Js.JNum Js.NaN => false
  | _, _ => JsObject.sameValueZero a b
  end.

(** [subs.filter((sub) => sub.ParentId === parentid).map((sub) => sub.Id)]. *)
Definition filterByParent (subs : list Row) (parentid : Js.JsVal) : list Js.JsVal :=
  map (fun sub => JsObject.prop sub "Id")
      (List.filter (fun sub => strictEquals (JsObject.prop sub "ParentId") parentid) subs).

(** The [for .. of] loop of [getChildren]: it walks the [children] array
    while the descendants found are pushed onto it, so what is pushed is
    walked too.  [getChildrenOf] is the recursive call; [turns] bounds the
    turns of the loop ([None]: the bound was reached). *)
Fixpoint walk (getChildrenOf : Js.JsVal -> option (list Js.JsVal)) (turns : nat)
         (children : list Js.JsVal) (index : nat) : option (list Js.JsVal) :=
  match nth_error children index with
  | None => Some children
  | Some child =>
      match turns with
      | O => None
      | S turns' =>
          match getChildrenOf child with
          | None => None
          | Some grandchildren =>
              walk getChildrenOf turns' (children ++ grandchildren)%list (S index)
          end
      end
  end.

(** [getChildren]; [fuel] bounds the depth of the recursion, and the turns
    of each loop by [turnsPerLevel]. *)
Fixpoint getChildren (fuel turnsPerLevel : nat) (subs : list Row) (parentid : Js.JsVal)
  : option (list Js.JsVal) :=
  match fuel with
  | O => None
  | S fuel' =>
      walk (getChildren fuel' turnsPerLevel subs) turnsPerLevel
           (filterByParent subs parentid) O
  end.

End SubsidiaryFilter.

(* ================================================================= *)
(** ** Texts without a given character *)

Fixpoint lacks (c : ascii) (s : string) : bool :=
  match s with
  | EmptyString => true
  | String c' r => (negb (Ascii.eqb c' c) && lacks c r)%bool
  end.

(* ================================================================= *)
(** ** Notions used to state properties of the code *)

(** The columns of a structured column map that are projected: those not
    marked filter-only. *)
Definition projected (columns : SuiteScriptColumns) : SuiteScriptColumns :=
  List.filter (fun kv : string * SuiteScriptColumn.t =>
                 match SuiteScriptColumn.filterOnly (snd kv) with
                 | Some true => false
                 | _ => true
                 end) columns.

(** How [searchRestlet] declares a structured column to [transformArray]:
    its type, an [enum] read as a [string], and its format. *)
Definition declaredAs (c : SuiteScriptColumn.t) : PropertyName.t :=
  PropertyName.mk None
    (if String.eqb (SuiteScriptColumn.type c) "enum" then "string"
     else SuiteScriptColumn.type c)
    (SuiteScriptColumn.format c).

(** The value [transformArray] stores for a truthy source value, by the
    type of the column: a number is parsed, a date with a format is
    converted, anything else is stored as it is. *)
Definition transformArray_value (DU : DateUtil.t) (field : PropertyName.t) (v : Js.JsVal)
  : Js.JsVal :=
  if String.eqb (PropertyName.type field) "number" then
    Js.JNum (Js.parseFloat (Js.String_ v))
  else
    match String.eqb (PropertyName.type field) "date", PropertyName.format field with
    | true, Some fmt => Js.JStr (DateUtil.FormatToISO DU (Js.String_ v) fmt)
    | _, _ => v
    end.

(** The text [getFiltersSQL] writes for one filter for whose column
    [Columns[filter.Column]] is truthy: column reference, operator,
    formatted value. *)
Definition renderFilterSQL (DU : DateUtil.t) (Columns : SuiteQLColumns)
           (filter : FilterParam.t) : string :=
  match columnOf Columns (FilterParam.Column filter) with
  | Some columnConfig =>
      match getOperator sql (SuiteQLColumn.type columnConfig)
                        (FilterParam.Operator filter) with
      | inr operator =>
          SuiteQLColumn.sql columnConfig ++ " " ++ operator ++ " "
            ++ formattedValue DU columnConfig (FilterParam.Value filter)
      | inl _ => ""
      end
  | None => ""
  end.

(** The events of fetching the pages [pages] one after the other, the
    first at offset [offset]. *)
Fixpoint pageTrace (query : string) (offset : Z) (pages : list SuiteQLResult.t)
  : list GetAccounts.Event :=
  match pages with
  | [] => []
  | r :: rest =>
      (GetAccounts.delayBefore offset ++ [GetAccounts.Execute query offset]
         ++ pageTrace query (SuiteQLResult.offset r + SuiteQLResult.count r) rest)%list
  end.

(** The offset of the request that follows the pages [pages]. *)
Fixpoint offsetAfter (offset : Z) (pages : list SuiteQLResult.t) : Z :=
  match pages with
  | [] => offset
  | r :: rest => offsetAfter (SuiteQLResult.offset r + SuiteQLResult.count r) rest
  end.

Section Answers.

Variable ExecutorState : Type.
Variable executeSuiteQL :
  ExecutorState -> string -> Z -> Result SuiteQLResult.t * ExecutorState.
Variable query : string.

(** [answers st offset pages st']: asked from state [st] at [offset] and
    then at the offsets the loop derives, the executor answers with the
    pages [pages], each reporting more data, and is left in state [st']. *)
Inductive answers : ExecutorState -> Z -> list SuiteQLResult.t -> ExecutorState -> Prop :=
| answers_none : forall st offset, answers st offset [] st
| answers_more : forall st offset r st1 rest st',
    executeSuiteQL st query offset = (ok r, st1) ->
    SuiteQLResult.hasMore r = true ->
    answers st1 (SuiteQLResult.offset r + SuiteQLResult.count r) rest st' ->
    answers st offset (r :: rest) st'.

End Answers.

(** The rows of the pages, normalized, in order. *)
Definition normalizedPages (DU : DateUtil.t) (Columns : SuiteQLColumns)
           (pages : list SuiteQLResult.t) : list Row :=
  flat_map (fun r => transform DU (SuiteQLResult.items r) (propertyNames_of Columns)) pages.

(** Stub collaborators. *)
Module Stubs.

(** An executor that answers its first call with a page reporting more
    data and throws on its second call. *)
Definition failingExecutor (calls : nat) (query : string) (offset : Z)
  : Result SuiteQLResult.t * nat :=
  (match calls with
   | O => ok (Inputs.stubPage 0 offset)
   | S _ => error "Failed to execute query: timeout" (Some AIErr)
   end, S calls).

(** An executor that always reports more data. *)
Definition endlessExecutor (calls : nat) (query : string) (offset : Z)
  : Result SuiteQLResult.t * nat :=
  (ok (SuiteQLResult.mk 6 [] true offset 2), S calls).

(** A transport whose answer says there is more data and carries neither
    an offset nor a count. *)
Definition bareTransport (calls : nat) (query : string) (offset : Z)
  : (string + SuiteQLData.t) * nat :=
  (inr (SuiteQLData.mk None (Some []) (Some true) None None), S calls).

(** An executor over three accounts, two on the first page and one on the
    second, each naming the one before it as its parent. *)
Definition accountsPage (calls : nat) : SuiteQLResult.t :=
  match calls with
  | O =>
      SuiteQLResult.mk 3
        [ [ ("id", Js.JStr "1"); ("accountnumber", Js.JStr "4000") ];
          [ ("id", Js.JStr "2"); ("accountnumber", Js.JStr "4010");
            ("parentid", Js.JStr "1") ] ]
        true 0 2
  | S _ =>
      SuiteQLResult.mk 3
        [ [ ("id", Js.JStr "3"); ("accountnumber", Js.JStr "4011");
            ("parentid", Js.JStr "2") ] ]
        false 2 1
  end.

Definition accountsExecutor (calls : nat) (query : string) (offset : Z)
  : Result SuiteQLResult.t * nat :=
  (ok (accountsPage calls), S calls).

(** A transport that fails. *)
Definition deadTransport (calls : nat) (query : string) (offset : Z)
  : (string + SuiteQLData.t) * nat :=
  (inl "connect ECONNREFUSED", S calls).

End Stubs.

(** An account that names itself as its parent. *)
Definition selfParent : list AccountData.t :=
  [ AccountData.mk 5 "5000" None (Some "5") ].

(** [Number.MAX_SAFE_INTEGER]: up to it every integer is a number of the
    language, printed in full. *)
Definition MAX_SAFE_INTEGER : Z := 9007199254740991.

(** A chain of four subsidiaries, each the parent of the next. *)
Definition subsidiaryChain : list Row :=
  [ [ ("Id", Js.JStr "1"); ("Name", Js.JStr "Group") ];
    [ ("Id", Js.JStr "2"); ("Name", Js.JStr "Region"); ("ParentId", Js.JStr "1") ];
    [ ("Id", Js.JStr "3"); ("Name", Js.JStr "Country"); ("ParentId", Js.JStr "2") ];
    [ ("Id", Js.JStr "4"); ("Name", Js.JStr "Branch"); ("ParentId", Js.JStr "3") ] ].

(** The condition [getFiltersSearch] writes for one filter: column
    reference, operator, value; [None] when the map has no such column or
    no operator for it. *)
Definition renderFilterSearch (DU : DateUtil.t) (Columns : SuiteScriptColumns)
           (filter : FilterParam.t) : option FilterEntry :=
  match scriptColumnOf Columns (FilterParam.Column filter) with
  | Some c =>
      match getOperator script
                        (match SuiteScriptColumn.filtertype c with
                         | Some ft => ft
                         | None => SuiteScriptColumn.type c
                         end)
                        (FilterParam.Operator filter) with
      | inr operator =>
          Some (Condition
                  [ getFiltersSearch_colName c; Some operator;
                    Some (if String.eqb (SuiteScriptColumn.type c) "date"
                          then DateUtil.ISOToFormat DU (FilterParam.Value filter)
                                 (match SuiteScriptColumn.format c with
                                  | Some f => f
                                  | None => "M/d/yyyy"
                                  end)
                          else FilterParam.Value filter) ])
      | inl _ => None
      end
  | None => None
  end.

(** Conditions with the token ["AND"] between each two of them. *)
Definition andJoined (conditions : list FilterEntry) : list FilterEntry :=
  match conditions with
  | [] => []
  | c :: rest => c :: flat_map (fun c' => [Token "AND"; c']) rest
  end.

(** An id the descent of [getChildrenByNumber] finds below the first
    level: the id of a record whose [ParentNumber] is the decimal text of
    an id in [found]. *)
Definition reachedById (accountData : list AccountData.t) (found : list Z) (i : Z) : Prop :=
  exists c,
    In c found /\ In i (GetAccountBalance.childrenOf accountData (Js.string_of_Z c)).

(** The depth of each subsidiary of the chain below a parent that is
    [undefined]. *)
Definition chainRank (v : Js.JsVal) : nat :=
  match v with
  | Js.JUndefined => 4
  | Js.JStr s =>
      if String.eqb s "1" then 3
      else if String.eqb s "2" then 2
      else if String.eqb s "3" then 1
      else 0
  | _ => 0
  end.

(** Accounts numbered by their ids, each the parent of the next, and the
    depth of each number in them. *)
Definition accountsById : list AccountData.t :=
  [ AccountData.mk 1 "1" None None;
    AccountData.mk 2 "2" None (Some "1");
    AccountData.mk 3 "3" None (Some "2") ].

Definition accountsByIdRank (number : string) : nat :=
  if String.eqb number "1" then 2
  else if String.eqb number "2" then 1
  else 0.

(* ================================================================= *)
(** * Theorems *)

(** ** C1: recursive descendant expansion *)

(** C1 (the code departs from the claim).  On the specification's own input,
    expanding from ["4000"] yields the ids [1; 2] and not [{1,2,3}]: the
    recursive call is made on the child's id ("2"), not on its account number
    ("4010"), so the grandchild, whose [ParentNumber] is "4010", is never
    found.  Any recursion bound of at least two gives this answer. *)
Theorem C1_getChildrenByNumber_misses_grandchildren :
  forall n : nat,
    GetAccountBalance.getChildrenByNumber (2 + n) Inputs.accounts "4000" = Some [1; 2].
Proof.
  intro n. reflexivity.
Qed.

(** The defect in general: when no record has the decimal rendering of a
    child's id as its [ParentNumber], the expansion stops at the first
    level, whatever the records below it. *)
Lemma findRecursively_leaves :
  forall fuel accountData children result,
    (forall child, In child children ->
                   GetAccountBalance.childrenOf accountData (Js.string_of_Z child) = []) ->
    fold_left (fun acc child =>
                 match acc with
                 | Some r => GetAccountBalance.findRecursively (S fuel) accountData r
                               (Js.string_of_Z child)
                 | None => None
                 end)
              children (Some result)
    = Some result.
Proof.
  intros fuel accountData children.
  induction children as [|child rest IH]; intros result H; [ reflexivity | ].
  cbn [fold_left GetAccountBalance.findRecursively].
  rewrite (H child (or_introl eq_refl)). cbn [fold_left].
  rewrite app_nil_r. apply IH. intros c Hc. apply H. right. exact Hc.
Qed.

Lemma getChildrenByNumber_first_level_only :
  forall n accountData Numb,
    (forall child,
        In child (GetAccountBalance.childrenOf accountData Numb) ->
        GetAccountBalance.childrenOf accountData (Js.string_of_Z child) = []) ->
    GetAccountBalance.getChildrenByNumber (2 + n) accountData Numb
    = Some (match List.find (fun node => String.eqb (AccountData.AccountNumber node) Numb)
                            accountData with
            | Some selfAcc => [AccountData.Id selfAcc]
            | None => []
            end ++ GetAccountBalance.childrenOf accountData Numb)%list.
Proof.
  intros n accountData Numb H. unfold GetAccountBalance.getChildrenByNumber.
  cbn [Nat.add]. change (GetAccountBalance.findRecursively (S (S n)) accountData ?r Numb)
    with (fold_left (fun acc child =>
                       match acc with
                       | Some r0 => GetAccountBalance.findRecursively (S n) accountData r0
                                      (Js.string_of_Z child)
                       | None => None
                       end)
                    (GetAccountBalance.childrenOf accountData Numb)
                    (Some (r ++ GetAccountBalance.childrenOf accountData Numb)%list)).
  apply findRecursively_leaves. exact H.
Qed.

(** ** C2: the operator translator *)

Ltac case_eqb s t :=
  let E := fresh "E" in
  destruct (String.eqb s t) eqn:E;
  [ apply String.eqb_eq in E; subst | ].

Lemma eqb_false_sym : forall s t, String.eqb s t = false -> String.eqb t s = false.
Proof. intros s t H. rewrite String.eqb_sym. exact H. Qed.

(** Replaces the lookup of a data type in the structured tables by its row. *)
Ltac table_row dt :=
  let t := constr:(Js.get Spec.structured_tables dt) in
  let v := eval vm_compute in t in
  change t with v; cbn [Js.get].

(** Walks the operator tests of the code, keeping the table's tests (made
    with the arguments the other way round) in step. *)
Ltac by_operator :=
  repeat match goal with
         | |- context [String.eqb ?o ?t] =>
             is_var o;
             let E := fresh "E" in
             destruct (String.eqb o t) eqn:E;
             [ apply String.eqb_eq in E; subst; reflexivity
             | rewrite ?(eqb_false_sym _ _ E); cbn [orb] ]
         end;
  reflexivity.

(** C2 counterexample.  For the triple (textual, number, Like) the code
    returns the token [LIKE]; the documented rule keeps operators other than
    the string ones unchanged ([Like]), and a reading under which the triple
    is undocumented asks for an error.  The code does neither. *)
Lemma C2_counterexample :
  getOperator sql "number" "Like" = ok "LIKE"
  /\ Spec.translate sql "number" "Like" = Some "Like".
Proof. split; reflexivity. Qed.

(** C2 (amended).  [getOperator] returns exactly the token of the documented
    tables, except that the textual backend maps [Like] to [LIKE] and
    [Not_Like] to [NOT LIKE] for every data type; the textual backend never
    raises, and the structured backend raises the [AIErr]-tagged operator
    error on every triple the tables do not list. *)
Theorem C2_getOperator_follows_amended_tables :
  forall (reqtype : ReqType) (datatype operator : string),
    getOperator reqtype datatype operator =
    match Spec.translate_amended reqtype datatype operator with
    | Some token => ok token
    | None => throw (operatorNotFound reqtype datatype operator)
    end.
Proof.
  intros [] datatype operator;
    unfold getOperator, Spec.translate_amended, Spec.translate,
           Spec.textual, Spec.structured.
  - case_eqb operator "Like"; [ rewrite orb_true_r; reflexivity | ].
    case_eqb operator "Not_Like";
      [ case_eqb datatype "string"; reflexivity | ].
    rewrite !orb_false_r.
    case_eqb datatype "string"; [ | rewrite !andb_false_r; reflexivity ].
    rewrite !andb_true_r. cbn [Js.get].
    rewrite (eqb_false_sym _ _ E), (eqb_false_sym _ _ E0).
    case_eqb operator "="; [ reflexivity | rewrite (eqb_false_sym _ _ E1) ].
    case_eqb operator "!="; [ reflexivity | rewrite (eqb_false_sym _ _ E2) ].
    reflexivity.
  - case_eqb datatype "boolean"; [ reflexivity | ].
    case_eqb datatype "number"; [ table_row "number"; by_operator | ].
    case_eqb datatype "date"; [ table_row "date"; by_operator | ].
    case_eqb datatype "string"; [ table_row "string"; by_operator | ].
    case_eqb datatype "id"; [ table_row "id"; by_operator | ].
    cbn [Js.get Spec.structured_tables].
    rewrite (eqb_false_sym _ _ E0), (eqb_false_sym _ _ E1),
            (eqb_false_sym _ _ E2), (eqb_false_sym _ _ E3).
    reflexivity.
Qed.

(** What the translator raises is tagged [AIErr], and only the structured
    backend raises. *)
Lemma getOperator_raises_AIErr :
  forall reqtype datatype operator,
    is_ok (getOperator reqtype datatype operator) = false ->
    reqtype = script
    /\ thrown_kind (getOperator reqtype datatype operator) = Some AIErr.
Proof.
  intros [] datatype operator; unfold getOperator;
    repeat match goal with
           | |- context [if ?b then _ else _] => destruct b
           end;
    cbn [is_ok ok throw thrown_kind operatorNotFound new_CFError];
    intro H; try discriminate H; split; reflexivity.
Qed.

(** ** C3: a filter on a column absent from the column map *)

Section FilterColumns.

Variable DU : DateUtil.t.

(** The textual translator never throws. *)
Lemma getOperator_sql_ok :
  forall datatype operator, is_ok (getOperator sql datatype operator) = true.
Proof.
  intros datatype operator. unfold getOperator.
  destruct ((_ && _) || _)%bool; [ reflexivity | ].
  destruct ((_ && _) || _)%bool; reflexivity.
Qed.

(** Textual path: the turn of the loop on a column for which
    [Columns[filter.Column]] is [undefined] leaves the text alone and counts
    the filter as skipped. *)
Lemma getFiltersSQL_body_absent :
  forall Columns st filter,
    columnOf Columns (FilterParam.Column filter) = None ->
    getFiltersSQL_body DU Columns st filter =
    ok (mkSQLFilterLoop (filters st) (processedFilters st) (S (skippedFilters st))).
Proof.
  intros Columns st filter H. unfold getFiltersSQL_body. rewrite H. reflexivity.
Qed.

Lemma getFiltersSQL_body_ok :
  forall Columns st filter, is_ok (getFiltersSQL_body DU Columns st filter) = true.
Proof.
  intros Columns st filter. unfold getFiltersSQL_body.
  destruct (columnOf Columns (FilterParam.Column filter)) as [c|]; [ | reflexivity ].
  pose proof (getOperator_sql_ok (SuiteQLColumn.type c) (FilterParam.Operator filter)) as H.
  destruct (getOperator sql _ _); [ discriminate H | reflexivity ].
Qed.

Lemma getFiltersSQL_loop_ok :
  forall Columns filtersParams st,
    is_ok (getFiltersSQL_loop DU Columns st filtersParams) = true.
Proof.
  intros Columns filtersParams.
  induction filtersParams as [|filter rest IH]; intro st; [ reflexivity | ].
  cbn [getFiltersSQL_loop].
  pose proof (getFiltersSQL_body_ok Columns st filter) as H.
  destruct (getFiltersSQL_body DU Columns st filter) as [e|st']; [ discriminate H | ].
  apply IH.
Qed.

(** Textual path: [getFiltersSQL] returns a fragment for every column map
    and every filter list. *)
Lemma getFiltersSQL_never_throws :
  forall Columns filtersParams, is_ok (getFiltersSQL DU Columns filtersParams) = true.
Proof.
  intros Columns filtersParams. unfold getFiltersSQL.
  pose proof (getFiltersSQL_loop_ok Columns filtersParams (mkSQLFilterLoop "" 0 0)) as H.
  destruct (getFiltersSQL_loop _ _ _ _); [ discriminate H | reflexivity ].
Qed.

(** The text built by the loop depends on the text so far, not on the
    two counters. *)
Lemma getFiltersSQL_body_text :
  forall Columns filter st1 st2,
    filters st1 = filters st2 ->
    exists a b,
      getFiltersSQL_body DU Columns st1 filter = ok a
      /\ getFiltersSQL_body DU Columns st2 filter = ok b
      /\ filters a = filters b.
Proof.
  intros Columns filter st1 st2 H. unfold getFiltersSQL_body. rewrite H.
  destruct (columnOf Columns (FilterParam.Column filter)) as [c|].
  - pose proof (getOperator_sql_ok (SuiteQLColumn.type c)
                                   (FilterParam.Operator filter)) as Hop.
    destruct (getOperator sql _ _) as [e|operator]; [ discriminate Hop | ].
    cbn [bind ok]. eexists. eexists. repeat split.
  - eexists. eexists. repeat split.
Qed.

Lemma getFiltersSQL_loop_text :
  forall Columns filtersParams st1 st2,
    filters st1 = filters st2 ->
    exists a b,
      getFiltersSQL_loop DU Columns st1 filtersParams = ok a
      /\ getFiltersSQL_loop DU Columns st2 filtersParams = ok b
      /\ filters a = filters b.
Proof.
  intros Columns filtersParams.
  induction filtersParams as [|filter rest IH]; intros st1 st2 H.
  - exists st1, st2. repeat split. exact H.
  - cbn [getFiltersSQL_loop].
    destruct (getFiltersSQL_body_text Columns filter st1 st2 H)
      as (a & b & -> & -> & Hab).
    cbn [bind ok]. exact (IH a b Hab).
Qed.

Lemma getFiltersSQL_loop_skips :
  forall Columns filtersParams st,
    exists a b,
      getFiltersSQL_loop DU Columns st filtersParams = ok a
      /\ getFiltersSQL_loop DU Columns st
           (List.filter (resolvable Columns) filtersParams) = ok b
      /\ filters a = filters b.
Proof.
  intros Columns filtersParams.
  induction filtersParams as [|filter rest IH]; intro st.
  - exists st, st. repeat split.
  - cbn [getFiltersSQL_loop List.filter]. unfold resolvable at 1.
    destruct (columnOf Columns (FilterParam.Column filter)) as [c|] eqn:G.
    + cbn [getFiltersSQL_loop].
      destruct (getFiltersSQL_body_text Columns filter st st eq_refl)
        as (a & _ & -> & _ & _).
      cbn [bind ok]. apply IH.
    + rewrite (getFiltersSQL_body_absent _ st _ G). cbn [bind ok].
      destruct (IH (mkSQLFilterLoop (filters st) (processedFilters st)
                                    (S (skippedFilters st))))
        as (a & b & Ha & Hb & Hab).
      destruct (getFiltersSQL_loop_text Columns
                  (List.filter (resolvable Columns) rest)
                  (mkSQLFilterLoop (filters st) (processedFilters st)
                                   (S (skippedFilters st))) st eq_refl)
        as (b1 & b2 & Hb1 & Hb2 & Hb12).
      exists a, b2. repeat split; [ exact Ha | exact Hb2 | ].
      rewrite Hab. rewrite Hb in Hb1. inversion Hb1. subst b1. exact Hb12.
Qed.

(** Textual path: the fragment is the one compiled from the resolvable
    filters alone. *)
Lemma getFiltersSQL_skips_absent_columns :
  forall Columns filtersParams,
    getFiltersSQL DU Columns filtersParams =
    getFiltersSQL DU Columns (List.filter (resolvable Columns) filtersParams).
Proof.
  intros Columns filtersParams. unfold getFiltersSQL.
  destruct (getFiltersSQL_loop_skips Columns filtersParams (mkSQLFilterLoop "" 0 0))
    as (a & b & -> & -> & H).
  cbn [bind ok]. rewrite H. reflexivity.
Qed.

(** Structured path: once the loop has thrown it stays thrown; and a filter
    on an absent column throws. *)
Lemma getFiltersSearch_loop_absent :
  forall Columns filtersParams filters filter,
    In filter filtersParams ->
    Js.get Columns (FilterParam.Column filter) = None ->
    is_ok (getFiltersSearch_loop DU Columns filters filtersParams) = false.
Proof.
  intros Columns filtersParams.
  induction filtersParams as [|f rest IH]; intros filters filter HIn HNone;
    [ contradiction | ].
  cbn [getFiltersSearch_loop].
  destruct HIn as [->|HIn].
  - unfold getFiltersSearch_body, scriptColumnOf. rewrite HNone.
    destruct (Js.inherited (FilterParam.Column filter)); reflexivity.
  - destruct (getFiltersSearch_body DU Columns filters f) as [e|filters'];
      [ reflexivity | ].
    cbn [bind]. exact (IH filters' filter HIn HNone).
Qed.

(** Structured path: a filter list that names an absent column never
    yields a filter expression. *)
Lemma getFiltersSearch_absent_column_fatal :
  forall Columns filtersParams filter,
    In filter filtersParams ->
    Js.get Columns (FilterParam.Column filter) = None ->
    is_ok (getFiltersSearch DU Columns filtersParams) = false.
Proof.
  intros Columns filtersParams filter. apply getFiltersSearch_loop_absent.
Qed.

End FilterColumns.

(** C3 (the code departs from the claim).  On the structured path a filter
    whose column is absent from the column map is not skipped:
    [getFiltersSearch] dereferences [Columns[filter.Column]] without a test,
    so the compiler throws a [TypeError] and no descriptor is produced.  The
    textual path, on the same request, skips the filter and compiles. *)
Theorem C3_structured_path_throws_on_absent_filter_column :
  forall DU : DateUtil.t,
    let params :=
      NetSuiteParams.mk None None (Some [FilterParam.mk "Nonexistent" "=" "1"]) None None in
    getFiltersSearch DU Inputs.subsidiaryColumns [FilterParam.mk "Nonexistent" "=" "1"]
    = throw (TypeError "filterformula")
    /\ formatSearchObj DU "subsidiary" Inputs.subsidiaryColumns params []
                       Inputs.sortById None
       = throw (TypeError "filterformula")
    /\ formatSQL DU "SELECT {Columns} FROM Account a {Filters} {OrderBy}"
                 Inputs.sqlColumns params "" (DefaultSort.mk "Name" "Asc")
       = ok "SELECT  a.Id AS Id, a.Name AS Name FROM Account a  ORDER BY a.Name Asc".
Proof.
  intro DU. repeat split.
Qed.

(** ** Dictionaries: reading after writing *)

Section DictionaryFacts.

Context {T : Type}.

Lemma get_set_same :
  forall (d : Js.Dictionary T) k v, Js.get (Js.set d k v) k = Some v.
Proof.
  induction d as [|[k' v'] r IH]; intros k v; cbn [Js.set Js.get].
  - rewrite String.eqb_refl. reflexivity.
  - destruct (String.eqb k' k) eqn:E; cbn [Js.get]; rewrite E; [ reflexivity | apply IH ].
Qed.

Lemma get_set_other :
  forall (d : Js.Dictionary T) k v k',
    String.eqb k k' = false -> Js.get (Js.set d k v) k' = Js.get d k'.
Proof.
  induction d as [|[k0 v0] r IH]; intros k v k' H; cbn [Js.set Js.get].
  - rewrite H. reflexivity.
  - destruct (String.eqb k0 k) eqn:E; cbn [Js.get].
    + apply String.eqb_eq in E. subst k0. rewrite H. reflexivity.
    + destruct (String.eqb k0 k'); [ reflexivity | apply IH; exact H ].
Qed.

Lemma get_set_some :
  forall (d : Js.Dictionary T) k v k' w,
    Js.get d k' = Some w -> exists w', Js.get (Js.set d k v) k' = Some w'.
Proof.
  intros d k v k' w H. destruct (String.eqb k k') eqn:E.
  - apply String.eqb_eq in E. subst k'. exists v. apply get_set_same.
  - exists w. rewrite (get_set_other _ _ _ _ E). exact H.
Qed.

End DictionaryFacts.

(** ** C4: falsy source values *)

Section Normalizers.

Variable DU : DateUtil.t.

Lemma transform_property_absent :
  forall obj newObj propertyName field,
    sourceValue obj (sourceKeyOf propertyName field) = None ->
    transform_property DU obj newObj propertyName field = newObj.
Proof.
  intros obj newObj propertyName field. unfold sourceValue, transform_property.
  cbv zeta.
  destruct (findMatchingKey obj _) as [mk|]; [ | reflexivity ].
  destruct (String.eqb mk ""); [ reflexivity | ].
  destruct (Js.get obj mk) as [v|]; [ | reflexivity ].
  destruct (Js.is_nullish v); [ reflexivity | discriminate ].
Qed.

Lemma transform_property_present :
  forall obj newObj propertyName field v,
    sourceValue obj (sourceKeyOf propertyName field) = Some v ->
    exists w,
      transform_property DU obj newObj propertyName field
      = Js.set newObj (sourceKeyOf propertyName field) w.
Proof.
  intros obj newObj propertyName field v. unfold sourceValue, transform_property.
  cbv zeta.
  destruct (findMatchingKey obj _) as [mk|]; [ | discriminate ].
  destruct (String.eqb mk ""); [ discriminate | ].
  destruct (Js.get obj mk) as [u|]; [ | discriminate ].
  destruct (Js.is_nullish u); [ discriminate | ]. intros _.
  destruct (String.eqb (PropertyName.type field) "number"); [ eexists; reflexivity | ].
  destruct (String.eqb (PropertyName.type field) "date"),
           (PropertyName.format field);
    try (eexists; reflexivity);
    destruct (String.eqb (PropertyName.type field) "boolean"); eexists; reflexivity.
Qed.

(** A column other than the one written keeps what it had. *)
Lemma transform_property_other :
  forall obj newObj propertyName field k,
    String.eqb (sourceKeyOf propertyName field) k = false ->
    Js.get (transform_property DU obj newObj propertyName field) k = Js.get newObj k.
Proof.
  intros obj newObj propertyName field k H.
  destruct (sourceValue obj (sourceKeyOf propertyName field)) as [v|] eqn:S.
  - destruct (transform_property_present obj newObj propertyName field v S) as [w ->].
    apply get_set_other. exact H.
  - rewrite (transform_property_absent _ _ _ _ S). reflexivity.
Qed.

Lemma transform_property_keeps :
  forall obj newObj propertyName field k w,
    Js.get newObj k = Some w ->
    exists w', Js.get (transform_property DU obj newObj propertyName field) k = Some w'.
Proof.
  intros obj newObj propertyName field k w H.
  destruct (sourceValue obj (sourceKeyOf propertyName field)) as [v|] eqn:S.
  - destruct (transform_property_present obj newObj propertyName field v S) as [u ->].
    exact (get_set_some _ _ _ _ _ H).
  - rewrite (transform_property_absent _ _ _ _ S). exists w. exact H.
Qed.

Lemma transform_fold_keeps :
  forall obj propertyNames newObj k w,
    Js.get newObj k = Some w ->
    exists w',
      Js.get (fold_left (fun acc kv => transform_property DU obj acc (fst kv) (snd kv))
                        propertyNames newObj) k = Some w'.
Proof.
  intros obj propertyNames.
  induction propertyNames as [|[pn f] rest IH]; intros newObj k w H; cbn [fold_left].
  - exists w. exact H.
  - destruct (transform_property_keeps obj newObj pn f k w H) as [w' H'].
    exact (IH _ k w' H').
Qed.

Lemma transform_fold_absent :
  forall obj propertyNames newObj sourceKey,
    sourceValue obj sourceKey = None ->
    Js.get newObj sourceKey = None ->
    Js.get (fold_left (fun acc kv => transform_property DU obj acc (fst kv) (snd kv))
                      propertyNames newObj) sourceKey = None.
Proof.
  intros obj propertyNames.
  induction propertyNames as [|[pn f] rest IH]; intros newObj sourceKey S H; cbn [fold_left].
  - exact H.
  - apply IH; [ exact S | ]. cbn [fst snd].
    destruct (String.eqb (sourceKeyOf pn f) sourceKey) eqn:E.
    + apply String.eqb_eq in E. subst sourceKey.
      rewrite (transform_property_absent _ _ _ _ S). exact H.
    + rewrite (transform_property_other _ _ _ _ _ E). exact H.
Qed.

Lemma transform_fold_present :
  forall obj propertyNames newObj propertyName field v,
    In (propertyName, field) propertyNames ->
    sourceValue obj (sourceKeyOf propertyName field) = Some v ->
    exists w,
      Js.get (fold_left (fun acc kv => transform_property DU obj acc (fst kv) (snd kv))
                        propertyNames newObj) (sourceKeyOf propertyName field) = Some w.
Proof.
  intros obj propertyNames.
  induction propertyNames as [|[pn f] rest IH];
    intros newObj propertyName field v HIn S; [ contradiction | ].
  cbn [fold_left fst snd]. destruct HIn as [Heq|HIn].
  - inversion Heq. subst pn f.
    destruct (transform_property_present obj newObj propertyName field v S) as [w ->].
    apply (transform_fold_keeps obj rest _ _ w). apply get_set_same.
  - exact (IH _ propertyName field v HIn S).
Qed.

(** Object-keyed variant: what is written is the source value coerced by
    the type of the column. *)
Lemma transform_property_value :
  forall obj newObj propertyName field v,
    sourceValue obj (sourceKeyOf propertyName field) = Some v ->
    transform_property DU obj newObj propertyName field
    = Js.set newObj (sourceKeyOf propertyName field) (transform_value DU field v).
Proof.
  intros obj newObj propertyName field v. unfold sourceValue, transform_property.
  cbv zeta.
  destruct (findMatchingKey obj _) as [mk|]; [ | discriminate ].
  destruct (String.eqb mk ""); [ discriminate | ].
  destruct (Js.get obj mk) as [u|]; [ | discriminate ].
  destruct (Js.is_nullish u); [ discriminate | ]. intros [= ->].
  unfold transform_value.
  destruct (String.eqb (PropertyName.type field) "number"); [ reflexivity | ].
  destruct (String.eqb (PropertyName.type field) "date"), (PropertyName.format field);
    try reflexivity;
    destruct (String.eqb (PropertyName.type field) "boolean"); reflexivity.
Qed.

(** Object-keyed variant: under a source key the row holds the source
    value coerced by a declared column of that key, or what it held before
    when no declared column has that key. *)
Lemma transform_fold_value :
  forall obj propertyNames newObj key v,
    sourceValue obj key = Some v ->
    (exists propertyName field,
        In (propertyName, field) propertyNames
        /\ sourceKeyOf propertyName field = key
        /\ Js.get (fold_left (fun acc kv => transform_property DU obj acc (fst kv) (snd kv))
                             propertyNames newObj) key
           = Some (transform_value DU field v))
    \/ (Js.get (fold_left (fun acc kv => transform_property DU obj acc (fst kv) (snd kv))
                          propertyNames newObj) key
        = Js.get newObj key
        /\ forall propertyName field,
             In (propertyName, field) propertyNames -> sourceKeyOf propertyName field <> key).
Proof.
  intros obj propertyNames.
  induction propertyNames as [|[pn f] rest IH]; intros newObj key v S; cbn [fold_left fst snd].
  - right. split; [ reflexivity | intros ? ? [] ].
  - destruct (IH (transform_property DU obj newObj pn f) key v S)
      as [(pn' & f' & Hin & Hk & Hg)|[Hg Hnone]].
    + left. exists pn', f'. split; [ right; exact Hin | split; assumption ].
    + destruct (String.eqb (sourceKeyOf pn f) key) eqn:E.
      * apply String.eqb_eq in E. left. exists pn, f.
        split; [ left; reflexivity | split; [ exact E | ] ].
        rewrite Hg. subst key. rewrite (transform_property_value _ _ _ _ _ S).
        apply get_set_same.
      * right. split.
        -- rewrite Hg. apply transform_property_other. exact E.
        -- intros pn' f' [Heq|Hin].
           ++ inversion Heq; subst. apply String.eqb_neq. exact E.
           ++ exact (Hnone pn' f' Hin).
Qed.

(** Positional variant: a column all of whose positions hold a falsy value
    is not written. *)
Lemma transformArray_from_absent :
  forall propertyNames index obj newObj propertyName,
    Js.get newObj propertyName = None ->
    (forall j field,
        nth_error propertyNames j = Some (propertyName, field) ->
        Js.truthy (nth (index + j) obj Js.JUndefined) = false) ->
    Js.get (transformArray_from DU index propertyNames obj newObj) propertyName = None.
Proof.
  induction propertyNames as [|[pn f] rest IH];
    intros index obj newObj propertyName H Hfalsy; cbn [transformArray_from].
  - exact H.
  - apply IH.
    + unfold transformArray_property. cbv zeta.
      destruct (String.eqb pn propertyName) eqn:E.
      * apply String.eqb_eq in E. subst pn.
        specialize (Hfalsy 0%nat f eq_refl). rewrite Nat.add_0_r in Hfalsy.
        rewrite Hfalsy. exact H.
      * destruct (Js.truthy _); [ | exact H ].
        destruct (String.eqb (PropertyName.type f) "number");
          [ rewrite (get_set_other _ _ _ _ E); exact H | ].
        destruct (String.eqb (PropertyName.type f) "date"), (PropertyName.format f);
          rewrite (get_set_other _ _ _ _ E); exact H.
    + intros j field Hj. specialize (Hfalsy (S j) field Hj).
      rewrite Nat.add_succ_r in Hfalsy. exact Hfalsy.
Qed.

Lemma nth_error_key_unique :
  forall (propertyNames : Js.Dictionary PropertyName.t) i j k f g,
    NoDup (Js.keys propertyNames) ->
    nth_error propertyNames i = Some (k, f) ->
    nth_error propertyNames j = Some (k, g) ->
    i = j.
Proof.
  intros propertyNames i j k f g ND Hi Hj. unfold Js.keys in ND.
  rewrite NoDup_nth_error in ND. apply ND.
  - rewrite length_map. apply nth_error_Some. rewrite Hi. discriminate.
  - rewrite !nth_error_map, Hi, Hj. reflexivity.
Qed.

End Normalizers.

(** C4 counterexample.  The object-keyed variant keeps the falsy values [0],
    [false] and the empty string: it tests the raw value against [null] and
    [undefined] only. *)
Lemma C4_counterexample :
  (forall DU : DateUtil.t,
      transform DU
        [ [ ("Amount", Js.JNum (Js.Dec 0 0)); ("Active", Js.JBool false);
            ("Memo", Js.JStr "") ] ]
        [ ("Amount", PropertyName.mk None "number" None);
          ("Active", PropertyName.mk None "boolean" None);
          ("Memo", PropertyName.mk None "string" None) ]
      = [ [ ("Amount", Js.JNum (Js.Dec 0 0)); ("Active", Js.JBool false);
            ("Memo", Js.JStr "") ] ])
  /\ Js.truthy (Js.JNum (Js.Dec 0 0)) = false
  /\ Js.truthy (Js.JBool false) = false
  /\ Js.truthy (Js.JStr "") = false.
Proof. repeat split. Qed.

(** C4 (amended).  The positional-array variant omits a declared column
    whose source value is falsy (among them [0], [false] and the empty
    string).  The object-keyed variant omits a column only when no key of the
    row matches its source key, or the value there is [null] or [undefined];
    any other value [v], falsy or not, is written to the output row under the
    source key, coerced by the type of a declared column of that source key
    ([transform_value]): of the column itself when no other declared column
    shares its source key. *)
Theorem C4_falsy_absent_in_positional_variant_only :
  forall (DU : DateUtil.t) (propertyNames : Js.Dictionary PropertyName.t),
    (forall (obj : list Js.JsVal) index propertyName field,
        NoDup (Js.keys propertyNames) ->
        nth_error propertyNames index = Some (propertyName, field) ->
        Js.truthy (nth index obj Js.JUndefined) = false ->
        Js.get (transformArray_row DU propertyNames obj) propertyName = None)
    /\ (forall (obj : Row) propertyName field v,
           In (propertyName, field) propertyNames ->
           sourceValue obj (sourceKeyOf propertyName field) = Some v ->
           (exists propertyName' field',
               In (propertyName', field') propertyNames
               /\ sourceKeyOf propertyName' field' = sourceKeyOf propertyName field
               /\ Js.get (transform_row DU propertyNames obj)
                         (sourceKeyOf propertyName field)
                  = Some (transform_value DU field' v))
           /\ ((forall propertyName' field',
                   In (propertyName', field') propertyNames ->
                   sourceKeyOf propertyName' field' = sourceKeyOf propertyName field ->
                   field' = field) ->
               Js.get (transform_row DU propertyNames obj)
                      (sourceKeyOf propertyName field)
               = Some (transform_value DU field v)))
    /\ (forall (obj : Row) sourceKey,
           sourceValue obj sourceKey = None ->
           Js.get (transform_row DU propertyNames obj) sourceKey = None).
Proof.
  intros DU propertyNames. split; [ | split ].
  - intros obj index propertyName field ND Hnth Hfalsy.
    unfold transformArray_row. apply transformArray_from_absent; [ reflexivity | ].
    intros j g Hj. cbn [Nat.add].
    rewrite (nth_error_key_unique _ _ _ _ _ _ ND Hj Hnth). exact Hfalsy.
  - intros obj propertyName field v HIn S. unfold transform_row.
    destruct (transform_fold_value DU obj propertyNames [] _ v S)
      as [(pn' & f' & Hin & Hk & Hg)|[_ Hnone]];
      [ | exfalso; exact (Hnone _ _ HIn eq_refl) ].
    split.
    + exists pn', f'. split; [ exact Hin | split; [ exact Hk | exact Hg ] ].
    + intro Huniq. rewrite Hg, (Huniq pn' f' Hin Hk). reflexivity.
  - intros obj sourceKey S. unfold transform_row.
    apply transform_fold_absent; [ exact S | reflexivity ].
Qed.

(** The amended statement at work: a zero amount is dropped by the
    positional variant and kept, as the number zero, by the object-keyed
    one. *)
Lemma C4_witness :
  Js.get (transformArray_row Inputs.noDates
            [ ("Id", PropertyName.mk None "number" None);
              ("Balance", PropertyName.mk None "number" None) ]
            [ Js.JStr "42"; Js.JNum (Js.Dec 0 0) ]) "Balance" = None
  /\ Js.get (transform_row Inputs.noDates
               [ ("Balance", PropertyName.mk None "number" None) ]
               [ ("BALANCE", Js.JNum (Js.Dec 0 0)) ]) "Balance"
     = Some (Js.JNum (Js.Dec 0 0)).
Proof.
  split.
  - apply (proj1 (C4_falsy_absent_in_positional_variant_only Inputs.noDates
                    [ ("Id", PropertyName.mk None "number" None);
                      ("Balance", PropertyName.mk None "number" None) ])
                 [ Js.JStr "42"; Js.JNum (Js.Dec 0 0) ] 1%nat "Balance"
                 (PropertyName.mk None "number" None)).
    + repeat constructor; cbn; intuition discriminate.
    + reflexivity.
    + reflexivity.
  - refine (proj2 (proj1 (proj2 (C4_falsy_absent_in_positional_variant_only Inputs.noDates
                    [ ("Balance", PropertyName.mk None "number" None) ]))
                 [ ("BALANCE", Js.JNum (Js.Dec 0 0)) ] "Balance"
                 (PropertyName.mk None "number" None) (Js.JNum (Js.Dec 0 0))
                 (or_introl eq_refl) eq_refl) _).
    intros pn' f' [Heq|[]] _. inversion Heq. reflexivity.
Defined.

(** ** C5: the result cap and the count-only field of the descriptor *)

Section Descriptor.

Variable DU : DateUtil.t.

(** What [formatSearchObj] returns when it returns: the paging fields. *)
Lemma formatSearchObj_paging_fields :
  forall type Columns params inbuiltFilter defaultSort settings obj,
    formatSearchObj DU type Columns params inbuiltFilter defaultSort settings = ok obj ->
    SearchObj.countOnly obj = false
    /\ SearchObj.maxResults obj = formatSearchObj_limit params.
Proof.
  intros type Columns params inbuiltFilter defaultSort settings obj.
  unfold formatSearchObj.
  destruct (formatSearchObj_columns _ _) as [e|columns]; [ discriminate | ].
  cbn [bind].
  destruct (match NetSuiteParams.Filters params with
            | Some fs => getFiltersSearch DU Columns fs
            | None => ok []
            end) as [e|filters]; [ discriminate | ].
  cbn [bind]. intro H. inversion H. split; reflexivity.
Qed.

(** The cap: 1 in count mode, else the requested limit, else 0. *)
Lemma formatSearchObj_limit_spec :
  forall params,
    formatSearchObj_limit params =
    if isCountOnly params then 1
    else match NetSuiteParams.Limit params with Some l => l | None => 0 end.
Proof.
  intro params. unfold formatSearchObj_limit.
  destruct (isCountOnly params); [ reflexivity | ].
  destruct (NetSuiteParams.Limit params) as [l|]; [ | reflexivity ].
  destruct (l =? 0) eqn:E; [ | reflexivity ].
  apply Z.eqb_eq in E. symmetry. exact E.
Qed.

(** The request sent by [searchRestlet] never carries [countOnly = true]. *)
Lemma searchRestletParams_countOnly :
  forall type Columns params inbuiltFilter defaultSort settings obj,
    searchRestletParams DU type Columns params inbuiltFilter defaultSort settings = ok obj ->
    SearchObj.countOnly obj = false.
Proof.
  intros type Columns params inbuiltFilter defaultSort settings obj.
  unfold searchRestletParams.
  destruct (formatSearchObj DU type Columns params inbuiltFilter defaultSort settings)
    as [e|o] eqn:F; [ discriminate | ].
  destruct (formatSearchObj_paging_fields _ _ _ _ _ _ _ F) as [Hc _].
  cbn [bind]. destruct (_ >? _); [ discriminate | ].
  intro H. inversion H. cbn [SearchObj.countOnly]. rewrite Hc. reflexivity.
Qed.

End Descriptor.

(** C5 (the code departs from the claim).  For the request [{CountOnly: true}]
    the descriptor has [maxResults = 1], as claimed, but its [countOnly]
    field is [false]: [formatSearchObj] initialises the field and never
    assigns it, and [searchRestlet] only defaults it.  The backend script
    reads [countOnly] to decide whether rows are fetched. *)
Theorem C5_countOnly_field_is_never_populated :
  forall DU : DateUtil.t,
    let params := NetSuiteParams.mk (Some true) None None None None in
    let descriptor :=
      SearchObj.mk "subsidiary" []
        [ Inputs.column "internalid" None; Inputs.column "namenohierarchy" None;
          Inputs.column "parent" None ]
        false 1 [] in
    formatSearchObj DU "subsidiary" Inputs.subsidiaryColumns params []
                    Inputs.sortById None = ok descriptor
    /\ searchRestletParams DU "subsidiary" Inputs.subsidiaryColumns params []
                           Inputs.sortById None = ok descriptor.
Proof.
  intro DU. split; reflexivity.
Qed.

(** ** C6: the order column is unknown to the column map *)

Section OrderFallback.

Variable DU : DateUtil.t.

Lemma append_space_nonempty :
  forall a b, String.eqb (a ++ " " ++ b) "" = false.
Proof. intros [|c a] b; reflexivity. Qed.

(** Textual path: with an unknown order column the clause is the one of the
    default sort, column and direction. *)
Lemma formatSQL_orderClause_fallback :
  forall Columns params defaultSort o c,
    isCountOnly params = false ->
    NetSuiteParams.OrderBy params = Some o ->
    columnOf Columns (OrderByParam.Column o) = None ->
    columnOf Columns (DefaultSort.Column defaultSort) = Some c ->
    formatSQL_orderClause Columns params defaultSort
    = "ORDER BY " ++ SuiteQLColumn.sql c ++ " " ++ DefaultSort.SortOrder defaultSort.
Proof.
  intros Columns params defaultSort o c Hc Ho Hn Hd.
  unfold formatSQL_orderClause, formatSQL_OrderBy.
  rewrite Hc, Ho, Hn, Hd. cbv zeta.
  rewrite append_space_nonempty. reflexivity.
Qed.

(** Structured path: a projected column carries the sort marker exactly when
    its key is the requested name. *)
Lemma formatSearchObj_column_sort :
  forall OrderBy key c col,
    formatSearchObj_column OrderBy key c = ok (Some col) ->
    SearchColumn.sort col
    = if String.eqb key (fst OrderBy) then Some (snd OrderBy) else None.
Proof.
  intros OrderBy key c col. unfold formatSearchObj_column.
  destruct (SuiteScriptColumn.filterOnly c) as [[|]|];
    try discriminate;
    destruct (match SuiteScriptColumn.formula c with
              | Some f => if negb (String.eqb f "")
                          then p <- formulaPart f 0 ;; ok (Some p)
                          else ok (SuiteScriptColumn.name c)
              | None => ok (SuiteScriptColumn.name c)
              end) as [|name]; try discriminate; cbn [bind];
    destruct (match SuiteScriptColumn.formula c with
              | Some f => if negb (String.eqb f "")
                          then p <- formulaPart f 1 ;; ok (Some p)
                          else ok None
              | None => ok None
              end) as [|formula]; try discriminate; cbn [bind];
    intro H; inversion H; reflexivity.
Qed.


(** Structured path: the sort marker goes to the column keyed by the
    requested name, so a name no column has marks nothing. *)
Lemma formatSearchObj_columns_unmarked :
  forall OrderBy Columns cols,
    ~ In (fst OrderBy) (Js.keys Columns) ->
    formatSearchObj_columns OrderBy Columns = ok cols ->
    Forall (fun col => SearchColumn.sort col = None) cols.
Proof.
  intros OrderBy Columns.
  induction Columns as [|[key c] rest IH]; intros cols Hnot H.
  - inversion H. constructor.
  - cbn [formatSearchObj_columns] in H.
    assert (String.eqb key (fst OrderBy) = false) as E.
    { apply String.eqb_neq. intro Heq. apply Hnot. left. exact Heq. }
    assert (~ In (fst OrderBy) (Js.keys rest)) as Hrest.
    { intro Hin. apply Hnot. right. exact Hin. }
    destruct (formatSearchObj_column OrderBy key c) as [e|col] eqn:C;
      [ discriminate H | ].
    cbn [bind] in H.
    destruct (formatSearchObj_columns OrderBy rest) as [e|cols'];
      [ discriminate H | ].
    cbn [bind] in H. specialize (IH cols' Hrest eq_refl).
    destruct col as [col|]; inversion H; subst cols; [ | exact IH ].
    constructor; [ | exact IH ].
    rewrite (formatSearchObj_column_sort _ _ _ _ C), E. reflexivity.
Qed.

(** Structured path: a request ordered by a column the map does not have
    yields a descriptor without any sort marker, whatever the default. *)
Lemma formatSearchObj_unknown_order_column :
  forall type Columns params inbuiltFilter defaultSort settings o obj,
    isCountOnly params = false ->
    NetSuiteParams.OrderBy params = Some o ->
    ~ In (OrderByParam.Column o) (Js.keys Columns) ->
    formatSearchObj DU type Columns params inbuiltFilter defaultSort settings = ok obj ->
    Forall (fun col => SearchColumn.sort col = None) (SearchObj.columns obj).
Proof.
  intros type Columns params inbuiltFilter defaultSort settings o obj Hc Ho Hn.
  unfold formatSearchObj.
  destruct (formatSearchObj_columns _ _) as [e|columns] eqn:C; [ discriminate | ].
  cbn [bind].
  destruct (match NetSuiteParams.Filters params with
            | Some fs => getFiltersSearch DU Columns fs
            | None => ok []
            end) as [e|filters]; [ discriminate | ].
  cbn [bind]. intro H. inversion H. cbn [SearchObj.columns].
  refine (formatSearchObj_columns_unmarked _ _ _ _ C).
  unfold formatSearchObj_OrderBy. rewrite Hc, Ho. exact Hn.
Qed.

End OrderFallback.

(** C6 (the code departs from the claim).  On the structured path,
    [OrderBy: {Column: "Nonexistent", SortOrder: "DESC"}] with the default
    sort [Id ASC] gives a descriptor in which no column carries a sort
    marker: the requested name is compared with the column keys without
    being looked up, so there is no fallback.  The textual path, on the same
    request, orders by the default column and direction. *)
Theorem C6_structured_path_has_no_order_fallback :
  forall DU : DateUtil.t,
    let params :=
      NetSuiteParams.mk None (Some (OrderByParam.mk "Nonexistent" (Some "DESC")))
                        None None None in
    formatSearchObj DU "subsidiary" Inputs.subsidiaryColumns params []
                    Inputs.sortById None
    = ok (SearchObj.mk "subsidiary" []
            [ Inputs.column "internalid" None; Inputs.column "namenohierarchy" None;
              Inputs.column "parent" None ]
            false 0 [])
    /\ formatSearchObj DU "subsidiary" Inputs.subsidiaryColumns NetSuiteParams.empty []
                       Inputs.sortById None
       = ok (SearchObj.mk "subsidiary" []
               [ Inputs.column "internalid" (Some "ASC");
                 Inputs.column "namenohierarchy" None; Inputs.column "parent" None ]
               false 0 [])
    /\ formatSQL_orderClause Inputs.sqlColumns params (DefaultSort.mk "Name" "Asc")
       = "ORDER BY a.Name Asc".
Proof.
  intro DU. repeat split.
Qed.

(** ** C7: the key of the output row in the object-keyed normalizer *)

(** C7 (the code departs from the claim).  On the specification's input the
    output row is [{acctnumber: "4010", Amount: 123.45}]: the key match is
    case-insensitive and the amount is coerced with [parseFloat], as
    claimed, but the value is stored under the column's backend field name
    ([sourceKey]), not under its logical name, so the row has no
    [AccountNumber] key.  The positional variant stores under the logical
    name. *)
Theorem C7_transform_keys_output_by_backend_name :
  forall DU : DateUtil.t,
    transform DU [Inputs.rawRow] Inputs.rowColumns
    = [ [ ("acctnumber", Js.JStr "4010"); ("Amount", Js.JNum (Js.Dec 12345 2)) ] ]
    /\ Js.get (transform_row DU Inputs.rowColumns Inputs.rawRow) "AccountNumber" = None
    /\ Js.parseFloat "123.45" = Js.Dec 12345 2
    /\ transformArray DU [ [ Js.JStr "4010"; Js.JStr "123.45" ] ] Inputs.rowColumns
       = [ [ ("AccountNumber", Js.JStr "4010"); ("Amount", Js.JNum (Js.Dec 12345 2)) ] ].
Proof.
  intro DU. repeat split.
Qed.

(** ** C8: string equality on the textual path *)

Lemma includes_cons :
  forall c s sub, Js.includes s sub = true -> Js.includes (String c s) sub = true.
Proof.
  intros c s sub. unfold Js.includes. cbn [Js.cut].
  destruct (String.prefix sub (String c s)); [ reflexivity | ].
  destruct (Js.cut sub s) as [[b a]|]; [ reflexivity | discriminate ].
Qed.

Lemma includes_append :
  forall p s sub, Js.includes s sub = true -> Js.includes (p ++ s) sub = true.
Proof.
  induction p as [|c p IH]; intros s sub H; cbn [String.append].
  - exact H.
  - apply includes_cons. apply IH. exact H.
Qed.

(** C8 counterexample.  The WHERE fragment for the specification's input is
    [WHERE a.Name LIKE  '%Acme%' ], with two spaces between the operator and
    the value: the text [a.Name LIKE '%Acme%'] of the claim, which has one,
    does not occur in it. *)
Lemma C8_counterexample :
  (forall DU : DateUtil.t,
      formatSQL_whereClause DU Inputs.sqlColumns Inputs.acmeParams ""
      = ok "WHERE a.Name LIKE  '%Acme%' ")
  /\ Js.includes "WHERE a.Name LIKE  '%Acme%' " "a.Name LIKE '%Acme%'" = false.
Proof. split; reflexivity. Qed.

(** C8 (amended).  For the specification's column map and parameters, and
    any inbuilt filter, the WHERE fragment contains
    [a.Name LIKE  '%Acme%'] (string equality rendered as [LIKE], the value
    wrapped in wildcard characters, two spaces between operator and value:
    the operator and the value are each written with a space on both sides). *)
Theorem C8_where_fragment_renders_string_equality_as_LIKE :
  forall (DU : DateUtil.t) (inbuiltFilter : string),
    getFiltersSQL DU Inputs.sqlColumns [FilterParam.mk "Name" "=" "Acme"]
    = ok "a.Name LIKE  '%Acme%' "
    /\ exists where_,
        formatSQL_whereClause DU Inputs.sqlColumns Inputs.acmeParams inbuiltFilter
        = ok where_
        /\ Js.includes where_ "a.Name LIKE  '%Acme%'" = true.
Proof.
  intros DU inbuiltFilter. split; [ reflexivity | ].
  unfold formatSQL_whereClause.
  change (NetSuiteParams.Filters Inputs.acmeParams)
    with (Some [FilterParam.mk "Name" "=" "Acme"]).
  change (getFiltersSQL DU Inputs.sqlColumns [FilterParam.mk "Name" "=" "Acme"])
    with (@ok string "a.Name LIKE  '%Acme%' ").
  cbn [bind ok]. cbv zeta.
  change (negb (String.eqb "a.Name LIKE  '%Acme%' " "")) with true. cbv iota.
  destruct (String.eqb inbuiltFilter "") eqn:E; cbn [negb].
  - eexists. split; reflexivity.
  - change (String.eqb (" " ++ inbuiltFilter) "") with false.
    cbn [negb]. change (String.eqb ((" " ++ inbuiltFilter) ++ " AND " ++ _) "") with false.
    cbn [negb]. eexists. split; [ reflexivity | ].
    apply (includes_append "WHERE "). apply includes_append. reflexivity.
Qed.

(** ** C9: count mode *)


(** ** C10: the paged fetch loop *)

Section PagedFetch.

Variable DU : DateUtil.t.
Variable ExecutorState : Type.
Variable executeSuiteQL :
  ExecutorState -> string -> Z -> Result SuiteQLResult.t * ExecutorState.

Lemma offsets_app :
  forall t1 t2,
    GetAccounts.offsets (t1 ++ t2)%list
    = (GetAccounts.offsets t1 ++ GetAccounts.offsets t2)%list.
Proof.
  induction t1 as [|[ms|q o] t1 IH]; intro t2; cbn [GetAccounts.offsets app].
  - reflexivity.
  - apply IH.
  - rewrite IH. reflexivity.
Qed.

Lemma offsets_delayBefore : forall o, GetAccounts.offsets (GetAccounts.delayBefore o) = [].
Proof. intro o. unfold GetAccounts.delayBefore. destruct (o >? 0); reflexivity. Qed.

(** One turn of the loop on an answer that reports more data. *)
Lemma fetchLoop_more :
  forall fuel q Columns st st' totalData dataOffset trace data,
    executeSuiteQL st q dataOffset = (ok data, st') ->
    SuiteQLResult.hasMore data = true ->
    GetAccounts.fetchLoop DU ExecutorState executeSuiteQL (S fuel) q Columns false
                          st totalData dataOffset trace
    = GetAccounts.fetchLoop DU ExecutorState executeSuiteQL fuel q Columns false st'
        (totalData ++ transform DU (SuiteQLResult.items data) (propertyNames_of Columns))%list
        (SuiteQLResult.offset data + SuiteQLResult.count data)
        (trace ++ GetAccounts.delayBefore dataOffset ++ [GetAccounts.Execute q dataOffset])%list.
Proof.
  intros fuel q Columns st st' totalData dataOffset trace data He Hm.
  cbn [GetAccounts.fetchLoop]. rewrite He. unfold ok. rewrite Hm. reflexivity.
Qed.

(** One turn of the loop on an answer that reports no more data. *)
Lemma fetchLoop_last :
  forall fuel q Columns st st' totalData dataOffset trace data,
    executeSuiteQL st q dataOffset = (ok data, st') ->
    SuiteQLResult.hasMore data = false ->
    GetAccounts.fetchLoop DU ExecutorState executeSuiteQL (S fuel) q Columns false
                          st totalData dataOffset trace
    = Some (ok (GetAccounts.TotalData
                  (totalData ++ transform DU (SuiteQLResult.items data)
                                          (propertyNames_of Columns))%list),
            (trace ++ GetAccounts.delayBefore dataOffset ++ [GetAccounts.Execute q dataOffset])%list,
            st').
Proof.
  intros fuel q Columns st st' totalData dataOffset trace data He Hm.
  cbn [GetAccounts.fetchLoop]. rewrite He. unfold ok. rewrite Hm. reflexivity.
Qed.


End PagedFetch.




(* ================================================================= *)
(** * Further properties of the code *)

(** ** Numbers: printing and parsing integers *)

Lemma digits_string_of_uint :
  forall d a n,
    Js.digits (Z.of_N (DecimalPos.Unsigned.of_lu a)) n (NilEmpty.string_of_uint d)
    = (Z.of_N (DecimalPos.Unsigned.of_lu (Decimal.revapp d a)),
       (n + Decimal.nb_digits d)%nat, "").
Proof.
  induction d as [|d IH|d IH|d IH|d IH|d IH|d IH|d IH|d IH|d IH|d IH];
    intros a n;
    cbn [NilEmpty.string_of_uint Js.digits Decimal.revapp Decimal.nb_digits];
    [ rewrite Nat.add_0_r; reflexivity | .. ];
    match goal with
    | |- context [Js.digit_of ?c] =>
        let v := eval vm_compute in (Js.digit_of c) in
        change (Js.digit_of c) with v
    end; cbv iota;
    rewrite Nat.add_succ_r, <- Nat.add_succ_l;
    match goal with
    | |- context [Decimal.revapp d ?a'] =>
        replace (10 * Z.of_N (DecimalPos.Unsigned.of_lu a) + _)
          with (Z.of_N (DecimalPos.Unsigned.of_lu a'))
          by (cbn [DecimalPos.Unsigned.of_lu]; lia)
    end;
    apply IH.
Qed.

Lemma digits_uint :
  forall d,
    Js.digits 0 0 (NilEmpty.string_of_uint d) = (Z.of_uint d, Decimal.nb_digits d, "").
Proof.
  intro d.
  change 0 with (Z.of_N (DecimalPos.Unsigned.of_lu Decimal.Nil)) at 1.
  rewrite digits_string_of_uint. unfold Z.of_uint.
  rewrite DecimalPos.Unsigned.of_uint_alt. reflexivity.
Qed.

(** An integer of absolute value up to [2^53] is a number, and prints in
    full. *)
Lemma fromDecimal_integer :
  forall m, Z.abs m <= 2 ^ 53 -> Js.fromDecimal m 0 = Js.Dec m 0.
Proof.
  intros m H. unfold Js.fromDecimal.
  destruct (m =? 0) eqn:E; [ apply Z.eqb_eq in E; subst m; reflexivity | ].
  change (10 ^ 0) with 1. rewrite Z.mul_1_r.
  change (0 <=? 0) with true. change (0 <=? 16) with true. cbn [andb].
  assert ((Z.abs m <=? 2 ^ 53) = true) as -> by (apply Z.leb_le; exact H).
  reflexivity.
Qed.

Lemma string_of_number_integer :
  forall z, Z.abs z <= 2 ^ 53 -> Js.string_of_number (Js.Dec z 0) = Js.string_of_Z z.
Proof.
  intros z H. cbn [Js.string_of_number].
  assert ((Z.abs z <? 10 ^ 21) = true) as ->; [ | reflexivity ].
  apply Z.ltb_lt. assert (2 ^ 53 < 10 ^ 21) by reflexivity. lia.
Qed.

Lemma parseUnsigned_uint :
  forall neg d,
    Z.of_uint d <= 2 ^ 53 ->
    Js.parseUnsigned neg (NilZero.string_of_uint d)
    = Js.Dec (if neg then - Z.of_uint d else Z.of_uint d) 0.
Proof.
  intros neg d Hd.
  assert (d = Decimal.Nil
          \/ (NilZero.string_of_uint d = NilEmpty.string_of_uint d
              /\ String.prefix "Infinity" (NilEmpty.string_of_uint d) = false
              /\ Nat.eqb (Decimal.nb_digits d) 0 = false)) as [->|(E & P & N)].
  { destruct d; [ left; reflexivity | right; repeat split .. ]. }
  - destruct neg; reflexivity.
  - rewrite E. unfold Js.parseUnsigned. rewrite P, digits_uint.
    cbn [andb Js.exponent]. rewrite N. cbn [andb].
    unfold Js.scale. change (0 - Z.of_nat 0) with 0.
    apply fromDecimal_integer.
    assert (0 <= Z.of_uint d) by (unfold Z.of_uint; apply N2Z.is_nonneg).
    destruct neg; lia.
Qed.

(** Parsing the decimal rendering of an integer of absolute value up to
    [2^53] gives the integer back. *)
Lemma parseFloat_string_of_Z :
  forall z, Z.abs z <= 2 ^ 53 -> Js.parseFloat (Js.string_of_Z z) = Js.Dec z 0.
Proof.
  intros z Hz. unfold Js.string_of_Z.
  rewrite <- (DecimalZ.of_to z) at 2. rewrite <- (DecimalZ.of_to z) in Hz.
  destruct (Z.to_int z) as [d|d]; cbn [NilZero.string_of_int Z.of_int] in Hz |- *.
  - assert (0 <= Z.of_uint d) as Hd by (unfold Z.of_uint; apply N2Z.is_nonneg).
    unfold Js.parseFloat.
    assert (Js.trimStart (NilZero.string_of_uint d) = NilZero.string_of_uint d
            /\ match NilZero.string_of_uint d with
               | String "-" _ | String "+" _ => False
               | _ => True
               end) as [T M].
    { destruct d; split; exact I || reflexivity. }
    rewrite T. rewrite <- (parseUnsigned_uint false d) by lia.
    destruct (NilZero.string_of_uint d) as [|c r]; [ reflexivity | ].
    destruct c as [[|] [|] [|] [|] [|] [|] [|] [|]]; try reflexivity; contradiction.
  - assert (0 <= Z.of_uint d) as Hd by (unfold Z.of_uint; apply N2Z.is_nonneg).
    unfold Js.parseFloat. cbn [Js.trimStart].
    change (Js.is_space "-") with false. cbv iota.
    apply (parseUnsigned_uint true d). lia.
Qed.

Lemma safe_integer_bound :
  forall z, Z.abs z <= MAX_SAFE_INTEGER -> Z.abs z <= 2 ^ 53.
Proof.
  intros z H. unfold MAX_SAFE_INTEGER in H.
  assert (2 ^ 53 = 9007199254740992) by reflexivity. lia.
Qed.

(** X1.  [NumberConverter] round trip: a safe integer serialized with
    [serialize] is accepted by [deserialize] and comes back unchanged,
    whether it is handed over as the text or as the number itself. *)
Theorem X1_NumberConverter_round_trip :
  forall z : Z,
    Z.abs z <= MAX_SAFE_INTEGER ->
    NumberConverter.deserialize (Js.JStr (NumberConverter.serialize (Js.Dec z 0)))
    = inr (Js.Dec z 0)
    /\ NumberConverter.deserialize (Js.JNum (Js.Dec z 0)) = inr (Js.Dec z 0).
Proof.
  intros z H. apply safe_integer_bound in H.
  unfold NumberConverter.deserialize, NumberConverter.serialize.
  cbn [Js.String_].
  rewrite !(string_of_number_integer z H), (parseFloat_string_of_Z z H),
          (string_of_number_integer z H), String.eqb_refl.
  split; reflexivity.
Qed.

Lemma X1_witness :
  NumberConverter.deserialize (Js.JStr (NumberConverter.serialize (Js.Dec (-1250) 0)))
  = inr (Js.Dec (-1250) 0)
  /\ NumberConverter.deserialize (Js.JNum (Js.Dec (-1250) 0)) = inr (Js.Dec (-1250) 0).
Proof.
  apply (X1_NumberConverter_round_trip (-1250)). unfold MAX_SAFE_INTEGER. cbn. lia.
Defined.

(** ** [validateParamFilters] *)

Lemma find_existsb :
  forall {A} (f : A -> bool) (l : list A),
    match List.find f l with Some _ => true | None => false end = existsb f l.
Proof.
  intros A f l. induction l as [|a l IH]; [ reflexivity | ].
  cbn [List.find existsb]. destruct (f a); [ reflexivity | exact IH ].
Qed.

(** X2.  [validateParamFilters] accepts a request exactly when its filter
    list is not empty, no filter is on [Period] (unless the period check is
    switched off) and some filter is on [Date] or [DueDate] (unless the date
    check is switched off); every rejection is a [CFError] tagged [AIErr]. *)
Theorem X2_validateParamFilters_accepts :
  forall (params : NetSuiteParams.t) (check : ParamCheck.t),
    let Filters := match NetSuiteParams.Filters params with Some fs => fs | None => [] end in
    let period := match ParamCheck.period check with Some b => b | None => true end in
    let date := match ParamCheck.date check with Some b => b | None => true end in
    is_ok (validateParamFilters params check)
    = (negb (Nat.eqb (length Filters) 0)
       && (negb period || negb (existsb isPeriodFilter Filters))
       && (negb date || existsb isDateFilter Filters))%bool
    /\ thrown_kind (validateParamFilters params check)
       = if is_ok (validateParamFilters params check) then None else Some AIErr.
Proof.
  intros params check Filters period date.
  unfold validateParamFilters. fold period date.
  subst Filters. destruct (NetSuiteParams.Filters params) as [[|f fs]|];
    [ split; reflexivity | | split; reflexivity ].
  cbn [bind ok length Nat.eqb negb andb].
  rewrite <- (find_existsb isPeriodFilter (f :: fs)),
          <- (find_existsb isDateFilter (f :: fs)).
  destruct period, date;
    destruct (List.find isPeriodFilter (f :: fs));
    destruct (List.find isDateFilter (f :: fs)); split; reflexivity.
Qed.


(** ** [searchRestlet]: the result cap *)

Section ResultCap.

Variable DU : DateUtil.t.
Variable request : SearchObj.t -> string -> string -> string + RestletResponse.t.

(** X3.  Outside count mode a requested limit above the ceiling of 10000 is
    refused with a [UserErr] before the environment is read and before any
    request is made: the outcome is the same for every environment and every
    behaviour of the HTTP collaborator. *)
Theorem X3_searchRestlet_refuses_limit_above_ceiling :
  forall env type columns params inbuiltFilter defaultSort settings l,
    isCountOnly params = false ->
    NetSuiteParams.Limit params = Some l ->
    MAX_ARRAY_ITEMS < l ->
    is_ok (formatSearchObj DU type columns params inbuiltFilter defaultSort settings) = true ->
    searchRestlet DU request env type columns params inbuiltFilter defaultSort settings
    = throw (CFError UserErr "UserErr:Cannot fetch more than 10000 in a single request").
Proof.
  intros env type columns params inbuiltFilter defaultSort settings l Hc Hl Hmax Hok.
  unfold searchRestlet, searchRestletParams.
  destruct (formatSearchObj DU type columns params inbuiltFilter defaultSort settings)
    as [e|obj] eqn:F; [ discriminate Hok | ].
  destruct (formatSearchObj_paging_fields DU _ _ _ _ _ _ _ F) as [_ Hm].
  rewrite formatSearchObj_limit_spec, Hc, Hl in Hm.
  cbn [bind]. rewrite Hm.
  assert ((l =? 0) = false) as -> by (apply Z.eqb_neq; unfold MAX_ARRAY_ITEMS in Hmax; lia).
  assert ((l >? MAX_ARRAY_ITEMS) = true) as -> by (apply Z.gtb_lt; exact Hmax).
  reflexivity.
Qed.

(** X4.  The descriptor [searchRestlet] sends never has a cap of 0 nor one
    above 10000: count mode sends 1, no requested limit sends 10000, and a
    limit between 1 and 10000 is sent as it is. *)
Theorem X4_searchRestlet_cap_sent :
  forall type columns params inbuiltFilter defaultSort settings body,
    searchRestletParams DU type columns params inbuiltFilter defaultSort settings = ok body ->
    SearchObj.maxResults body <> 0
    /\ SearchObj.maxResults body <= MAX_ARRAY_ITEMS
    /\ (isCountOnly params = true -> SearchObj.maxResults body = 1)
    /\ (isCountOnly params = false -> NetSuiteParams.Limit params = None ->
        SearchObj.maxResults body = MAX_ARRAY_ITEMS)
    /\ (forall l, isCountOnly params = false -> NetSuiteParams.Limit params = Some l ->
                  l <> 0 -> SearchObj.maxResults body = l).
Proof.
  intros type columns params inbuiltFilter defaultSort settings body.
  unfold searchRestletParams.
  destruct (formatSearchObj DU type columns params inbuiltFilter defaultSort settings)
    as [e|obj] eqn:F; [ discriminate | ].
  destruct (formatSearchObj_paging_fields DU _ _ _ _ _ _ _ F) as [_ Hm].
  rewrite formatSearchObj_limit_spec in Hm. cbn [bind]. rewrite Hm.
  set (cap := if isCountOnly params then 1
              else match NetSuiteParams.Limit params with Some l => l | None => 0 end).
  destruct (cap =? 0) eqn:Z0;
    [ apply Z.eqb_eq in Z0 | apply Z.eqb_neq in Z0 ];
    destruct (_ >? MAX_ARRAY_ITEMS) eqn:G; try discriminate;
    intro H; inversion H; cbn [SearchObj.maxResults];
    (assert (forall a b, (a >? b) = false -> a <= b) as Hle
        by (intros a b Hab; rewrite Z.gtb_ltb in Hab; apply Z.ltb_ge in Hab; exact Hab));
    apply Hle in G; unfold MAX_ARRAY_ITEMS in *; subst cap;
    repeat split; try lia;
    try (intro Hc; rewrite Hc in *; try lia; intro Hl; rewrite Hl in *; lia);
    try (intros l Hc Hl Hn; rewrite Hc, Hl in *; lia).
Qed.

End ResultCap.

Lemma X3_witness :
  searchRestlet Inputs.noDates (fun _ _ _ => inl "unreachable") (Env.mk None None)
                "subsidiary" Inputs.subsidiaryColumns
                (NetSuiteParams.mk None None None (Some 20000) None) []
                Inputs.sortById None
  = throw (CFError UserErr "UserErr:Cannot fetch more than 10000 in a single request").
Proof.
  apply (X3_searchRestlet_refuses_limit_above_ceiling Inputs.noDates
           (fun _ _ _ => inl "unreachable") (Env.mk None None) "subsidiary"
           Inputs.subsidiaryColumns
           (NetSuiteParams.mk None None None (Some 20000) None) []
           Inputs.sortById None 20000);
    reflexivity.
Defined.

Lemma X4_witness :
  SearchObj.maxResults
    (SearchObj.mk "subsidiary" []
       [ Inputs.column "internalid" (Some "ASC"); Inputs.column "namenohierarchy" None;
         Inputs.column "parent" None ] false 10000 []) = MAX_ARRAY_ITEMS.
Proof.
  exact (proj1 (proj2 (proj2 (proj2
           (X4_searchRestlet_cap_sent Inputs.noDates "subsidiary"
              Inputs.subsidiaryColumns NetSuiteParams.empty [] Inputs.sortById None
              _ eq_refl)))) eq_refl eq_refl).
Defined.

(** ** [searchRestlet]: the order of the projected columns *)

Lemma get_None_not_In :
  forall {T} (d : Js.Dictionary T) k, ~ In k (Js.keys d) -> Js.get d k = None.
Proof.
  intros T d k. induction d as [|[k' v] r IH]; intro H; [ reflexivity | ].
  cbn [Js.get]. destruct (String.eqb k' k) eqn:E.
  - apply String.eqb_eq in E. exfalso. apply H. left. exact E.
  - apply IH. intro Hin. apply H. right. exact Hin.
Qed.

(** Writing a key the dictionary does not have puts it last. *)
Lemma set_fresh :
  forall {T} (d : Js.Dictionary T) k v,
    ~ In k (Js.keys d) -> Js.set d k v = (d ++ [(k, v)])%list.
Proof.
  intros T d k v. induction d as [|[k' v'] r IH]; intro H; [ reflexivity | ].
  cbn [Js.set app]. destruct (String.eqb k' k) eqn:E.
  - apply String.eqb_eq in E. exfalso. apply H. left. exact E.
  - rewrite IH; [ reflexivity | ]. intro Hin. apply H. right. exact Hin.
Qed.

Lemma keys_app :
  forall {T} (a b : Js.Dictionary T),
    Js.keys (a ++ b)%list = (Js.keys a ++ Js.keys b)%list.
Proof. intros T a b. unfold Js.keys. apply map_app. Qed.

Lemma keys_projected_incl :
  forall columns k, In k (Js.keys (projected columns)) -> In k (Js.keys columns).
Proof.
  intros columns k. unfold Js.keys, projected. rewrite !in_map_iff.
  intros (kv & E & Hin). apply filter_In in Hin. exists kv. split; [ exact E | apply Hin ].
Qed.

Lemma transformColumns_from :
  forall columns acc,
    NoDup (Js.keys acc ++ Js.keys columns)%list ->
    fold_left
      (fun acc kv =>
         let c : SuiteScriptColumn.t := snd kv in
         match SuiteScriptColumn.filterOnly c with
         | Some true => acc
         | _ =>
             Js.set acc (fst kv)
                    (PropertyName.mk None
                       (if String.eqb (SuiteScriptColumn.type c) "enum" then "string"
                        else SuiteScriptColumn.type c)
                       (SuiteScriptColumn.format c))
         end) columns acc
    = (acc ++ map (fun kv => (fst kv, declaredAs (snd kv))) (projected columns))%list.
Proof.
  induction columns as [|[key c] rest IH]; intros acc ND.
  - cbn. rewrite app_nil_r. reflexivity.
  - cbn [fold_left fst snd].
    assert (~ In key (Js.keys acc)) as Hfresh.
    { intro Hin. cbn [Js.keys map fst] in ND. apply NoDup_remove_2 in ND.
      apply ND. apply in_or_app. left. exact Hin. }
    assert (NoDup (Js.keys acc ++ Js.keys rest)%list) as NDrest.
    { cbn [Js.keys map fst] in ND. apply NoDup_remove_1 in ND. exact ND. }
    unfold projected. cbn [List.filter snd].
    destruct (SuiteScriptColumn.filterOnly c) as [[|]|];
      try (rewrite IH by exact NDrest; reflexivity);
      (rewrite IH;
       [ rewrite set_fresh by exact Hfresh;
         cbn [map fst snd]; rewrite <- app_assoc; reflexivity
       | rewrite set_fresh by exact Hfresh;
         rewrite keys_app; cbn [Js.keys map fst app];
         rewrite <- app_assoc; cbn [app]; exact ND ]).
Qed.

Lemma transformColumns_projected :
  forall columns,
    NoDup (Js.keys columns) ->
    transformColumns columns
    = map (fun kv => (fst kv, declaredAs (snd kv))) (projected columns).
Proof.
  intros columns ND. unfold transformColumns.
  rewrite transformColumns_from; [ reflexivity | exact ND ].
Qed.

Section Positions.

Variable DU : DateUtil.t.

Lemma transformArray_property_get :
  forall obj newObj propertyName field index,
    Js.get (transformArray_property DU obj newObj propertyName field index) propertyName
    = if Js.truthy (nth index obj Js.JUndefined)
      then Some (transformArray_value DU field (nth index obj Js.JUndefined))
      else Js.get newObj propertyName.
Proof.
  intros obj newObj propertyName field index.
  unfold transformArray_property, transformArray_value. cbv zeta.
  destruct (Js.truthy _); [ | reflexivity ].
  destruct (String.eqb (PropertyName.type field) "number"); [ apply get_set_same | ].
  destruct (String.eqb (PropertyName.type field) "date"), (PropertyName.format field);
    apply get_set_same.
Qed.

Lemma transformArray_property_other :
  forall obj newObj propertyName field index k,
    String.eqb propertyName k = false ->
    Js.get (transformArray_property DU obj newObj propertyName field index) k
    = Js.get newObj k.
Proof.
  intros obj newObj propertyName field index k E.
  unfold transformArray_property. cbv zeta.
  destruct (Js.truthy _); [ | reflexivity ].
  destruct (String.eqb (PropertyName.type field) "number");
    [ apply get_set_other; exact E | ].
  destruct (String.eqb (PropertyName.type field) "date"), (PropertyName.format field);
    apply get_set_other; exact E.
Qed.

Lemma transformArray_from_other :
  forall propertyNames index obj newObj k,
    ~ In k (Js.keys propertyNames) ->
    Js.get (transformArray_from DU index propertyNames obj newObj) k = Js.get newObj k.
Proof.
  induction propertyNames as [|[pn f] rest IH]; intros index obj newObj k Hn;
    cbn [transformArray_from]; [ reflexivity | ].
  rewrite IH by (intro Hin; apply Hn; right; exact Hin).
  apply transformArray_property_other. apply String.eqb_neq.
  intro E. apply Hn. left. exact E.
Qed.

(** Positional variant: under the logical name of the column at position
    [j] the row holds the value at that position, coerced, when it is
    truthy. *)
Lemma transformArray_from_get :
  forall propertyNames index obj newObj j propertyName field,
    NoDup (Js.keys propertyNames) ->
    nth_error propertyNames j = Some (propertyName, field) ->
    Js.get (transformArray_from DU index propertyNames obj newObj) propertyName
    = if Js.truthy (nth (index + j) obj Js.JUndefined)
      then Some (transformArray_value DU field (nth (index + j) obj Js.JUndefined))
      else Js.get newObj propertyName.
Proof.
  induction propertyNames as [|[pn f] rest IH];
    intros index obj newObj j propertyName field ND Hj; [ destruct j; discriminate | ].
  cbn [Js.keys map fst] in ND. inversion ND as [|x l Hx Hrest]; subst.
  cbn [transformArray_from]. destruct j as [|j].
  - cbn in Hj. injection Hj as -> ->. rewrite Nat.add_0_r.
    rewrite transformArray_from_other by exact Hx.
    apply transformArray_property_get.
  - cbn [nth_error] in Hj. rewrite (IH (S index) obj _ j propertyName field Hrest Hj).
    rewrite Nat.add_succ_r. cbn [Nat.add].
    rewrite transformArray_property_other; [ reflexivity | ].
    apply String.eqb_neq. intros ->. apply Hx.
    apply nth_error_In in Hj. apply (in_map fst) in Hj. exact Hj.
Qed.

End Positions.

(** X5.  The positional normalizer lines up with the request: for a column
    map without repeated keys, the columns [formatSearchObj] projects and
    the columns [searchRestlet] hands to [transformArray] are the same
    columns in the same order, the filter-only ones left out of both; so of
    a backend row the value at the position of a requested column is
    stored, coerced by the column's type, under that column's logical name
    when it is truthy, and the column is left out of the row when it is
    falsy. *)
Theorem X5_projected_columns_line_up :
  forall (DU : DateUtil.t) (OrderBy : string * string) (columns : SuiteScriptColumns)
         (cols : list SearchColumn.t),
    NoDup (Js.keys columns) ->
    formatSearchObj_columns OrderBy columns = ok cols ->
    Js.keys (transformColumns columns) = Js.keys (projected columns)
    /\ Forall2 (fun col kv =>
                  formatSearchObj_column OrderBy (fst kv) (snd kv) = ok (Some col))
               cols (projected columns)
    /\ forall (i : nat) (key : string) (c : SuiteScriptColumn.t) (obj : list Js.JsVal),
         nth_error (projected columns) i = Some (key, c) ->
         Js.get (transformArray_row DU (transformColumns columns) obj) key
         = if Js.truthy (nth i obj Js.JUndefined)
           then Some (transformArray_value DU (declaredAs c) (nth i obj Js.JUndefined))
           else None.
Proof.
  intros DU OrderBy columns cols ND H.
  assert (NoDup (Js.keys (projected columns))) as NDp.
  { clear H. induction columns as [|[key c] rest IH]; [ constructor | ].
    cbn [Js.keys map fst] in ND. inversion ND as [|x l Hx Hrest]; subst.
    unfold projected. cbn [List.filter snd].
    destruct (SuiteScriptColumn.filterOnly c) as [[|]|];
      try exact (IH Hrest);
      (cbn [Js.keys map fst]; constructor; [ | exact (IH Hrest) ];
       intro Hin; apply Hx; exact (keys_projected_incl rest key Hin)). }
  rewrite (transformColumns_projected columns ND).
  assert (Js.keys (map (fun kv : string * SuiteScriptColumn.t =>
                          (fst kv, declaredAs (snd kv))) (projected columns))
          = Js.keys (projected columns)) as K.
  { unfold Js.keys. rewrite map_map. reflexivity. }
  split; [ exact K | split ].
  - clear ND NDp K. revert cols H.
    induction columns as [|[key c] rest IH]; intros cols H.
    + inversion H. constructor.
    + cbn [formatSearchObj_columns] in H.
      destruct (formatSearchObj_column OrderBy key c) as [e|col] eqn:C;
        [ discriminate H | ].
      cbn [bind] in H.
      destruct (formatSearchObj_columns OrderBy rest) as [e|cols'];
        [ discriminate H | ].
      cbn [bind] in H. specialize (IH cols' eq_refl).
      unfold projected. cbn [List.filter snd].
      assert (match col with Some _ => True | None => SuiteScriptColumn.filterOnly c = Some true end
              /\ (SuiteScriptColumn.filterOnly c = Some true -> col = None)) as [Hc Hf].
      { unfold formatSearchObj_column in C.
        destruct (SuiteScriptColumn.filterOnly c) as [[|]|];
          [ inversion C; split; [ reflexivity | reflexivity ] | | ];
          (split; [ | discriminate ]);
          destruct col; try exact I;
          destruct (match SuiteScriptColumn.formula c with
                    | Some f => if negb (String.eqb f "")
                                then p <- formulaPart f 0 ;; ok (Some p)
                                else ok (SuiteScriptColumn.name c)
                    | None => ok (SuiteScriptColumn.name c)
                    end); try discriminate C; cbn [bind] in C;
          destruct (match SuiteScriptColumn.formula c with
                    | Some f => if negb (String.eqb f "")
                                then p <- formulaPart f 1 ;; ok (Some p)
                                else ok None
                    | None => ok None
                    end); discriminate C. }
      destruct col as [col|].
      * inversion H; subst cols.
        destruct (SuiteScriptColumn.filterOnly c) as [[|]|] eqn:F;
          [ discriminate (Hf eq_refl) | | ];
          (constructor; [ exact C | exact IH ]).
      * inversion H; subst cols. rewrite Hc. exact IH.
  - intros i key c obj Hi. unfold transformArray_row.
    rewrite (transformArray_from_get DU _ 0%nat obj [] i key (declaredAs c)).
    + reflexivity.
    + rewrite K. exact NDp.
    + rewrite nth_error_map, Hi. reflexivity.
Qed.

Lemma X5_witness :
  Js.get (transformArray_row Inputs.noDates (transformColumns Inputs.subsidiaryColumns)
                             [ Js.JStr "7"; Js.JStr "Acme"; Js.JStr "" ]) "Name"
  = Some (Js.JStr "Acme")
  /\ Js.get (transformArray_row Inputs.noDates (transformColumns Inputs.subsidiaryColumns)
                                [ Js.JStr "7"; Js.JStr "Acme"; Js.JStr "" ]) "ParentId"
     = None.
Proof.
  split.
  - exact (proj2 (proj2 (X5_projected_columns_line_up Inputs.noDates ("Id", "ASC")
                           Inputs.subsidiaryColumns
                           [ Inputs.column "internalid" (Some "ASC");
                             Inputs.column "namenohierarchy" None;
                             Inputs.column "parent" None ]
                           ltac:(repeat constructor; cbn; intuition discriminate) eq_refl))
                 1%nat "Name" (SuiteScriptColumn.plain "namenohierarchy" "string")
                 [ Js.JStr "7"; Js.JStr "Acme"; Js.JStr "" ] eq_refl).
  - exact (proj2 (proj2 (X5_projected_columns_line_up Inputs.noDates ("Id", "ASC")
                           Inputs.subsidiaryColumns
                           [ Inputs.column "internalid" (Some "ASC");
                             Inputs.column "namenohierarchy" None;
                             Inputs.column "parent" None ]
                           ltac:(repeat constructor; cbn; intuition discriminate) eq_refl))
                 2%nat "ParentId" (SuiteScriptColumn.plain "parent" "id")
                 [ Js.JStr "7"; Js.JStr "Acme"; Js.JStr "" ] eq_refl).
Defined.


(** ** The textual compiler: how the fragments compose *)

Lemma append_assoc :
  forall a b c : string, (a ++ b) ++ c = a ++ b ++ c.
Proof.
  induction a as [|x a IH]; intros b c; cbn [String.append];
    [ reflexivity | rewrite IH; reflexivity ].
Qed.

Lemma append_nil_r : forall a : string, a ++ "" = a.
Proof.
  induction a as [|x a IH]; cbn [String.append]; [ reflexivity | rewrite IH; reflexivity ].
Qed.

Lemma append_nonempty_r :
  forall a b, String.eqb b "" = false -> String.eqb (a ++ b) "" = false.
Proof. intros [|x a] b H; [ exact H | reflexivity ]. Qed.

Section FilterText.

Variable DU : DateUtil.t.

Lemma renderFilterSQL_nonempty :
  forall Columns filter,
    resolvable Columns filter = true ->
    String.eqb (renderFilterSQL DU Columns filter) "" = false.
Proof.
  intros Columns filter. unfold resolvable, renderFilterSQL.
  destruct (columnOf Columns (FilterParam.Column filter)) as [c|]; [ | discriminate ].
  intros _.
  pose proof (getOperator_sql_ok (SuiteQLColumn.type c) (FilterParam.Operator filter)) as H.
  destruct (getOperator sql _ _) as [e|operator]; [ discriminate H | ].
  apply append_space_nonempty.
Qed.

Lemma getFiltersSQL_body_render :
  forall Columns st filter,
    resolvable Columns filter = true ->
    exists st',
      getFiltersSQL_body DU Columns st filter = ok st'
      /\ filters st'
         = (if String.eqb (filters st) "" then "" else filters st ++ " AND ")
             ++ renderFilterSQL DU Columns filter.
Proof.
  intros Columns st filter. unfold resolvable, renderFilterSQL, getFiltersSQL_body.
  destruct (columnOf Columns (FilterParam.Column filter)) as [c|]; [ | discriminate ].
  intros _.
  pose proof (getOperator_sql_ok (SuiteQLColumn.type c) (FilterParam.Operator filter)) as H.
  destruct (getOperator sql _ _) as [e|operator]; [ discriminate H | ].
  cbn [bind ok]. eexists. split; [ reflexivity | ].
  cbn [filters]. destruct (String.eqb (filters st) "") eqn:E; cbn [negb].
  - apply String.eqb_eq in E. rewrite E.
    repeat first [ rewrite append_assoc | progress cbn [String.append] ]. reflexivity.
  - repeat first [ rewrite append_assoc | progress cbn [String.append] ]. reflexivity.
Qed.

(** Joining onto a text that is not empty. *)
Lemma join_onto :
  forall (l : list string) (acc : string),
    String.eqb acc "" = false ->
    Forall (fun r => String.eqb r "" = false) l ->
    fold_left (fun a r => (if String.eqb a "" then "" else a ++ " AND ") ++ r) l acc
    = Js.join " AND " (acc :: l).
Proof.
  induction l as [|r l IH]; intros acc Hacc Hl.
  - reflexivity.
  - cbn [fold_left]. rewrite Hacc. inversion Hl as [|? ? Hr Hl']; subst.
    rewrite IH;
      [ | rewrite append_assoc; apply append_nonempty_r; apply append_nonempty_r;
          exact Hr
        | exact Hl' ].
    unfold Js.join. cbn [String.concat].
    destruct l as [|r' l]; rewrite !append_assoc; reflexivity.
Qed.

Lemma getFiltersSQL_loop_render :
  forall Columns filtersParams st,
    exists st',
      getFiltersSQL_loop DU Columns st filtersParams = ok st'
      /\ filters st'
         = fold_left (fun a r => (if String.eqb a "" then "" else a ++ " AND ") ++ r)
                     (map (renderFilterSQL DU Columns)
                          (List.filter (resolvable Columns) filtersParams))
                     (filters st).
Proof.
  intros Columns filtersParams.
  induction filtersParams as [|filter rest IH]; intro st.
  - exists st. split; reflexivity.
  - cbn [getFiltersSQL_loop List.filter].
    destruct (resolvable Columns filter) eqn:R.
    + destruct (getFiltersSQL_body_render Columns st filter R) as (st1 & -> & H1).
      cbn [bind ok map fold_left]. rewrite <- H1. apply IH.
    + assert (columnOf Columns (FilterParam.Column filter) = None) as G.
      { unfold resolvable in R. destruct (columnOf _ _); [ discriminate | reflexivity ]. }
      rewrite (getFiltersSQL_body_absent DU _ st _ G). cbn [bind ok].
      destruct (IH (mkSQLFilterLoop (filters st) (processedFilters st)
                                    (S (skippedFilters st)))) as (st' & -> & H').
      exists st'. split; [ reflexivity | exact H' ].
Qed.

(** X6.  The filter fragment of the textual compiler is the renderings of
    the filters for whose column [Columns[filter.Column]] is truthy, in
    request order, joined by [" AND "]; any other filter contributes
    nothing, not even a separator.  The lookup goes through the prototype
    chain: a filter on an undeclared column named like a member of
    [Object.prototype] is rendered, with [undefined] for its column
    reference. *)
Theorem X6_getFiltersSQL_joins_renderings :
  forall (Columns : SuiteQLColumns) (filtersParams : list FilterParam.t),
    getFiltersSQL DU Columns filtersParams
    = ok (Js.join " AND "
            (map (renderFilterSQL DU Columns)
                 (List.filter (resolvable Columns) filtersParams))).
Proof.
  intros Columns filtersParams. unfold getFiltersSQL.
  destruct (getFiltersSQL_loop_render Columns filtersParams (mkSQLFilterLoop "" 0 0))
    as (st' & -> & H).
  cbn [bind ok filters] in *. rewrite H. f_equal.
  assert (Forall (fun r => String.eqb r "" = false)
                 (map (renderFilterSQL DU Columns)
                      (List.filter (resolvable Columns) filtersParams))) as Hne.
  { apply Forall_forall. intros r Hr. apply in_map_iff in Hr.
    destruct Hr as (f & <- & Hf). apply filter_In in Hf.
    apply renderFilterSQL_nonempty. apply Hf. }
  destruct (map _ _) as [|r l]; [ reflexivity | ].
  cbn [fold_left String.eqb String.append].
  inversion Hne as [|? ? Hr Hl]; subst.
  apply join_onto; assumption.
Qed.

(** The statement is the template after the three replacements. *)
Lemma formatSQL_replaces :
  forall sql0 (Columns : SuiteQLColumns) (params : NetSuiteParams.t)
         (inbuiltFilter : string) (defaultSort : DefaultSort.t),
  exists where_,
    formatSQL_whereClause DU Columns params inbuiltFilter = ok where_
    /\ formatSQL DU sql0 Columns params inbuiltFilter defaultSort
       = ok (Js.replace
               (Js.replace (Js.replace sql0 "{Columns}" (formatSQL_select Columns params))
                           "{OrderBy}" (formatSQL_orderClause Columns params defaultSort))
               "{Filters}" where_).
Proof.
  intros sql0 Columns params inbuiltFilter defaultSort.
  unfold formatSQL, formatSQL_whereClause.
  destruct (NetSuiteParams.Filters params) as [fs|].
  - pose proof (getFiltersSQL_never_throws DU Columns fs) as H.
    destruct (getFiltersSQL DU Columns fs) as [e|filterString]; [ discriminate H | ].
    cbn [bind ok]. eexists. split; reflexivity.
  - cbn [bind ok]. eexists. split; reflexivity.
Qed.

(** X7.  The textual compiler never throws: whatever the template, the
    column map and the parameters (unknown filter columns, unknown
    operators, an unknown order column, a default sort the map does not
    have), [formatSQL] returns a statement, which is the template with the
    first occurrence of each placeholder replaced in the order [{Columns}],
    [{OrderBy}], [{Filters}]. *)
Theorem X7_formatSQL_never_throws :
  forall sql0 (Columns : SuiteQLColumns) (params : NetSuiteParams.t)
         (inbuiltFilter : string) (defaultSort : DefaultSort.t),
  exists where_,
    formatSQL_whereClause DU Columns params inbuiltFilter = ok where_
    /\ formatSQL DU sql0 Columns params inbuiltFilter defaultSort
       = ok (Js.replace
               (Js.replace (Js.replace sql0 "{Columns}" (formatSQL_select Columns params))
                           "{OrderBy}" (formatSQL_orderClause Columns params defaultSort))
               "{Filters}" where_).
Proof. exact formatSQL_replaces. Qed.

End FilterText.

(** ** Placeholders and what replaces them *)

Lemma lacks_append :
  forall c a b, lacks c (a ++ b) = (lacks c a && lacks c b)%bool.
Proof.
  intros c a b. induction a as [|x a IH]; cbn [String.append lacks]; [ reflexivity | ].
  rewrite IH. rewrite andb_assoc. reflexivity.
Qed.

Lemma lacks_string_of_uint :
  forall c d, Js.digit_of c = None -> lacks c (NilEmpty.string_of_uint d) = true.
Proof.
  intros c d Hc.
  induction d as [|d IH|d IH|d IH|d IH|d IH|d IH|d IH|d IH|d IH|d IH];
    cbn [NilEmpty.string_of_uint lacks]; [ reflexivity | .. ];
    rewrite IH, andb_true_r;
    match goal with
    | |- negb (Ascii.eqb ?x c) = true =>
        destruct (Ascii.eqb x c) eqn:E; [ | reflexivity ];
        apply Ascii.eqb_eq in E; subst c; discriminate Hc
    end.
Qed.

Lemma lacks_string_of_Z :
  forall c z,
    Js.digit_of c = None -> Ascii.eqb "-" c = false ->
    lacks c (Js.string_of_Z z) = true.
Proof.
  intros c z Hc Hm. unfold Js.string_of_Z.
  assert (forall d, lacks c (NilZero.string_of_uint d) = true) as H.
  { intro d. destruct d; try apply (lacks_string_of_uint c _ Hc).
    cbn [NilZero.string_of_uint lacks]. rewrite andb_true_r.
    destruct (Ascii.eqb "0" c) eqn:E; [ | reflexivity ].
    apply Ascii.eqb_eq in E. subst c. discriminate Hc. }
  destruct (Z.to_int z) as [d|d]; cbn [NilZero.string_of_int lacks].
  - apply H.
  - rewrite Hm, H. reflexivity.
Qed.

(** A pattern whose first character the text lacks does not occur in it. *)
Lemma cut_lacks :
  forall c p s, lacks c s = true -> Js.cut (String c p) s = None.
Proof.
  intros c p s. induction s as [|x s IH]; intro H.
  - reflexivity.
  - cbn [lacks] in H. apply andb_true_iff in H. destruct H as [Hx Hs].
    cbn [Js.cut String.prefix].
    destruct (Ascii.ascii_dec c x) as [->|Hne].
    + rewrite Ascii.eqb_refl in Hx. discriminate Hx.
    + rewrite (IH Hs). reflexivity.
Qed.

Lemma replace_lacks :
  forall c p s repl, lacks c s = true -> Js.replace s (String c p) repl = s.
Proof.
  intros c p s repl H. unfold Js.replace. rewrite (cut_lacks c p s H). reflexivity.
Qed.

(** A replacement text without a dollar sign is inserted as it is. *)
Lemma getSubstitution_plain :
  forall matched before after repl,
    lacks "$" repl = true ->
    Js.getSubstitution matched before after repl = repl.
Proof.
  intros matched before after repl.
  induction repl as [|x r IH]; intro H; [ reflexivity | ].
  cbn [lacks] in H. apply andb_true_iff in H. destruct H as [Hx Hr].
  cbn [Js.getSubstitution].
  destruct x as [[|] [|] [|] [|] [|] [|] [|] [|]];
    try (rewrite (IH Hr); reflexivity);
    discriminate Hx.
Qed.

(** ** The [get-accounts] tool: what reaches the statement *)

Section GetAccountsQuery.

Variable DU : DateUtil.t.

Lemma cleanInput_CountOnly :
  forall input, isCountOnly (GetAccountsTool.cleanInput input) = isCountOnly input.
Proof.
  intro input. unfold GetAccountsTool.cleanInput.
  destruct (NetSuiteParams.OrderBy input) as [o|]; [ | reflexivity ].
  destruct (OrderByParam.SortOrder o) as [s|]; [ | reflexivity ].
  destruct (String.eqb s ""); reflexivity.
Qed.

Lemma cleanInput_limit :
  forall input, formatSQL_limit (GetAccountsTool.cleanInput input) = formatSQL_limit input.
Proof.
  intro input. unfold formatSQL_limit. rewrite cleanInput_CountOnly.
  unfold GetAccountsTool.cleanInput.
  destruct (NetSuiteParams.OrderBy input) as [o|]; [ | reflexivity ].
  destruct (OrderByParam.SortOrder o) as [s|]; [ | reflexivity ].
  destruct (String.eqb s ""); reflexivity.
Qed.

Lemma formatSQL_limit_lacks :
  forall c params,
    Js.digit_of c = None -> Ascii.eqb "-" c = false -> lacks c "TOP " = true ->
    lacks c (formatSQL_limit params) = true.
Proof.
  intros c params Hd Hm Ht. unfold formatSQL_limit.
  destruct (isCountOnly params); [ reflexivity | ].
  destruct (NetSuiteParams.Limit params) as [l|]; [ | reflexivity ].
  destruct (l =? 0); [ reflexivity | ].
  rewrite lacks_append, Ht, (lacks_string_of_Z c l Hd Hm). reflexivity.
Qed.

(** The statement the handler compiles: the template has the [{Columns}]
    placeholder only, so the order clause and the WHERE fragment, though
    computed, are inserted nowhere. *)
Lemma getAccounts_formattedSQL :
  forall input,
    GetAccountsTool.formattedSQL DU input
    = ok (if isCountOnly input then "SELECT COUNT(*) AS Count FROM Account a"
          else "SELECT " ++ formatSQL_limit input
                 ++ " a.Id AS Id, a.accountSearchDisplayNameCopy AS Name, "
                 ++ "a.acctNumber AS AccountNumber, a.parent AS ParentId, "
                 ++ "BUILTIN.DF(a.acctType) AS Type FROM Account a").
Proof.
  intro input. unfold GetAccountsTool.formattedSQL.
  destruct (formatSQL_replaces DU GetAccountsTool.sql GetAccountsTool.Columns
              (GetAccountsTool.cleanInput input) "" GetAccountsTool.defaultSort)
    as (where_ & _ & ->).
  f_equal. unfold formatSQL_select. rewrite cleanInput_CountOnly, cleanInput_limit.
  destruct (isCountOnly input).
  - reflexivity.
  - set (columns := formatSQL_columns GetAccountsTool.Columns).
    set (select := formatSQL_limit input ++ " " ++ columns).
    assert (lacks "$" select = true /\ lacks "{" select = true) as [Hd Hb].
    { subst select. rewrite !lacks_append.
      rewrite !formatSQL_limit_lacks by reflexivity. split; reflexivity. }
    assert (Js.replace GetAccountsTool.sql "{Columns}" select
            = "SELECT " ++ select ++ " FROM Account a") as ->.
    { unfold Js.replace.
      change (Js.cut "{Columns}" GetAccountsTool.sql)
        with (Some ("SELECT ", " FROM Account a")).
      cbv beta iota. rewrite (getSubstitution_plain _ _ _ _ Hd). reflexivity. }
    rewrite !replace_lacks;
      [ subst select columns; rewrite !append_assoc; reflexivity
      | cbn [String.append lacks]; rewrite lacks_append, Hb; reflexivity
      | rewrite replace_lacks;
        cbn [String.append lacks]; rewrite lacks_append, Hb; reflexivity ].
Qed.

End GetAccountsQuery.

(** X8.  The [get-accounts] tool ignores [Filters], [OrderBy] and
    [Offset]: its template has no [{Filters}] and no [{OrderBy}]
    placeholder and its loop starts at offset 0, so two requests that agree
    on [CountOnly] and [Limit] compile to the same statement and get the
    same reply, whatever filters, order and offset they ask for. *)
Theorem X8_getAccounts_ignores_filters_and_order :
  forall (DU : DateUtil.t) (ExecutorState : Type)
         (executeSuiteQL :
            ExecutorState -> string -> Z -> Result SuiteQLResult.t * ExecutorState)
         (fuel : nat) (input input' : NetSuiteParams.t) (st : ExecutorState),
    NetSuiteParams.CountOnly input = NetSuiteParams.CountOnly input' ->
    NetSuiteParams.Limit input = NetSuiteParams.Limit input' ->
    GetAccountsTool.formattedSQL DU input = GetAccountsTool.formattedSQL DU input'
    /\ GetAccountsTool.handler DU ExecutorState executeSuiteQL fuel input st
       = GetAccountsTool.handler DU ExecutorState executeSuiteQL fuel input' st.
Proof.
  intros DU ExecutorState executeSuiteQL fuel input input' st Hc Hl.
  assert (isCountOnly input = isCountOnly input') as Hic
      by (unfold isCountOnly; rewrite Hc; reflexivity).
  assert (GetAccountsTool.formattedSQL DU input = GetAccountsTool.formattedSQL DU input')
    as Hq.
  { rewrite !getAccounts_formattedSQL. unfold formatSQL_limit. rewrite Hic, Hl. reflexivity. }
  split; [ exact Hq | ].
  unfold GetAccountsTool.handler. rewrite Hq, !cleanInput_CountOnly, Hic. reflexivity.
Qed.

Lemma X8_witness :
  GetAccountsTool.formattedSQL Inputs.noDates
    (NetSuiteParams.mk None (Some (OrderByParam.mk "Id" (Some "DESC")))
                       (Some [FilterParam.mk "Name" "=" "Acme"]) (Some 5) None)
  = GetAccountsTool.formattedSQL Inputs.noDates
      (NetSuiteParams.mk None None None (Some 5) None).
Proof.
  exact (proj1 (X8_getAccounts_ignores_filters_and_order Inputs.noDates nat
                  Inputs.stubExecutor 0
                  (NetSuiteParams.mk None (Some (OrderByParam.mk "Id" (Some "DESC")))
                                     (Some [FilterParam.mk "Name" "=" "Acme"]) (Some 5) None)
                  (NetSuiteParams.mk None None None (Some 5) None) 0%nat
                  eq_refl eq_refl)).
Defined.

(** ** The paged fetch loop in general *)

Section PagedFetchGeneral.

Variable DU : DateUtil.t.
Variable ExecutorState : Type.
Variable executeSuiteQL :
  ExecutorState -> string -> Z -> Result SuiteQLResult.t * ExecutorState.
Variable q : string.
Variable Columns : SuiteQLColumns.

Lemma fetchLoop_answers :
  forall st offset pages st',
    answers ExecutorState executeSuiteQL q st offset pages st' ->
    forall k totalData trace,
      GetAccounts.fetchLoop DU ExecutorState executeSuiteQL (length pages + k) q Columns
                            false st totalData offset trace
      = GetAccounts.fetchLoop DU ExecutorState executeSuiteQL k q Columns false st'
          (totalData ++ normalizedPages DU Columns pages)%list (offsetAfter offset pages)
          (trace ++ pageTrace q offset pages)%list.
Proof.
  intros st offset pages st' H.
  induction H as [st offset|st offset r st1 rest st' He Hm _ IH]; intros k totalData trace.
  - cbn [length Nat.add normalizedPages flat_map offsetAfter pageTrace].
    rewrite !app_nil_r. reflexivity.
  - cbn [length Nat.add].
    rewrite (fetchLoop_more DU ExecutorState executeSuiteQL _ _ _ _ _ _ _ _ _ He Hm).
    rewrite IH. cbn [normalizedPages flat_map offsetAfter pageTrace].
    rewrite <- !app_assoc. reflexivity.
Qed.

Lemma normalizedPages_snoc :
  forall pages last,
    normalizedPages DU Columns (pages ++ [last])
    = (normalizedPages DU Columns pages
         ++ transform DU (SuiteQLResult.items last) (propertyNames_of Columns))%list.
Proof.
  intros pages last. unfold normalizedPages. rewrite flat_map_app.
  cbn [flat_map]. rewrite app_nil_r. reflexivity.
Qed.

Lemma pageTrace_snoc :
  forall pages last offset,
    pageTrace q offset (pages ++ [last])
    = (pageTrace q offset pages ++ GetAccounts.delayBefore (offsetAfter offset pages)
         ++ [GetAccounts.Execute q (offsetAfter offset pages)])%list.
Proof.
  induction pages as [|r rest IH]; intros last offset.
  - reflexivity.
  - cbn [pageTrace offsetAfter app]. rewrite IH, <- !app_assoc. reflexivity.
Qed.

Lemma offsets_pageTrace :
  forall pages offset,
    length (GetAccounts.offsets (pageTrace q offset pages)) = length pages.
Proof.
  induction pages as [|r rest IH]; intro offset; [ reflexivity | ].
  cbn [pageTrace length]. rewrite !offsets_app, offsets_delayBefore.
  cbn [app GetAccounts.offsets length]. rewrite IH. reflexivity.
Qed.

Lemma fetchAll_pages :
  forall (s0 s s' : ExecutorState) (pages : list SuiteQLResult.t) (last : SuiteQLResult.t),
    answers ExecutorState executeSuiteQL q s0 0 pages s ->
    executeSuiteQL s q (offsetAfter 0 pages) = (ok last, s') ->
    SuiteQLResult.hasMore last = false ->
    forall n : nat,
      GetAccounts.fetchAll DU ExecutorState executeSuiteQL (S (length pages) + n) q
                           Columns false s0
      = Some (ok (GetAccounts.TotalData (normalizedPages DU Columns (pages ++ [last]))),
              pageTrace q 0 (pages ++ [last]), s').
Proof.
  intros s0 s s' pages last Ha He Hm n.
  unfold GetAccounts.fetchAll.
  replace (S (length pages) + n)%nat with (length pages + S n)%nat by lia.
  rewrite (fetchLoop_answers _ _ _ _ Ha).
  rewrite (fetchLoop_last DU ExecutorState executeSuiteQL _ _ _ _ _ _ _ _ _ He Hm).
  rewrite normalizedPages_snoc, pageTrace_snoc. cbn [app]. reflexivity.
Qed.

(** X9.  Any number of pages: when the executor answers [pages], each
    reporting more data, and then a last page reporting none, the loop ends
    after one call per page, whatever bound of at least that many turns it
    is given, and returns the normalized rows of all the pages in request
    order; each request goes out at the offset the previous answer gave
    ([offset + count]). *)
Theorem X9_paged_fetch_all_pages :
  forall (s0 s s' : ExecutorState) (pages : list SuiteQLResult.t) (last : SuiteQLResult.t),
    answers ExecutorState executeSuiteQL q s0 0 pages s ->
    executeSuiteQL s q (offsetAfter 0 pages) = (ok last, s') ->
    SuiteQLResult.hasMore last = false ->
    forall n : nat,
      GetAccounts.fetchAll DU ExecutorState executeSuiteQL (S (length pages) + n) q
                           Columns false s0
      = Some (ok (GetAccounts.TotalData (normalizedPages DU Columns (pages ++ [last]))),
              pageTrace q 0 (pages ++ [last]), s')
      /\ length (GetAccounts.offsets (pageTrace q 0 (pages ++ [last]))) = S (length pages).
Proof.
  intros s0 s s' pages last Ha He Hm n. split.
  - exact (fetchAll_pages s0 s s' pages last Ha He Hm n).
  - rewrite offsets_pageTrace, length_app. cbn [length]. lia.
Qed.

(** X10.  A failed call ends the loop with the failure: when the executor
    answers [pages], each reporting more data, and then throws, the handler
    gets what was thrown and none of the rows fetched so far. *)
Theorem X10_paged_fetch_failure_discards_pages :
  forall (s0 s s' : ExecutorState) (pages : list SuiteQLResult.t) (e : Thrown),
    answers ExecutorState executeSuiteQL q s0 0 pages s ->
    executeSuiteQL s q (offsetAfter 0 pages) = (throw e, s') ->
    forall n : nat,
      GetAccounts.fetchAll DU ExecutorState executeSuiteQL (S (length pages) + n) q
                           Columns false s0
      = Some (throw e,
              (pageTrace q 0 pages ++ GetAccounts.delayBefore (offsetAfter 0 pages)
                 ++ [GetAccounts.Execute q (offsetAfter 0 pages)])%list,
              s').
Proof.
  intros s0 s s' pages e Ha He n. unfold GetAccounts.fetchAll.
  replace (S (length pages) + n)%nat with (length pages + S n)%nat by lia.
  rewrite (fetchLoop_answers _ _ _ _ Ha).
  cbn [GetAccounts.fetchLoop app]. rewrite He. reflexivity.
Qed.

(** X11.  The loop has no bound of its own: with an executor that always
    answers and always reports more data, no number of turns is enough. *)
Theorem X11_paged_fetch_never_ends_on_endless_backend :
  (forall st offset,
      exists r st', executeSuiteQL st q offset = (ok r, st')
                    /\ SuiteQLResult.hasMore r = true) ->
  forall (fuel : nat) (s0 : ExecutorState),
    GetAccounts.fetchAll DU ExecutorState executeSuiteQL fuel q Columns false s0 = None.
Proof.
  intros H fuel s0. unfold GetAccounts.fetchAll.
  generalize (@nil Row) as totalData. generalize 0 as offset.
  generalize (@nil GetAccounts.Event) as trace. revert s0.
  induction fuel as [|fuel IH]; intros s0 trace offset totalData; [ reflexivity | ].
  destruct (H s0 offset) as (r & st' & He & Hm).
  rewrite (fetchLoop_more DU ExecutorState executeSuiteQL _ _ _ _ _ _ _ _ _ He Hm).
  apply IH.
Qed.

End PagedFetchGeneral.

Lemma X9_witness :
  GetAccounts.fetchAll Inputs.noDates nat Inputs.stubExecutor 3 "q"
                       [ ("Id", SuiteQLColumn.mk "a.Id" "number" None None) ] false 0%nat
  = Some (ok (GetAccounts.TotalData
                (normalizedPages Inputs.noDates
                   [ ("Id", SuiteQLColumn.mk "a.Id" "number" None None) ]
                   [ Inputs.stubPage 0 0; Inputs.stubPage 1 2; Inputs.stubPage 2 4 ])),
          pageTrace "q" 0 [ Inputs.stubPage 0 0; Inputs.stubPage 1 2; Inputs.stubPage 2 4 ],
          3%nat).
Proof.
  refine (proj1 (X9_paged_fetch_all_pages Inputs.noDates nat Inputs.stubExecutor "q"
                   [ ("Id", SuiteQLColumn.mk "a.Id" "number" None None) ]
                   0%nat 2%nat 3%nat [ Inputs.stubPage 0 0; Inputs.stubPage 1 2 ]
                   (Inputs.stubPage 2 4) _ eq_refl eq_refl 0%nat)).
  apply (answers_more nat Inputs.stubExecutor "q" 0%nat 0 _ 1%nat); try reflexivity.
  apply (answers_more nat Inputs.stubExecutor "q" 1%nat 2 _ 2%nat); try reflexivity.
  apply answers_none.
Defined.

Lemma X10_witness :
  GetAccounts.fetchAll Inputs.noDates nat Stubs.failingExecutor 2 "q"
                       [ ("Id", SuiteQLColumn.mk "a.Id" "number" None None) ] false 0%nat
  = Some (throw (CFError AIErr "AIErr:Failed to execute query: timeout"),
          [ GetAccounts.Execute "q" 0; GetAccounts.Delay 100; GetAccounts.Execute "q" 2 ],
          2%nat).
Proof.
  refine (X10_paged_fetch_failure_discards_pages Inputs.noDates nat Stubs.failingExecutor
            "q" [ ("Id", SuiteQLColumn.mk "a.Id" "number" None None) ]
            0%nat 1%nat 2%nat [ Inputs.stubPage 0 0 ] _ _ eq_refl 0%nat).
  apply (answers_more nat Stubs.failingExecutor "q" 0%nat 0 _ 1%nat); try reflexivity.
  apply answers_none.
Defined.

Lemma X11_witness :
  GetAccounts.fetchAll Inputs.noDates nat Stubs.endlessExecutor 1000 "q"
                       [ ("Id", SuiteQLColumn.mk "a.Id" "number" None None) ] false 0%nat
  = None.
Proof.
  apply (X11_paged_fetch_never_ends_on_endless_backend Inputs.noDates nat
           Stubs.endlessExecutor "q").
  intros st offset. eexists. eexists. split; reflexivity.
Defined.

(** ** The [get-accounts] handler and [executeSuiteQL] *)

Section GetAccountsHandler.

Variable DU : DateUtil.t.

(** X12.  Count mode of [get-accounts]: exactly one call is made, at offset
    0 and with the statement [SELECT COUNT( * ) AS Count FROM Account a]
    (no limit, no filters), and the reply is the [count] field of that
    answer, whatever its rows and whether or not it reports more data. *)
Theorem X12_getAccounts_count_mode :
  forall (ExecutorState : Type)
         (executeSuiteQL :
            ExecutorState -> string -> Z -> Result SuiteQLResult.t * ExecutorState)
         (input : NetSuiteParams.t) (s0 s1 : ExecutorState) (r : SuiteQLResult.t),
    isCountOnly input = true ->
    executeSuiteQL s0 "SELECT COUNT(*) AS Count FROM Account a" 0 = (ok r, s1) ->
    forall n : nat,
      GetAccountsTool.handler DU ExecutorState executeSuiteQL (S n) input s0
      = Some (GetAccountsTool.Count (SuiteQLResult.count r),
              [ GetAccounts.Execute "SELECT COUNT(*) AS Count FROM Account a" 0 ],
              s1).
Proof.
  intros ExecutorState executeSuiteQL input s0 s1 r Hc He n.
  unfold GetAccountsTool.handler.
  rewrite getAccounts_formattedSQL, cleanInput_CountOnly, Hc.
  unfold ok at 1. cbv beta iota.
  unfold GetAccounts.fetchAll. cbn [GetAccounts.fetchLoop]. rewrite He. reflexivity.
Qed.

Section Transport.

Variable TransportState : Type.
Variable netsuiteRequest :
  TransportState -> string -> Z -> (string + SuiteQLData.t) * TransportState.

(** X13.  A failure of the transport on the first request reaches the
    caller of [get-accounts] as the error payload with the message
    [AIErr:Failed to execute query: ] followed by the transport's message,
    after that single request. *)
Theorem X13_getAccounts_transport_failure :
  forall (input : NetSuiteParams.t) (query message : string) (s0 s1 : TransportState),
    GetAccountsTool.formattedSQL DU input = ok query ->
    netsuiteRequest s0 query 0 = (inl message, s1) ->
    forall n : nat,
      GetAccountsTool.handler DU TransportState
                              (executeSuiteQL TransportState netsuiteRequest)
                              (S n) input s0
      = Some (GetAccountsTool.IsError
                (Some ("AIErr:Failed to execute query: " ++ message)),
              [ GetAccounts.Execute query 0 ], s1).
Proof.
  intros input query message s0 s1 Hq He n.
  unfold GetAccountsTool.handler. rewrite Hq. unfold ok at 1. cbv beta iota.
  unfold GetAccounts.fetchAll. cbn [GetAccounts.fetchLoop].
  unfold executeSuiteQL at 1. rewrite He. reflexivity.
Qed.

(** X14.  No progress, no end: when the endpoint keeps answering the
    request at offset 0 with [hasMore: true] and neither an offset nor a
    count (or zeros), [executeSuiteQL] defaults both to 0, the next request
    is again at offset 0, and the loop never returns, whatever its bound. *)
Theorem X14_paging_stuck_at_offset_zero :
  forall (q : string) (Columns : SuiteQLColumns) (data : SuiteQLData.t),
    (forall st, exists st', netsuiteRequest st q 0 = (inr data, st')) ->
    SuiteQLData.hasMore data = Some true ->
    orZero (SuiteQLData.offset data) + orZero (SuiteQLData.count data) = 0 ->
    forall (fuel : nat) (s0 : TransportState),
      GetAccounts.fetchAll DU TransportState
                           (executeSuiteQL TransportState netsuiteRequest)
                           fuel q Columns false s0
      = None.
Proof.
  intros q Columns data H Hm Hz fuel s0. unfold GetAccounts.fetchAll.
  generalize (@nil Row) as totalData. generalize (@nil GetAccounts.Event) as trace.
  revert s0.
  induction fuel as [|fuel IH]; intros s0 trace totalData; [ reflexivity | ].
  destruct (H s0) as (st' & He).
  cbn [GetAccounts.fetchLoop]. unfold executeSuiteQL at 1. rewrite He.
  unfold ok. cbn [SuiteQLResult.hasMore SuiteQLResult.offset SuiteQLResult.count].
  rewrite Hm, Hz. apply IH.
Qed.

End Transport.

End GetAccountsHandler.

Lemma X12_witness :
  GetAccountsTool.handler Inputs.noDates nat Inputs.stubExecutor 1
                          (NetSuiteParams.mk (Some true) None
                             (Some [FilterParam.mk "Name" "=" "Acme"]) (Some 5) None)
                          0%nat
  = Some (GetAccountsTool.Count 2,
          [ GetAccounts.Execute "SELECT COUNT(*) AS Count FROM Account a" 0 ], 1%nat).
Proof.
  exact (X12_getAccounts_count_mode Inputs.noDates nat Inputs.stubExecutor
           (NetSuiteParams.mk (Some true) None
              (Some [FilterParam.mk "Name" "=" "Acme"]) (Some 5) None)
           0%nat 1%nat (Inputs.stubPage 0 0) eq_refl eq_refl 0%nat).
Defined.

Lemma X13_witness :
  GetAccountsTool.handler Inputs.noDates nat (executeSuiteQL nat Stubs.deadTransport) 1
                          (NetSuiteParams.mk (Some true) None None None None) 0%nat
  = Some (GetAccountsTool.IsError
            (Some "AIErr:Failed to execute query: connect ECONNREFUSED"),
          [ GetAccounts.Execute "SELECT COUNT(*) AS Count FROM Account a" 0 ], 1%nat).
Proof.
  exact (X13_getAccounts_transport_failure Inputs.noDates nat Stubs.deadTransport
           (NetSuiteParams.mk (Some true) None None None None)
           "SELECT COUNT(*) AS Count FROM Account a" "connect ECONNREFUSED"
           0%nat 1%nat eq_refl eq_refl 0%nat).
Defined.

Lemma X14_witness :
  GetAccounts.fetchAll Inputs.noDates nat (executeSuiteQL nat Stubs.bareTransport) 1000
                       "q" GetAccountsTool.Columns false 0%nat
  = None.
Proof.
  apply (X14_paging_stuck_at_offset_zero Inputs.noDates nat Stubs.bareTransport "q"
           GetAccountsTool.Columns (SuiteQLData.mk None (Some []) (Some true) None None));
    try reflexivity.
  intro st. eexists. reflexivity.
Defined.

(** ** [getChildrenByNumber]: descent without end *)

Section Descent.

Variable accountData : list AccountData.t.

Lemma findRecursively_fold_None :
  forall fuel children,
    fold_left (fun acc child =>
                 match acc with
                 | Some r => GetAccountBalance.findRecursively fuel accountData r
                               (Js.string_of_Z child)
                 | None => None
                 end)
              children None
    = None.
Proof. intros fuel children. induction children as [|c l IH]; [ reflexivity | exact IH ]. Qed.

Lemma findRecursively_fold_hits :
  forall fuel children c acc,
    In c children ->
    (forall r, GetAccountBalance.findRecursively fuel accountData r (Js.string_of_Z c) = None) ->
    fold_left (fun acc child =>
                 match acc with
                 | Some r => GetAccountBalance.findRecursively fuel accountData r
                               (Js.string_of_Z child)
                 | None => None
                 end)
              children acc
    = None.
Proof.
  intros fuel children c.
  induction children as [|x l IH]; intros acc Hin Hc; [ contradiction | ].
  cbn [fold_left]. destruct Hin as [->|Hin].
  - destruct acc as [r|]; [ rewrite Hc | ]; apply findRecursively_fold_None.
  - apply IH; assumption.
Qed.

(** X15.  The expansion has no guard against a descent that never ends:
    if from every number of a set the search reaches a child whose id, as
    text, is again in the set (a cycle of parent links, as the search
    follows them), then [getChildrenByNumber] started in the set returns
    under no bound on its recursion depth. *)
Theorem X15_getChildrenByNumber_never_returns_on_a_cycle :
  forall P : string -> Prop,
    (forall x, P x ->
               exists c, In c (GetAccountBalance.childrenOf accountData x)
                         /\ P (Js.string_of_Z c)) ->
    forall (fuel : nat) (Numb : string),
      P Numb -> GetAccountBalance.getChildrenByNumber fuel accountData Numb = None.
Proof.
  intros P HP fuel Numb HN. unfold GetAccountBalance.getChildrenByNumber.
  generalize (match List.find (fun node => String.eqb (AccountData.AccountNumber node) Numb)
                              accountData with
              | Some selfAcc => [AccountData.Id selfAcc]
              | None => []
              end) as result.
  revert Numb HN. induction fuel as [|fuel IH]; intros Numb HN result; [ reflexivity | ].
  cbn [GetAccountBalance.findRecursively].
  destruct (HP Numb HN) as (c & Hin & Hc).
  apply (findRecursively_fold_hits fuel _ c); [ exact Hin | ].
  intro r. apply IH. exact Hc.
Qed.

End Descent.

Lemma X15_witness :
  GetAccountBalance.getChildrenByNumber 1000 selfParent "5" = None.
Proof.
  apply (X15_getChildrenByNumber_never_returns_on_a_cycle selfParent (fun x => x = "5")).
  - intros x ->. exists 5. split; [ left; reflexivity | reflexivity ].
  - reflexivity.
Defined.

(** ** [updateParentNumberFromId]: parent numbers from parent ids *)

Section ParentLinks.

Lemma get_delete_same :
  forall (d : Row) k, Js.get (JsObject.delete d k) k = None.
Proof.
  induction d as [|[k' v] r IH]; intro k; [ reflexivity | ].
  unfold JsObject.delete. cbn [List.filter fst].
  destruct (String.eqb k' k) eqn:E; cbn [negb].
  - apply IH.
  - cbn [Js.get]. rewrite E. apply IH.
Qed.

Lemma get_delete_other :
  forall (d : Row) k k',
    String.eqb k k' = false -> Js.get (JsObject.delete d k) k' = Js.get d k'.
Proof.
  induction d as [|[k0 v] r IH]; intros k k' H; [ reflexivity | ].
  unfold JsObject.delete. cbn [List.filter fst Js.get].
  destruct (String.eqb k0 k) eqn:E; cbn [negb].
  - apply String.eqb_eq in E. subst k0. rewrite H. apply IH. exact H.
  - cbn [Js.get]. destruct (String.eqb k0 k'); [ reflexivity | apply IH; exact H ].
Qed.

Lemma resolved_keeps :
  forall data item key,
    String.eqb "ParentId" key = false ->
    String.eqb "ParentNumber" key = false ->
    Js.get (ParentNumber.resolved data item) key = Js.get item key.
Proof.
  intros data item key H1 H2. unfold ParentNumber.resolved.
  destruct (Js.truthy (JsObject.prop item "ParentId")); [ | reflexivity ].
  rewrite (get_delete_other _ _ _ H1).
  destruct (JsObject.Map_get _ _) as [parentRef|]; [ | reflexivity ].
  destruct (nth_error data parentRef) as [parentObj|]; [ | reflexivity ].
  apply get_set_other. exact H2.
Qed.

Lemma resolved_no_ParentId :
  forall data item,
    Js.truthy (JsObject.prop (ParentNumber.resolved data item) "ParentId") = false.
Proof.
  intros data item. unfold ParentNumber.resolved.
  destruct (Js.truthy (JsObject.prop item "ParentId")) eqn:E; [ | exact E ].
  unfold JsObject.prop at 1. rewrite get_delete_same. reflexivity.
Qed.

Lemma nth_error_processed :
  forall (f : Row -> Row) i l j,
    nth_error (map f (firstn i l) ++ skipn i l)%list j
    = option_map (fun x => if j <? i then f x else x)%nat (nth_error l j).
Proof.
  intro f. induction i as [|i IH]; intros l j.
  - cbn [firstn skipn map app]. destruct (nth_error l j); reflexivity.
  - destruct l as [|x r]; [ destruct j; reflexivity | ].
    cbn [firstn skipn map app]. destruct j as [|j]; [ reflexivity | ].
    cbn [nth_error]. apply IH.
Qed.

Lemma update_processed :
  forall (f : Row -> Row) i l x,
    nth_error l i = Some x ->
    JsObject.update (map f (firstn i l) ++ skipn i l)%list i (f x)
    = (map f (firstn (S i) l) ++ skipn (S i) l)%list.
Proof.
  intro f. induction i as [|i IH]; intros l x H; destruct l as [|y r]; try discriminate.
  - cbn in H. injection H as ->. reflexivity.
  - cbn [nth_error] in H.
    change (map f (firstn (S i) (y :: r)) ++ skipn (S i) (y :: r))%list
      with (f y :: (map f (firstn i r) ++ skipn i r))%list.
    cbn [JsObject.update]. rewrite (IH r x H). reflexivity.
Qed.

Lemma update_same :
  forall store i x, nth_error store i = Some x -> JsObject.update store i x = store.
Proof.
  induction store as [|y r IH]; intros i x H; [ reflexivity | ].
  destruct i as [|i]; cbn in H |- *.
  - injection H as ->. reflexivity.
  - rewrite (IH i x H). reflexivity.
Qed.

Variable data : list Row.

Lemma visit_processed :
  forall i item,
    nth_error data i = Some item ->
    ParentNumber.visit (ParentNumber.idToItemMap data)
                       (map (ParentNumber.resolved data) (firstn i data) ++ skipn i data)%list i
    = (map (ParentNumber.resolved data) (firstn (S i) data) ++ skipn (S i) data)%list.
Proof.
  intros i item Hi. unfold ParentNumber.visit.
  rewrite nth_error_processed, Hi. cbn [option_map]. rewrite Nat.ltb_irrefl.
  rewrite <- (update_processed (ParentNumber.resolved data) i data item Hi).
  unfold ParentNumber.resolved at 5.
  destruct (Js.truthy (JsObject.prop item "ParentId")).
  - f_equal. f_equal.
    destruct (JsObject.Map_get _ _) as [parentRef|]; [ | reflexivity ].
    rewrite nth_error_processed.
    destruct (nth_error data parentRef) as [parentObj|]; [ | reflexivity ].
    cbn [option_map]. f_equal.
    destruct (parentRef <? i)%nat; [ | reflexivity ].
    unfold JsObject.prop. rewrite resolved_keeps; reflexivity.
  - symmetry. apply update_same. rewrite nth_error_processed, Hi.
    cbn [option_map]. rewrite Nat.ltb_irrefl. reflexivity.
Qed.

Lemma forEach_processed :
  forall count i : nat,
    (i + count = length data)%nat ->
    ParentNumber.forEach (ParentNumber.idToItemMap data)
                         (map (ParentNumber.resolved data) (firstn i data) ++ skipn i data)%list
                         i count
    = map (ParentNumber.resolved data) data.
Proof.
  induction count as [|count IH]; intros i H; cbn [ParentNumber.forEach].
  - replace i with (length data) by lia.
    rewrite firstn_all, skipn_all. apply app_nil_r.
  - destruct (nth_error data i) as [item|] eqn:Hi.
    + rewrite (visit_processed i item Hi). apply IH. lia.
    + apply nth_error_None in Hi. lia.
Qed.

Lemma updateParentNumberFromId_map :
  ParentNumber.updateParentNumberFromId data = map (ParentNumber.resolved data) data.
Proof.
  unfold ParentNumber.updateParentNumberFromId.
  exact (forEach_processed (length data) 0%nat eq_refl).
Qed.

(** X16.  Although [updateParentNumberFromId] changes the rows in place
    while it reads parents from the same rows, each row comes out as if it
    had been resolved against the rows as they were before the call: a row
    with a truthy [ParentId] gets the parent's [AccountNumber] as its
    [ParentNumber] when the id map has the parent, and loses [ParentId]
    either way; the other rows are unchanged.  In the result no row has a
    truthy [ParentId], and every key other than [ParentId] and
    [ParentNumber] holds what it held. *)
Theorem X16_updateParentNumberFromId_resolves_against_the_input :
  ParentNumber.updateParentNumberFromId data = map (ParentNumber.resolved data) data
  /\ Forall (fun row => Js.truthy (JsObject.prop row "ParentId") = false)
            (ParentNumber.updateParentNumberFromId data)
  /\ Forall2 (fun item row =>
                forall key,
                  String.eqb "ParentId" key = false ->
                  String.eqb "ParentNumber" key = false ->
                  Js.get row key = Js.get item key)
             data (ParentNumber.updateParentNumberFromId data).
Proof.
  rewrite updateParentNumberFromId_map. split; [ reflexivity | split ].
  - apply Forall_map. apply Forall_forall. intros item _. apply resolved_no_ParentId.
  - induction data as [|item r IH] at 1 3; [ constructor | ].
    cbn [map]. constructor; [ | exact IH ].
    intros key H1 H2. apply resolved_keeps; assumption.
Qed.

End ParentLinks.

(** ** The normalizers write declared columns only *)

Section DeclaredColumns.

Variable DU : DateUtil.t.

Lemma keys_set :
  forall {T} (d : Js.Dictionary T) k v k',
    In k' (Js.keys (Js.set d k v)) -> k' = k \/ In k' (Js.keys d).
Proof.
  intros T d k v k'. induction d as [|[k0 v0] r IH]; cbn [Js.set Js.keys map fst].
  - intros [H|[]]. left. symmetry. exact H.
  - destruct (String.eqb k0 k); cbn [map fst]; intros [H|H].
    + right. left. exact H.
    + right. right. exact H.
    + right. left. exact H.
    + destruct (IH H) as [E|E]; [ left; exact E | right; right; exact E ].
Qed.

Lemma NoDup_set :
  forall {T} (d : Js.Dictionary T) k v,
    NoDup (Js.keys d) -> NoDup (Js.keys (Js.set d k v)).
Proof.
  intros T d k v. induction d as [|[k0 v0] r IH]; cbn [Js.set Js.keys map fst]; intro ND.
  - constructor; [ intros [] | constructor ].
  - inversion ND as [|x l Hx Hr]; subst.
    destruct (String.eqb k0 k) eqn:E; cbn [map fst]; [ exact ND | ].
    constructor; [ | exact (IH Hr) ].
    intro Hin. destruct (keys_set r k v k0 Hin) as [->|H].
    + rewrite String.eqb_refl in E. discriminate.
    + exact (Hx H).
Qed.

Lemma transform_property_sets :
  forall obj newObj propertyName field,
    transform_property DU obj newObj propertyName field = newObj
    \/ exists w,
         transform_property DU obj newObj propertyName field
         = Js.set newObj (sourceKeyOf propertyName field) w.
Proof.
  intros obj newObj propertyName field.
  destruct (sourceValue obj (sourceKeyOf propertyName field)) as [v|] eqn:S.
  - right. exact (transform_property_present DU obj newObj propertyName field v S).
  - left. exact (transform_property_absent DU obj newObj propertyName field S).
Qed.

Lemma transformArray_property_sets :
  forall obj newObj propertyName field index,
    transformArray_property DU obj newObj propertyName field index = newObj
    \/ exists w,
         transformArray_property DU obj newObj propertyName field index
         = Js.set newObj propertyName w.
Proof.
  intros obj newObj propertyName field index. unfold transformArray_property. cbv zeta.
  destruct (Js.truthy _); [ right | left; reflexivity ].
  destruct (String.eqb (PropertyName.type field) "number"); [ eexists; reflexivity | ].
  destruct (String.eqb (PropertyName.type field) "date"), (PropertyName.format field);
    eexists; reflexivity.
Qed.

Lemma transform_fold_declared :
  forall obj propertyNames newObj,
    NoDup (Js.keys newObj) ->
    let out := fold_left (fun acc kv => transform_property DU obj acc (fst kv) (snd kv))
                         propertyNames newObj in
    NoDup (Js.keys out)
    /\ forall k, In k (Js.keys out) ->
                 In k (Js.keys newObj)
                 \/ exists propertyName field,
                      In (propertyName, field) propertyNames
                      /\ k = sourceKeyOf propertyName field.
Proof.
  intros obj propertyNames.
  induction propertyNames as [|[pn f] rest IH]; intros newObj ND; cbn [fold_left fst snd].
  - split; [ exact ND | intros k H; left; exact H ].
  - destruct (transform_property_sets obj newObj pn f) as [->|[w ->]].
    + destruct (IH newObj ND) as [N K]. split; [ exact N | ].
      intros k H. destruct (K k H) as [H'|(p & g & Hin & ->)]; [ left; exact H' | ].
      right. exists p, g. split; [ right; exact Hin | reflexivity ].
    + destruct (IH _ (NoDup_set newObj (sourceKeyOf pn f) w ND)) as [N K].
      split; [ exact N | ].
      intros k H. destruct (K k H) as [H'|(p & g & Hin & ->)].
      * destruct (keys_set _ _ _ _ H') as [->|H2]; [ | left; exact H2 ].
        right. exists pn, f. split; [ left; reflexivity | reflexivity ].
      * right. exists p, g. split; [ right; exact Hin | reflexivity ].
Qed.

Lemma transformArray_from_declared :
  forall propertyNames index obj newObj,
    NoDup (Js.keys newObj) ->
    let out := transformArray_from DU index propertyNames obj newObj in
    NoDup (Js.keys out)
    /\ forall k, In k (Js.keys out) ->
                 In k (Js.keys newObj) \/ In k (Js.keys propertyNames).
Proof.
  induction propertyNames as [|[pn f] rest IH]; intros index obj newObj ND;
    cbn [transformArray_from].
  - split; [ exact ND | intros k H; left; exact H ].
  - destruct (transformArray_property_sets obj newObj pn f index) as [->|[w ->]].
    + destruct (IH (S index) obj newObj ND) as [N K]. split; [ exact N | ].
      intros k H. destruct (K k H) as [H'|H']; [ left; exact H' | right; right; exact H' ].
    + destruct (IH (S index) obj _ (NoDup_set newObj pn w ND)) as [N K].
      split; [ exact N | ].
      intros k H. destruct (K k H) as [H'|H']; [ | right; right; exact H' ].
      destruct (keys_set _ _ _ _ H') as [->|H2]; [ right; left; reflexivity | left; exact H2 ].
Qed.

(** X17.  Neither normalizer copies a column it was not told about, and
    neither writes a key twice: every key of a row of [transform] is the
    source key of a declared column, every key of a row of
    [transformArray] is the logical name of a declared column, whatever
    else the raw row holds. *)
Theorem X17_normalizers_write_declared_columns_only :
  forall (propertyNames : Js.Dictionary PropertyName.t),
    (forall (obj : Row),
        NoDup (Js.keys (transform_row DU propertyNames obj))
        /\ forall k, In k (Js.keys (transform_row DU propertyNames obj)) ->
                     exists propertyName field,
                       In (propertyName, field) propertyNames
                       /\ k = sourceKeyOf propertyName field)
    /\ (forall (obj : list Js.JsVal),
           NoDup (Js.keys (transformArray_row DU propertyNames obj))
           /\ incl (Js.keys (transformArray_row DU propertyNames obj))
                   (Js.keys propertyNames)).
Proof.
  intro propertyNames. split; intro obj.
  - destruct (transform_fold_declared obj propertyNames [] (NoDup_nil _)) as [N K].
    split; [ exact N | ].
    intros k H. destruct (K k H) as [[]|E]. exact E.
  - destruct (transformArray_from_declared propertyNames 0%nat obj [] (NoDup_nil _)) as [N K].
    split; [ exact N | ].
    intros k H. destruct (K k H) as [[]|E]. exact E.
Qed.

Lemma transform_property_number :
  forall obj newObj propertyName field v,
    sourceValue obj (sourceKeyOf propertyName field) = Some v ->
    PropertyName.type field = "number" ->
    transform_property DU obj newObj propertyName field
    = Js.set newObj (sourceKeyOf propertyName field)
             (Js.JNum (Js.parseFloat (Js.String_ v))).
Proof.
  intros obj newObj propertyName field v. unfold sourceValue, transform_property.
  cbv zeta.
  destruct (findMatchingKey obj _) as [mk|]; [ | discriminate ].
  destruct (String.eqb mk ""); [ discriminate | ].
  destruct (Js.get obj mk) as [u|]; [ | discriminate ].
  destruct (Js.is_nullish u); [ discriminate | ].
  intros [= ->] ->. reflexivity.
Qed.

(** X18.  An account id survives the [get-accounts] pipeline as text: when
    the raw row holds, under a key that matches [Id] whatever its case, a
    value that prints as a safe integer, the row that comes out of
    [transform], of the parent-number step and of the final
    stringification has that integer's decimal text as its [Id]. *)
Theorem X18_account_id_comes_out_as_its_text :
  forall (data : list Row) (raw : Row) (v : Js.JsVal) (z : Z),
    Z.abs z <= MAX_SAFE_INTEGER ->
    sourceValue raw "Id" = Some v ->
    Js.String_ v = Js.string_of_Z z ->
    JsObject.prop
      (GetAccountsTool.stringifyId
         (ParentNumber.resolved data
            (transform_row DU (propertyNames_of GetAccountsTool.Columns) raw)))
      "Id"
    = Js.JStr (Js.string_of_Z z).
Proof.
  intros data raw v z Hz S P. apply safe_integer_bound in Hz.
  unfold GetAccountsTool.stringifyId, JsObject.prop at 1. rewrite get_set_same.
  unfold JsObject.prop. rewrite resolved_keeps by reflexivity.
  unfold transform_row, propertyNames_of, GetAccountsTool.Columns.
  cbn [map fold_left fst snd SuiteQLColumn.type SuiteQLColumn.format].
  rewrite !transform_property_other by reflexivity.
  rewrite (transform_property_number raw [] "Id" (PropertyName.mk None "number" None) v S eq_refl).
  rewrite get_set_same, P, (parseFloat_string_of_Z z Hz).
  cbn [Js.String_]. rewrite (string_of_number_integer z Hz). reflexivity.
Qed.

End DeclaredColumns.

Lemma X18_witness :
  JsObject.prop
    (GetAccountsTool.stringifyId
       (ParentNumber.resolved []
          (transform_row Inputs.noDates (propertyNames_of GetAccountsTool.Columns)
                         [ ("id", Js.JStr "42"); ("acctnumber", Js.JStr "4000") ])))
    "Id"
  = Js.JStr "42".
Proof.
  apply (X18_account_id_comes_out_as_its_text Inputs.noDates []
           [ ("id", Js.JStr "42"); ("acctnumber", Js.JStr "4000") ] (Js.JStr "42") 42).
  - unfold MAX_SAFE_INTEGER. lia.
  - reflexivity.
  - reflexivity.
Defined.

(** ** [getSubsidiaryFilter]: the descendants of a subsidiary *)

Section SubsidiaryTree.

Variable subs : list Row.

Lemma firstn_snoc :
  forall {A} (l g : list A) i x,
    nth_error l i = Some x ->
    firstn (S i) (l ++ g)%list = (firstn i l ++ [x])%list.
Proof.
  intro A. induction l as [|y r IH]; intros g i x H; destruct i as [|i]; try discriminate.
  - cbn in H. injection H as ->. reflexivity.
  - cbn [nth_error] in H.
    change (y :: firstn (S i) (r ++ g) = y :: (firstn i r ++ [x]))%list.
    rewrite (IH g i x H). reflexivity.
Qed.

Lemma walk_collects :
  forall (getChildrenOf : Js.JsVal -> option (list Js.JsVal)) (direct : list Js.JsVal)
         turns children index rs L,
    Forall2 (fun child r => getChildrenOf child = Some r) (firstn index children) rs ->
    children = (direct ++ concat rs)%list ->
    SubsidiaryFilter.walk getChildrenOf turns children index = Some L ->
    exists rs',
      Forall2 (fun child r => getChildrenOf child = Some r) L rs'
      /\ L = (direct ++ concat rs')%list.
Proof.
  intros getChildrenOf direct. induction turns as [|turns IH];
    intros children index rs L HF HC HW; cbn [SubsidiaryFilter.walk] in HW.
  - destruct (nth_error children index) eqn:E; [ discriminate | ].
    injection HW as <-. exists rs. split; [ | exact HC ].
    apply nth_error_None in E. rewrite firstn_all2 in HF by exact E. exact HF.
  - destruct (nth_error children index) as [child|] eqn:E.
    + destruct (getChildrenOf child) as [g|] eqn:G; [ | discriminate ].
      apply (IH _ _ (rs ++ [g])%list L) in HW; [ exact HW | | ].
      * rewrite (firstn_snoc children g index child E).
        apply Forall2_app; [ exact HF | ]. constructor; [ exact G | constructor ].
      * rewrite concat_app. cbn [concat]. rewrite app_nil_r, app_assoc, <- HC. reflexivity.
    + injection HW as <-. exists rs. split; [ | exact HC ].
      apply nth_error_None in E. rewrite firstn_all2 in HF by exact E. exact HF.
Qed.

Lemma getChildren_equation :
  forall (fuel turnsPerLevel : nat) (parentid : Js.JsVal) (L : list Js.JsVal),
    SubsidiaryFilter.getChildren (S fuel) turnsPerLevel subs parentid = Some L ->
    exists rs,
      Forall2 (fun child r =>
                 SubsidiaryFilter.getChildren fuel turnsPerLevel subs child = Some r) L rs
      /\ L = (SubsidiaryFilter.filterByParent subs parentid ++ concat rs)%list.
Proof.
  intros fuel turnsPerLevel parentid L H. cbn [SubsidiaryFilter.getChildren] in H.
  apply (walk_collects _ (SubsidiaryFilter.filterByParent subs parentid)
                       turnsPerLevel (SubsidiaryFilter.filterByParent subs parentid)
                       0%nat [] L); [ constructor | | exact H ].
  cbn [concat]. rewrite app_nil_r. reflexivity.
Qed.

Lemma walk_done :
  forall getChildrenOf turns children index,
    nth_error children index = None ->
    SubsidiaryFilter.walk getChildrenOf turns children index = Some children.
Proof.
  intros g [|t] children index H; cbn [SubsidiaryFilter.walk]; rewrite H; reflexivity.
Qed.

Lemma walk_step :
  forall getChildrenOf turns children index child l,
    nth_error children index = Some child ->
    getChildrenOf child = Some l ->
    SubsidiaryFilter.walk getChildrenOf (S turns) children index
    = SubsidiaryFilter.walk getChildrenOf turns (children ++ l)%list (S index).
Proof.
  intros g t children index child l H G. cbn [SubsidiaryFilter.walk].
  rewrite H, G. reflexivity.
Qed.

(** What holds of the direct children and is passed on by the recursive
    call holds of all that the loop returns. *)
Lemma walk_Forall :
  forall (getChildrenOf : Js.JsVal -> option (list Js.JsVal)) (P : Js.JsVal -> Prop),
    (forall child l, P child -> getChildrenOf child = Some l -> Forall P l) ->
    forall turns children index L,
      Forall P children ->
      SubsidiaryFilter.walk getChildrenOf turns children index = Some L ->
      Forall P L.
Proof.
  intros g P Hg. induction turns as [|t IH]; intros children index L HP HW;
    cbn [SubsidiaryFilter.walk] in HW.
  - destruct (nth_error children index); [ discriminate | ].
    injection HW as <-. exact HP.
  - destruct (nth_error children index) as [child|] eqn:E;
      [ | injection HW as <-; exact HP ].
    destruct (g child) as [l|] eqn:G; [ | discriminate ].
    apply (IH _ _ _) in HW; [ exact HW | ].
    apply Forall_app. split; [ exact HP | ].
    apply (Hg child l); [ | exact G ].
    apply nth_error_In in E. rewrite Forall_forall in HP. exact (HP _ E).
Qed.

Lemma filterByParent_ids :
  forall parentid c,
    In c (SubsidiaryFilter.filterByParent subs parentid) ->
    In c (map (fun sub => JsObject.prop sub "Id") subs).
Proof.
  intros parentid c. unfold SubsidiaryFilter.filterByParent. rewrite !in_map_iff.
  intros (sub & E & Hin). apply filter_In in Hin. exists sub. split; [ exact E | apply Hin ].
Qed.

Lemma uniform_bound :
  forall (Q : Js.JsVal -> nat -> Prop) (l : list Js.JsVal),
    (forall c N N', (N <= N')%nat -> Q c N -> Q c N') ->
    (forall c, In c l -> exists N, Q c N) ->
    exists N, forall c, In c l -> Q c N.
Proof.
  intros Q l Hmono. induction l as [|x l IH]; intro H.
  - exists 0%nat. intros c [].
  - destruct (H x (or_introl eq_refl)) as [Nx Hx].
    destruct (IH (fun c Hc => H c (or_intror Hc))) as [N HN].
    exists (Nat.max Nx N). intros c [<-|Hc].
    + apply (Hmono x Nx); [ lia | exact Hx ].
    + apply (Hmono c N); [ lia | exact (HN c Hc) ].
Qed.

Section Acyclic.

(** The parent links have no cycle: a rank goes down from every
    subsidiary to its children. *)
Variable rank : Js.JsVal -> nat.
Hypothesis rank_decreases :
  forall parentid c,
    In c (SubsidiaryFilter.filterByParent subs parentid) -> (rank c < rank parentid)%nat.

Lemma getChildren_descendants :
  forall fuel turns parentid L,
    SubsidiaryFilter.getChildren fuel turns subs parentid = Some L ->
    Forall (fun d => In d (map (fun sub => JsObject.prop sub "Id") subs)
                     /\ (rank d < rank parentid)%nat) L.
Proof.
  induction fuel as [|fuel IH]; intros turns p L H; [ discriminate | ].
  cbn [SubsidiaryFilter.getChildren] in H.
  refine (walk_Forall _ _ _ turns _ 0%nat L _ H).
  - intros child l [_ Hc] Hg. specialize (IH turns child l Hg).
    revert IH. apply Forall_impl. intros d [Hin Hd]. split; [ exact Hin | lia ].
  - apply Forall_forall. intros c Hc.
    split; [ exact (filterByParent_ids p c Hc) | exact (rank_decreases p c Hc) ].
Qed.

(** The loop ends: when the recursive call returns for every entry it can
    meet, lists of lower rank each time, a bound on the turns exists under
    which the loop returns, and what it returns does not depend on the
    bound. *)
Lemma walk_terminates :
  forall (R : Js.JsVal -> list Js.JsVal -> Prop),
    (forall c l, R c l ->
                 Forall (fun d => (exists l', R d l') /\ (rank d < rank c)%nat) l) ->
    forall k pending,
      Forall (fun c => (exists l, R c l) /\ (rank c < k)%nat) pending ->
      exists tail M,
        forall getChildrenOf,
          (forall c l, R c l -> getChildrenOf c = Some l) ->
          forall prefix turns,
            (M <= turns)%nat ->
            SubsidiaryFilter.walk getChildrenOf turns (prefix ++ pending)%list (length prefix)
            = Some (prefix ++ pending ++ tail)%list.
Proof.
  intros R HR. induction k as [|k IHk]; intros pending HP.
  - destruct pending as [|c r].
    + exists [], 0%nat. intros g Hg prefix turns _. rewrite !app_nil_r.
      apply walk_done. apply nth_error_None. lia.
    + inversion HP as [|? ? [_ Hc] _]; subst. lia.
  - assert (forall rest extra,
               Forall (fun c => (exists l, R c l) /\ (rank c < S k)%nat) rest ->
               Forall (fun c => (exists l, R c l) /\ (rank c < k)%nat) extra ->
               exists tail M,
                 forall g,
                   (forall c l, R c l -> g c = Some l) ->
                   forall prefix turns,
                     (M <= turns)%nat ->
                     SubsidiaryFilter.walk g turns (prefix ++ rest ++ extra)%list
                                           (length prefix)
                     = Some (prefix ++ rest ++ extra ++ tail)%list) as Q.
    { induction rest as [|x rest IHr]; intros extra Hrest Hextra.
      - cbn [app]. exact (IHk extra Hextra).
      - inversion Hrest as [|? ? [[l Hl] Hx] Hrest']; subst.
        assert (Forall (fun c => (exists l, R c l) /\ (rank c < k)%nat) (extra ++ l)%list)
          as Hextra'.
        { apply Forall_app. split; [ exact Hextra | ].
          generalize (HR x l Hl). apply Forall_impl.
          intros d [Hd Hlt]. split; [ exact Hd | lia ]. }
        destruct (IHr (extra ++ l)%list Hrest' Hextra') as (tail & M & HW).
        exists (l ++ tail)%list, (S M). intros g Hg prefix turns HM.
        destruct turns as [|t]; [ lia | ].
        rewrite (walk_step g t _ (length prefix) x l).
        + specialize (HW g Hg (prefix ++ [x])%list t ltac:(lia)).
          rewrite length_app in HW. cbn [length] in HW. rewrite Nat.add_1_r in HW.
          rewrite <- !app_assoc in HW. cbn [app] in HW.
          rewrite <- ?app_assoc. cbn [app]. rewrite <- ?app_assoc. exact HW.
        + rewrite nth_error_app2 by lia. rewrite Nat.sub_diag. reflexivity.
        + exact (Hg x l Hl). }
    destruct (Q pending [] HP (Forall_nil _)) as (tail & M & HW).
    exists tail, M. intros g Hg prefix turns HM.
    specialize (HW g Hg prefix turns HM). rewrite app_nil_r in HW.
    cbn [app] in HW. exact HW.
Qed.

Lemma getChildren_returns_step :
  forall n N,
    (forall c, In c (map (fun sub => JsObject.prop sub "Id") subs) ->
               (rank c < n)%nat ->
               exists l, forall fuel turns,
                   (n <= fuel)%nat -> (N <= turns)%nat ->
                   SubsidiaryFilter.getChildren fuel turns subs c = Some l) ->
    forall parentid,
      (rank parentid <= n)%nat ->
      exists L M,
        forall fuel turns,
          (n < fuel)%nat -> (Nat.max N M <= turns)%nat ->
          SubsidiaryFilter.getChildren fuel turns subs parentid = Some L.
Proof.
  intros n N HT p Hp.
  pose (R := fun (c : Js.JsVal) (l : list Js.JsVal) =>
               In c (map (fun sub => JsObject.prop sub "Id") subs)
               /\ (rank c < n)%nat
               /\ forall fuel turns,
                   (n <= fuel)%nat -> (N <= turns)%nat ->
                   SubsidiaryFilter.getChildren fuel turns subs c = Some l).
  assert (forall c l, R c l ->
                      Forall (fun d => (exists l', R d l') /\ (rank d < rank c)%nat) l) as HR.
  { intros c l (Hin & Hc & Hg). specialize (Hg n N (le_n _) (le_n _)).
    generalize (getChildren_descendants _ _ _ _ Hg). apply Forall_impl.
    intros d [Hd Hlt]. split; [ | exact Hlt ].
    destruct (HT d Hd ltac:(lia)) as [l' Hl']. exists l'.
    split; [ exact Hd | split; [ lia | exact Hl' ] ]. }
  assert (Forall (fun c => (exists l, R c l) /\ (rank c < n)%nat)
                 (SubsidiaryFilter.filterByParent subs p)) as HP.
  { apply Forall_forall. intros c Hc.
    pose proof (rank_decreases p c Hc) as Hlt.
    pose proof (filterByParent_ids p c Hc) as Hin.
    split; [ | lia ].
    destruct (HT c Hin ltac:(lia)) as [l Hl]. exists l.
    split; [ exact Hin | split; [ lia | exact Hl ] ]. }
  destruct (walk_terminates R HR n _ HP) as (tail & M & HW).
  exists (SubsidiaryFilter.filterByParent subs p ++ tail)%list, M.
  intros fuel turns Hf Ht.
  destruct fuel as [|f]; [ lia | ]. cbn [SubsidiaryFilter.getChildren].
  refine (HW (SubsidiaryFilter.getChildren f turns subs) _ [] turns _); [ | lia ].
  intros c l (_ & _ & Hg). apply Hg; lia.
Qed.

Lemma getChildren_returns_below :
  forall n,
  exists N,
    forall c, In c (map (fun sub => JsObject.prop sub "Id") subs) ->
              (rank c < n)%nat ->
              exists l, forall fuel turns,
                  (n <= fuel)%nat -> (N <= turns)%nat ->
                  SubsidiaryFilter.getChildren fuel turns subs c = Some l.
Proof.
  induction n as [|n [N HT]].
  - exists 0%nat. intros c _ H. lia.
  - destruct (uniform_bound
                (fun c M => (rank c < S n)%nat ->
                            exists l, forall fuel turns,
                                (S n <= fuel)%nat -> (M <= turns)%nat ->
                                SubsidiaryFilter.getChildren fuel turns subs c = Some l)
                (map (fun sub => JsObject.prop sub "Id") subs)) as [N' HN'].
    + intros c M M' HM HQ Hc. destruct (HQ Hc) as [l Hl]. exists l.
      intros fuel turns Hf Ht. apply Hl; lia.
    + intros c Hin. destruct (Nat.lt_ge_cases (rank c) (S n)) as [Hc|Hc].
      * destruct (getChildren_returns_step n N HT c ltac:(lia)) as (L & M & HL).
        exists (Nat.max N M). intros _. exists L.
        intros fuel turns Hf Ht. apply HL; lia.
      * exists 0%nat. intro H. lia.
    + exists N'. intros c Hin Hc. exact (HN' c Hin Hc).
Qed.

(** X19.  On subsidiaries whose parent links have no cycle, [getChildren]
    returns: every bound on the depth above the rank of the subsidiary and
    every bound on the turns above some number give the same list.  The
    list is the direct children followed, for every entry of the list
    itself and in that order, by what [getChildren] returns for that
    entry: the loop walks the descendants it has pushed as well as the
    direct children, so a descendant three levels down is pushed once as a
    descendant of the child and once more as a child of the grandchild. *)
Theorem X19_getChildren_walks_what_it_pushes :
  forall parentid : Js.JsVal,
  exists (L : list Js.JsVal) (N : nat),
    (forall fuel turns,
        (rank parentid < fuel)%nat -> (N <= turns)%nat ->
        SubsidiaryFilter.getChildren fuel turns subs parentid = Some L)
    /\ exists rs,
         Forall2 (fun child r =>
                    SubsidiaryFilter.getChildren (rank parentid) N subs child = Some r) L rs
         /\ L = (SubsidiaryFilter.filterByParent subs parentid ++ concat rs)%list.
Proof.
  intro p. destruct (getChildren_returns_below (rank p)) as [N HT].
  destruct (getChildren_returns_step (rank p) N HT p (le_n _)) as (L & M & HL).
  exists L, (Nat.max N M). split.
  - intros fuel turns Hf Ht. apply HL; assumption.
  - apply getChildren_equation. apply HL; lia.
Qed.

End Acyclic.

End SubsidiaryTree.

Lemma strictEquals_JStr :
  forall s v, SubsidiaryFilter.strictEquals (Js.JStr s) v = true -> v = Js.JStr s.
Proof.
  intros s v. destruct v; try discriminate. cbn.
  intro H. apply String.eqb_eq in H. subst. reflexivity.
Qed.

Lemma strictEquals_JUndefined :
  forall v, SubsidiaryFilter.strictEquals Js.JUndefined v = true -> v = Js.JUndefined.
Proof. intro v. destruct v; try discriminate. reflexivity. Qed.

Lemma chainRank_decreases :
  forall parentid c,
    In c (SubsidiaryFilter.filterByParent subsidiaryChain parentid) ->
    (chainRank c < chainRank parentid)%nat.
Proof.
  intros p c. unfold SubsidiaryFilter.filterByParent. rewrite in_map_iff.
  intros (sub & <- & Hin). apply filter_In in Hin. destruct Hin as [Hin E].
  destruct Hin as [<-|[<-|[<-|[<-|[]]]]];
    match type of E with
    | SubsidiaryFilter.strictEquals ?a _ = true =>
        let v := eval vm_compute in a in change a with v in E
    end.
  - apply strictEquals_JUndefined in E. subst p. vm_compute. lia.
  - apply strictEquals_JStr in E. subst p. vm_compute. lia.
  - apply strictEquals_JStr in E. subst p. vm_compute. lia.
  - apply strictEquals_JStr in E. subst p. vm_compute. lia.
Qed.

Lemma X19_witness :
  SubsidiaryFilter.getChildren 4 4 subsidiaryChain (Js.JStr "1")
  = Some [Js.JStr "2"; Js.JStr "3"; Js.JStr "4"; Js.JStr "4"]
  /\ exists (L : list Js.JsVal) (N : nat),
    (forall fuel turns,
        (chainRank (Js.JStr "1") < fuel)%nat -> (N <= turns)%nat ->
        SubsidiaryFilter.getChildren fuel turns subsidiaryChain (Js.JStr "1") = Some L)
    /\ exists rs,
         Forall2 (fun child r =>
                    SubsidiaryFilter.getChildren (chainRank (Js.JStr "1")) N subsidiaryChain
                                                 child = Some r) L rs
         /\ L = (SubsidiaryFilter.filterByParent subsidiaryChain (Js.JStr "1")
                   ++ concat rs)%list.
Proof.
  split; [ reflexivity | ].
  exact (X19_getChildren_walks_what_it_pushes subsidiaryChain chainRank
           chainRank_decreases (Js.JStr "1")).
Defined.

(** ** [getFiltersSearch]: the filter expression of the structured path *)

Section FilterExpression.

Variable DU : DateUtil.t.
Variable Columns : SuiteScriptColumns.

Lemma andJoined_snoc :
  forall cs c,
    ((match andJoined cs with
      | [] => andJoined cs
      | _ => andJoined cs ++ [Token "AND"]
      end) ++ [c])%list
    = andJoined (cs ++ [c]).
Proof.
  intros [|a r] c; [ reflexivity | ].
  cbn [andJoined app]. rewrite flat_map_app. cbn [flat_map app].
  rewrite <- app_assoc. reflexivity.
Qed.

Lemma getFiltersSearch_body_render :
  forall filters filter cond,
    renderFilterSearch DU Columns filter = Some cond ->
    getFiltersSearch_body DU Columns filters filter
    = ok ((match filters with [] => filters | _ => filters ++ [Token "AND"] end)
            ++ [cond])%list.
Proof.
  intros filters filter cond. unfold renderFilterSearch, getFiltersSearch_body.
  cbv zeta.
  destruct (scriptColumnOf Columns (FilterParam.Column filter)) as [c|]; [ | discriminate ].
  destruct (getOperator script _ _) as [e|operator]; [ discriminate | ].
  intros [= <-]. reflexivity.
Qed.

Lemma getFiltersSearch_loop_render :
  forall filtersParams conds cs,
    map (renderFilterSearch DU Columns) filtersParams = map Some conds ->
    getFiltersSearch_loop DU Columns (andJoined cs) filtersParams
    = ok (andJoined (cs ++ conds)).
Proof.
  induction filtersParams as [|filter rest IH]; intros conds cs H;
    destruct conds as [|cond conds]; try discriminate H.
  - rewrite app_nil_r. reflexivity.
  - cbn [map] in H. injection H as Hc Hr.
    cbn [getFiltersSearch_loop]. rewrite (getFiltersSearch_body_render _ _ _ Hc).
    cbn [bind ok]. rewrite andJoined_snoc.
    change (inr (andJoined (cs ++ [cond]))) with (ok (andJoined (cs ++ [cond]))).
    rewrite (IH conds (cs ++ [cond])%list Hr), <- app_assoc. reflexivity.
Qed.

Lemma andJoined_length :
  forall cs, length (andJoined cs) = (2 * length cs - 1)%nat.
Proof.
  intros [|a r]; [ reflexivity | ]. cbn [andJoined length].
  assert (length (flat_map (fun c' => [Token "AND"; c']) r) = (2 * length r)%nat) as ->.
  { induction r as [|b r IH]; [ reflexivity | ]. cbn [flat_map app length]. rewrite IH. lia. }
  lia.
Qed.

(** X20.  When every filter names a column of the map and has an operator
    for it, [getFiltersSearch] returns the filters' conditions in request
    order with the token ["AND"] between each two of them and nowhere
    else: [2n - 1] entries for [n] filters, none for none. *)
Theorem X20_getFiltersSearch_puts_AND_between_conditions :
  forall (filtersParams : list FilterParam.t) (conds : list FilterEntry),
    map (renderFilterSearch DU Columns) filtersParams = map Some conds ->
    getFiltersSearch DU Columns filtersParams = ok (andJoined conds)
    /\ length (andJoined conds) = (2 * length filtersParams - 1)%nat.
Proof.
  intros filtersParams conds H. split.
  - exact (getFiltersSearch_loop_render filtersParams conds [] H).
  - rewrite andJoined_length.
    apply (f_equal (@length _)) in H. rewrite !length_map in H. rewrite H. reflexivity.
Qed.

End FilterExpression.

Lemma X20_witness :
  getFiltersSearch Inputs.noDates Inputs.subsidiaryColumns
    [ FilterParam.mk "Name" "=" "Acme"; FilterParam.mk "ParentId" "=" "1" ]
  = ok [ Condition [Some "namenohierarchy"; Some "CONTAINS"; Some "Acme"];
         Token "AND";
         Condition [Some "parent"; Some "ANYOF"; Some "1"] ]
  /\ length (andJoined [ Condition [Some "namenohierarchy"; Some "CONTAINS"; Some "Acme"];
                         Condition [Some "parent"; Some "ANYOF"; Some "1"] ])
     = 3%nat.
Proof.
  apply (X20_getFiltersSearch_puts_AND_between_conditions
           Inputs.noDates Inputs.subsidiaryColumns
           [ FilterParam.mk "Name" "=" "Acme"; FilterParam.mk "ParentId" "=" "1" ]
           [ Condition [Some "namenohierarchy"; Some "CONTAINS"; Some "Acme"];
             Condition [Some "parent"; Some "ANYOF"; Some "1"] ]).
  reflexivity.
Defined.

(** ** [formatSQL]: how the WHERE text reaches the statement *)

Section WhereText.

Variable DU : DateUtil.t.

Lemma cut_skip :
  forall c p pre s,
    lacks c pre = true ->
    Js.cut (String c p) (pre ++ s)
    = match Js.cut (String c p) s with
      | Some (b, a) => Some (pre ++ b, a)
      | None => None
      end.
Proof.
  intros c p pre s. induction pre as [|x pre IH]; intro H.
  - cbn [String.append]. destruct (Js.cut (String c p) s) as [[b a]|]; reflexivity.
  - cbn [lacks] in H. apply andb_true_iff in H. destruct H as [Hx Hs].
    cbn [String.append Js.cut String.prefix].
    destruct (Ascii.ascii_dec c x) as [->|Hne].
    + rewrite Ascii.eqb_refl in Hx. discriminate Hx.
    + rewrite (IH Hs). destruct (Js.cut (String c p) s) as [[b a]|]; reflexivity.
Qed.

Lemma substring_whole :
  forall s, String.substring 0 (String.length s) s = s.
Proof.
  induction s as [|c s IH]; [ reflexivity | ].
  cbn [String.length String.substring]. rewrite IH. reflexivity.
Qed.

Lemma cut_Filters_here :
  forall post, Js.cut "{Filters}" ("{Filters}" ++ post) = Some ("", post).
Proof.
  intro post.
  change ("{Filters}" ++ post) with (String "{" ("Filters}" ++ post)).
  unfold Js.cut at 1. fold Js.cut.
  replace (String.prefix "{Filters}" (String "{" ("Filters}" ++ post))) with true
    by (destruct post; reflexivity).
  change (String.length (String "{" ("Filters}" ++ post)) - String.length "{Filters}")%nat
    with (String.length post - 0)%nat.
  rewrite Nat.sub_0_r.
  change (String.substring (String.length "{Filters}") (String.length post)
                           (String "{" ("Filters}" ++ post)))
    with (String.substring 0 (String.length post) post).
  rewrite substring_whole. reflexivity.
Qed.

Lemma cut_other_placeholder :
  forall p pre post,
    lacks "{" pre = true ->
    lacks "{" post = true ->
    String.prefix (String "{" p) ("{Filters}" ++ post) = false ->
    Js.cut (String "{" p) (pre ++ "{Filters}" ++ post) = None.
Proof.
  intros p pre post Hpre Hpost Hp. rewrite (cut_skip _ _ _ _ Hpre).
  change ("{Filters}" ++ post) with (String "{" ("Filters}" ++ post)) in Hp |- *.
  unfold Js.cut at 1. fold Js.cut. rewrite Hp.
  rewrite (cut_skip "{" p "Filters}" post eq_refl), (cut_lacks _ _ _ Hpost).
  reflexivity.
Qed.

(** X21.  For a template whose only placeholder is [{Filters}], the
    statement is the template with the WHERE text at the placeholder, as
    [String.prototype.replace] inserts a replacement text: verbatim when
    the WHERE text has no dollar sign, and otherwise with its [$$], [$&],
    [$`] and [$'] read as replacement patterns, so a filter value that
    holds one of them does not reach the statement as it was given. *)
Theorem X21_formatSQL_reads_dollar_patterns_in_the_where_text :
  forall (pre post : string) (Columns : SuiteQLColumns) (params : NetSuiteParams.t)
         (inbuiltFilter : string) (defaultSort : DefaultSort.t),
    lacks "{" pre = true ->
    lacks "{" post = true ->
    exists where_,
      formatSQL_whereClause DU Columns params inbuiltFilter = ok where_
      /\ formatSQL DU (pre ++ "{Filters}" ++ post) Columns params inbuiltFilter defaultSort
         = ok (pre ++ Js.getSubstitution "{Filters}" pre post where_ ++ post)
      /\ (lacks "$" where_ = true ->
          formatSQL DU (pre ++ "{Filters}" ++ post) Columns params inbuiltFilter defaultSort
          = ok (pre ++ where_ ++ post)).
Proof.
  intros pre post Columns params inbuiltFilter defaultSort Hpre Hpost.
  destruct (formatSQL_replaces DU (pre ++ "{Filters}" ++ post) Columns params
                               inbuiltFilter defaultSort) as (where_ & HW & HS).
  exists where_. split; [ exact HW | ].
  assert (formatSQL DU (pre ++ "{Filters}" ++ post) Columns params inbuiltFilter defaultSort
          = ok (pre ++ Js.getSubstitution "{Filters}" pre post where_ ++ post)) as E.
  { rewrite HS. f_equal.
    unfold Js.replace at 3.
    rewrite (cut_other_placeholder "Columns}" pre post Hpre Hpost eq_refl).
    unfold Js.replace at 2.
    rewrite (cut_other_placeholder "OrderBy}" pre post Hpre Hpost eq_refl).
    unfold Js.replace.
    rewrite (cut_skip "{" "Filters}" pre _ Hpre), cut_Filters_here, append_nil_r.
    reflexivity. }
  split; [ exact E | ].
  intro Hd. rewrite E, (getSubstitution_plain _ _ _ _ Hd). reflexivity.
Qed.

End WhereText.

Lemma X21_witness :
  formatSQL Inputs.noDates ("SELECT a.Id FROM Account a " ++ "{Filters}" ++ "")
            Inputs.sqlColumns
            (NetSuiteParams.mk None None (Some [FilterParam.mk "Name" "=" "$&"]) None None)
            "" (DefaultSort.mk "Name" "Asc")
  = ok "SELECT a.Id FROM Account a WHERE a.Name LIKE  '%{Filters}%' "
  /\ exists where_,
       formatSQL_whereClause Inputs.noDates Inputs.sqlColumns
         (NetSuiteParams.mk None None (Some [FilterParam.mk "Name" "=" "$&"]) None None) ""
       = ok where_
       /\ formatSQL Inputs.noDates ("SELECT a.Id FROM Account a " ++ "{Filters}" ++ "")
            Inputs.sqlColumns
            (NetSuiteParams.mk None None (Some [FilterParam.mk "Name" "=" "$&"]) None None)
            "" (DefaultSort.mk "Name" "Asc")
          = ok ("SELECT a.Id FROM Account a "
                  ++ Js.getSubstitution "{Filters}" "SELECT a.Id FROM Account a " "" where_
                  ++ "")
       /\ (lacks "$" where_ = true ->
           formatSQL Inputs.noDates ("SELECT a.Id FROM Account a " ++ "{Filters}" ++ "")
             Inputs.sqlColumns
             (NetSuiteParams.mk None None (Some [FilterParam.mk "Name" "=" "$&"]) None None)
             "" (DefaultSort.mk "Name" "Asc")
           = ok ("SELECT a.Id FROM Account a " ++ where_ ++ "")).
Proof.
  split; [ reflexivity | ].
  apply (X21_formatSQL_reads_dollar_patterns_in_the_where_text
           Inputs.noDates "SELECT a.Id FROM Account a " "" Inputs.sqlColumns
           (NetSuiteParams.mk None None (Some [FilterParam.mk "Name" "=" "$&"]) None None)
           "" (DefaultSort.mk "Name" "Asc")); reflexivity.
Defined.

(** ** [getChildrenByNumber]: what the descent can reach *)

Section Reach.

Variable accountData : list AccountData.t.

Lemma reached_incl :
  forall found found' l,
    incl found found' ->
    Forall (reachedById accountData found) l ->
    Forall (reachedById accountData found') l.
Proof.
  intros found found' l Hi. apply Forall_impl.
  intros i (c & Hc & Hin). exists c. split; [ apply Hi; exact Hc | exact Hin ].
Qed.

Lemma findRecursively_reach :
  forall fuel result currentNumb L,
    GetAccountBalance.findRecursively fuel accountData result currentNumb = Some L ->
    exists rest,
      L = (result ++ GetAccountBalance.childrenOf accountData currentNumb ++ rest)%list
      /\ Forall (reachedById accountData
                  (GetAccountBalance.childrenOf accountData currentNumb ++ rest)%list)
                rest.
Proof.
  induction fuel as [|fuel IH]; intros result currentNumb L H; [ discriminate H | ].
  cbn [GetAccountBalance.findRecursively] in H.
  assert (forall cs r0 L0,
             fold_left (fun acc child =>
                          match acc with
                          | Some r => GetAccountBalance.findRecursively fuel accountData r
                                        (Js.string_of_Z child)
                          | None => None
                          end) cs (Some r0) = Some L0 ->
             exists rest, L0 = (r0 ++ rest)%list
                          /\ Forall (reachedById accountData (cs ++ rest)%list) rest)
    as Hfold.
  { induction cs as [|c0 cs IHcs]; intros r0 L0 HF; cbn [fold_left] in HF.
    - injection HF as <-. exists []. split; [ symmetry; apply app_nil_r | constructor ].
    - destruct (GetAccountBalance.findRecursively fuel accountData r0 (Js.string_of_Z c0))
        as [r1|] eqn:E1.
      + destruct (IH _ _ _ E1) as (rest1 & -> & F1).
        destruct (IHcs _ _ HF) as (rest2 & -> & F2).
        exists (GetAccountBalance.childrenOf accountData (Js.string_of_Z c0)
                  ++ rest1 ++ rest2)%list.
        split; [ rewrite <- !app_assoc; reflexivity | ].
        apply Forall_app. split; [ | apply Forall_app; split ].
        * apply Forall_forall. intros i Hi. exists c0. split; [ left; reflexivity | exact Hi ].
        * refine (reached_incl _ _ _ _ F1).
          intros x Hx. right. apply in_or_app. right.
          rewrite app_assoc. apply in_or_app. left. exact Hx.
        * refine (reached_incl _ _ _ _ F2).
          intros x Hx. apply in_app_or in Hx. destruct Hx as [Hx|Hx].
          -- right. apply in_or_app. left. exact Hx.
          -- right. apply in_or_app. right. apply in_or_app. right.
             apply in_or_app. right. exact Hx.
      + rewrite findRecursively_fold_None in HF. discriminate HF. }
  destruct (Hfold _ _ _ H) as (rest & -> & F).
  exists rest. split; [ rewrite <- app_assoc; reflexivity | exact F ].
Qed.

Section NoCycle.

(** The parent links, as the search follows them, have no cycle: a rank
    goes down from every number to the id text of its children. *)
Variable rank : string -> nat.
Hypothesis rank_decreases :
  forall currentNumb c,
    In c (GetAccountBalance.childrenOf accountData currentNumb) ->
    (rank (Js.string_of_Z c) < rank currentNumb)%nat.

Lemma findRecursively_returns :
  forall n currentNumb,
    (rank currentNumb < n)%nat ->
    exists rest,
      forall fuel result,
        (n <= fuel)%nat ->
        GetAccountBalance.findRecursively fuel accountData result currentNumb
        = Some (result ++ GetAccountBalance.childrenOf accountData currentNumb ++ rest)%list.
Proof.
  induction n as [|n IH]; intros x Hx; [ lia | ].
  assert (forall cs,
             Forall (fun c => (rank (Js.string_of_Z c) < n)%nat) cs ->
             exists tail,
               forall fuel r0,
                 (n <= fuel)%nat ->
                 fold_left (fun acc child =>
                              match acc with
                              | Some r => GetAccountBalance.findRecursively fuel accountData r
                                            (Js.string_of_Z child)
                              | None => None
                              end) cs (Some r0)
                 = Some (r0 ++ tail)%list) as Hfold.
  { induction cs as [|c cs IHcs]; intro Hcs.
    - exists []. intros fuel r0 _. cbn [fold_left]. rewrite app_nil_r. reflexivity.
    - inversion Hcs as [|? ? Hc Hcs']; subst.
      destruct (IH (Js.string_of_Z c) Hc) as (rest_c & Hrec).
      destruct (IHcs Hcs') as (tail & Htail).
      exists (GetAccountBalance.childrenOf accountData (Js.string_of_Z c)
                ++ rest_c ++ tail)%list.
      intros fuel r0 Hf. cbn [fold_left]. rewrite (Hrec fuel r0 Hf).
      rewrite (Htail fuel _ Hf). rewrite <- !app_assoc. reflexivity. }
  destruct (Hfold (GetAccountBalance.childrenOf accountData x)) as (tail & Htail).
  { apply Forall_forall. intros c Hc. pose proof (rank_decreases x c Hc). lia. }
  exists tail. intros fuel result Hf. destruct fuel as [|fuel]; [ lia | ].
  cbn [GetAccountBalance.findRecursively].
  rewrite (Htail fuel _ ltac:(lia)). rewrite <- app_assoc. reflexivity.
Qed.

(** X22.  On records whose parent links, as the search follows them, have
    no cycle, [getChildrenByNumber] returns, the same list whatever the
    bound on its depth above the rank of the number asked for.  The list is
    the id of the account with that number (when there is one), then the
    ids of the records whose [ParentNumber] is that number, and after them
    only ids of records whose [ParentNumber] is the decimal text of an id
    found at or after the first level: below the first level the descent
    follows ids, never account numbers. *)
Theorem X22_getChildrenByNumber_descends_by_id_text :
  forall Numb : string,
  exists rest : list Z,
    (forall fuel : nat,
        (rank Numb < fuel)%nat ->
        GetAccountBalance.getChildrenByNumber fuel accountData Numb
        = Some (match List.find (fun node => String.eqb (AccountData.AccountNumber node) Numb)
                                accountData with
                | Some selfAcc => [AccountData.Id selfAcc]
                | None => []
                end
                ++ GetAccountBalance.childrenOf accountData Numb ++ rest)%list)
    /\ Forall (fun i =>
                 exists c,
                   In c (GetAccountBalance.childrenOf accountData Numb ++ rest)%list
                   /\ In i (GetAccountBalance.childrenOf accountData (Js.string_of_Z c)))
              rest.
Proof.
  intro Numb.
  destruct (findRecursively_returns (S (rank Numb)) Numb (le_n _)) as (rest & Hrec).
  exists rest. split.
  - intros fuel Hf. unfold GetAccountBalance.getChildrenByNumber. apply Hrec. lia.
  - destruct (findRecursively_reach (S (rank Numb)) [] Numb _ (Hrec _ [] (le_n _)))
      as (rest' & E & F).
    cbn [app] in E. apply app_inv_head in E. subst rest'. exact F.
Qed.

End NoCycle.

End Reach.

Lemma accountsByIdRank_decreases :
  forall currentNumb c,
    In c (GetAccountBalance.childrenOf accountsById currentNumb) ->
    (accountsByIdRank (Js.string_of_Z c) < accountsByIdRank currentNumb)%nat.
Proof.
  intros x c. unfold GetAccountBalance.childrenOf. rewrite in_map_iff.
  intros (node & <- & Hin). apply filter_In in Hin. destruct Hin as [Hin E].
  destruct Hin as [<-|[<-|[<-|[]]]];
    cbn [AccountData.ParentNumber] in E; try discriminate E;
    apply String.eqb_eq in E; subst x; vm_compute; lia.
Qed.

Lemma X22_witness :
  GetAccountBalance.getChildrenByNumber 4 accountsById "1" = Some [1; 2; 3]
  /\ exists rest : list Z,
       (forall fuel : nat,
           (accountsByIdRank "1" < fuel)%nat ->
           GetAccountBalance.getChildrenByNumber fuel accountsById "1"
           = Some (match List.find (fun node =>
                                      String.eqb (AccountData.AccountNumber node) "1")
                                   accountsById with
                   | Some selfAcc => [AccountData.Id selfAcc]
                   | None => []
                   end
                   ++ GetAccountBalance.childrenOf accountsById "1" ++ rest)%list)
       /\ Forall (fun i =>
                    exists c,
                      In c (GetAccountBalance.childrenOf accountsById "1" ++ rest)%list
                      /\ In i (GetAccountBalance.childrenOf accountsById (Js.string_of_Z c)))
                 rest.
Proof.
  split; [ reflexivity | ].
  exact (X22_getChildrenByNumber_descends_by_id_text accountsById accountsByIdRank
           accountsByIdRank_decreases "1").
Defined.

(** ** The [get-journals] tool: validation and compilation together *)

Section Journals.

Variable DU : DateUtil.t.
Variable request : SearchObj.t -> string -> string -> string + RestletResponse.t.

Lemma formatSearchObj_unknown_filter_column :
  forall type Columns params inbuiltFilter defaultSort settings fs f,
    NetSuiteParams.Filters params = Some fs ->
    In f fs ->
    Js.get Columns (FilterParam.Column f) = None ->
    is_ok (formatSearchObj DU type Columns params inbuiltFilter defaultSort settings) = false.
Proof.
  intros type Columns params inbuiltFilter defaultSort settings fs f HF Hin Hc.
  unfold formatSearchObj. cbv zeta.
  destruct (formatSearchObj_columns _ Columns) as [e|columns]; [ reflexivity | ].
  cbn [bind]. rewrite HF.
  pose proof (getFiltersSearch_absent_column_fatal DU Columns fs f Hin Hc) as H.
  destruct (getFiltersSearch DU Columns fs) as [e|filters]; [ reflexivity | discriminate H ].
Qed.

Lemma searchRestlet_unknown_filter_column :
  forall env type Columns params inbuiltFilter defaultSort settings fs f,
    NetSuiteParams.Filters params = Some fs ->
    In f fs ->
    Js.get Columns (FilterParam.Column f) = None ->
    is_ok (searchRestlet DU request env type Columns params inbuiltFilter defaultSort settings)
    = false.
Proof.
  intros env type Columns params inbuiltFilter defaultSort settings fs f HF Hin Hc.
  unfold searchRestlet, searchRestletParams.
  pose proof (formatSearchObj_unknown_filter_column type Columns params inbuiltFilter
                defaultSort settings fs f HF Hin Hc) as H.
  destruct (formatSearchObj DU type Columns params inbuiltFilter defaultSort settings)
    as [e|obj]; [ reflexivity | discriminate H ].
Qed.

Lemma existsb_find_None :
  forall {A} (p : A -> bool) l, existsb p l = false -> List.find p l = None.
Proof.
  intros A p l H. pose proof (find_existsb p l) as E. rewrite H in E.
  destruct (List.find p l); [ discriminate E | reflexivity ].
Qed.

Lemma In_find_Some :
  forall {A} (p : A -> bool) l x, In x l -> p x = true -> exists y, List.find p l = Some y.
Proof.
  intros A p l x Hin Hp. induction l as [|a l IH]; [ contradiction | ].
  cbn [List.find]. destruct (p a) eqn:E; [ exists a; reflexivity | ].
  destruct Hin as [->|Hin]; [ rewrite Hp in E; discriminate E | exact (IH Hin) ].
Qed.

(** X23.  [validateParamFilters] takes a filter on [DueDate] for the date
    filter it requires, but the [get-journals] tool has no column of that
    name: a request with such a filter (and none on [Period]) passes the
    validation and then always ends in the error reply, whatever the
    settings and whatever the backend would answer. *)
Theorem X23_getJournals_accepts_DueDate_then_fails :
  forall (env : Env.t) (input : NetSuiteParams.t) (fs : list FilterParam.t)
         (f : FilterParam.t),
    NetSuiteParams.Filters input = Some fs ->
    In f fs ->
    FilterParam.Column f = "DueDate" ->
    existsb isPeriodFilter fs = false ->
    validateParamFilters input ParamCheck.empty = ok tt
    /\ exists message,
         GetJournalsTool.handler DU request env input = GetJournalsTool.IsError message.
Proof.
  intros env input fs f HF Hin Hc Hp.
  assert (validateParamFilters input ParamCheck.empty = ok tt) as V.
  { unfold validateParamFilters. cbv zeta. rewrite HF.
    cbn [ParamCheck.empty ParamCheck.period ParamCheck.date].
    destruct fs as [|f0 fs0]; [ contradiction | ]. cbn [bind ok].
    rewrite (existsb_find_None _ _ Hp). cbn [bind ok].
    destruct (In_find_Some isDateFilter (f0 :: fs0) f Hin) as [y ->]; [ | reflexivity ].
    unfold isDateFilter. rewrite Hc. reflexivity. }
  split; [ exact V | ].
  unfold GetJournalsTool.handler. rewrite V. cbn [bind ok].
  pose proof (searchRestlet_unknown_filter_column env "transaction" GetJournalsTool.Columns
                input GetJournalsTool.filters GetJournalsTool.defaultSort None fs f HF Hin) as H.
  rewrite Hc in H. specialize (H eq_refl).
  destruct (searchRestlet DU request env "transaction" GetJournalsTool.Columns input
                          GetJournalsTool.filters GetJournalsTool.defaultSort None)
    as [e|r]; [ | discriminate H ].
  eexists. reflexivity.
Qed.

End Journals.

Lemma X23_witness :
  validateParamFilters
    (NetSuiteParams.mk None None (Some [FilterParam.mk "DueDate" ">=" "2024-01-01"]) None None)
    ParamCheck.empty
  = ok tt
  /\ exists message,
       GetJournalsTool.handler Inputs.noDates
         (fun _ _ _ => inr (RestletResponse.mk (Some true) None None))
         (Env.mk (Some "https://example.invalid/restlet") (Some "token"))
         (NetSuiteParams.mk None None (Some [FilterParam.mk "DueDate" ">=" "2024-01-01"])
                            None None)
       = GetJournalsTool.IsError message.
Proof.
  apply (X23_getJournals_accepts_DueDate_then_fails Inputs.noDates
           (fun _ _ _ => inr (RestletResponse.mk (Some true) None None))
           (Env.mk (Some "https://example.invalid/restlet") (Some "token"))
           (NetSuiteParams.mk None None (Some [FilterParam.mk "DueDate" ">=" "2024-01-01"])
                              None None)
           [FilterParam.mk "DueDate" ">=" "2024-01-01"]
           (FilterParam.mk "DueDate" ">=" "2024-01-01")).
  - reflexivity.
  - left. reflexivity.
  - reflexivity.
  - reflexivity.
Defined.

(** ** The [get-accounts] tool from end to end *)

Section GetAccountsEndToEnd.

Variable DU : DateUtil.t.
Variable ExecutorState : Type.
Variable executeSuiteQL :
  ExecutorState -> string -> Z -> Result SuiteQLResult.t * ExecutorState.

(** X24.  Outside count mode, when the executor answers the compiled
    statement with [pages], each reporting more data, and then with a last
    page reporting none, [get-accounts] replies with the normalized rows of
    all the pages in request order, each with its parent number resolved
    against the whole of the fetched rows (a parent on a later page is
    found as well) and its id rendered as text, after one request per
    page. *)
Theorem X24_getAccounts_replies_with_all_rows_resolved :
  forall (input : NetSuiteParams.t) (query : string) (s0 s s' : ExecutorState)
         (pages : list SuiteQLResult.t) (last : SuiteQLResult.t),
    isCountOnly input = false ->
    GetAccountsTool.formattedSQL DU input = ok query ->
    answers ExecutorState executeSuiteQL query s0 0 pages s ->
    executeSuiteQL s query (offsetAfter 0 pages) = (ok last, s') ->
    SuiteQLResult.hasMore last = false ->
    forall n : nat,
      GetAccountsTool.handler DU ExecutorState executeSuiteQL (S (length pages) + n) input s0
      = Some (GetAccountsTool.Accounts
                (map (fun row =>
                        GetAccountsTool.stringifyId
                          (ParentNumber.resolved
                             (normalizedPages DU GetAccountsTool.Columns (pages ++ [last]))
                             row))
                     (normalizedPages DU GetAccountsTool.Columns (pages ++ [last]))),
              pageTrace query 0 (pages ++ [last]), s').
Proof.
  intros input query s0 s s' pages last Hc Hq Ha He Hm n.
  unfold GetAccountsTool.handler. rewrite Hq, cleanInput_CountOnly, Hc.
  unfold ok at 1. cbv beta iota.
  rewrite (fetchAll_pages DU ExecutorState executeSuiteQL query GetAccountsTool.Columns
             s0 s s' pages last Ha He Hm n).
  unfold ok. cbv beta iota.
  rewrite updateParentNumberFromId_map, map_map. reflexivity.
Qed.

End GetAccountsEndToEnd.

Lemma X24_witness :
  GetAccountsTool.handler Inputs.noDates nat Stubs.accountsExecutor 2
                          NetSuiteParams.empty 0%nat
  = Some (GetAccountsTool.Accounts
            [ [ ("Id", Js.JStr "1"); ("AccountNumber", Js.JStr "4000") ];
              [ ("Id", Js.JStr "2"); ("AccountNumber", Js.JStr "4010");
                ("ParentNumber", Js.JStr "4000") ];
              [ ("Id", Js.JStr "3"); ("AccountNumber", Js.JStr "4011");
                ("ParentNumber", Js.JStr "4010") ] ],
          pageTrace
            ("SELECT  a.Id AS Id, a.accountSearchDisplayNameCopy AS Name, "
               ++ "a.acctNumber AS AccountNumber, a.parent AS ParentId, "
               ++ "BUILTIN.DF(a.acctType) AS Type FROM Account a")
            0 [ Stubs.accountsPage 0; Stubs.accountsPage 1 ],
          2%nat).
Proof.
  refine (X24_getAccounts_replies_with_all_rows_resolved Inputs.noDates nat
            Stubs.accountsExecutor NetSuiteParams.empty _ 0%nat 1%nat 2%nat
            [ Stubs.accountsPage 0 ] (Stubs.accountsPage 1)
            eq_refl eq_refl _ eq_refl eq_refl 0%nat).
  apply (answers_more nat Stubs.accountsExecutor _ 0%nat 0 _ 1%nat); try reflexivity.
  apply answers_none.
Defined.
